(** * crawl_navigator: the decision pipeline of the DCSS bot

    A shallow embedding of
    - [src/decision_engine.py]  (rule engine, [create_default_engine]),
    - [src/bot.py]              ([_calculate_direction_to_enemy]),
    - [src/game_state.py]       ([GameStateParser]),
    - [src/state_machines/char_creation_state_machine.py].

    Conventions of the embedding.
    - Python [int] is [Z]; Python [float] is an IEEE-754 binary64 value,
      [spec_float] with precision 53 and maximal exponent 1024.
    - Python [str] is [string]; a character is one of the code points 0..255.
    - An object that is mutated in place is a record that is passed in and
      returned.
    - A Python exception is the [Raise] branch of [result]. *)

From Stdlib Require Import ZArith String Ascii List Bool Lia.
From Stdlib Require Import SpecFloat DecimalString.
Import ListNotations.

Open Scope string_scope.
Open Scope list_scope.
Open Scope Z_scope.

(** ** Python values shared by all modules *)

Module Py.

Inductive exn : Type :=
| ZeroDivisionError
| OverflowError
| TransitionNotAllowed.

Inductive result (A : Type) : Type :=
| Ok (a : A)
| Raise (e : exn).
Arguments Ok {A} a.
Arguments Raise {A} e.

Definition bind {A B : Type} (m : result A) (f : A -> result B) : result B :=
  match m with
  | Ok a => f a
  | Raise e => Raise e
  end.

(** binary64 *)
Definition prec : Z := 53.
Definition emax : Z := 1024.

(** [float(n)] for an [int] that a double represents exactly (all the
    literals of the program do). *)
Definition float_of_int (n : Z) : spec_float :=
  binary_normalize prec emax n 0 false.

(** [a / b] on two [int]s: the quotient rounded once to the nearest double,
    [OverflowError] when it is too large for a double. *)
Definition int_operand (n : Z) : spec_float :=
  match n with
  | Z0 => S754_zero false
  | Zpos p => S754_finite false p 0
  | Zneg p => S754_finite true p 0
  end.

Definition int_truediv (a b : Z) : result spec_float :=
  if b =? 0 then Raise ZeroDivisionError
  else
    match SFdiv prec emax (int_operand a) (int_operand b) with
    | S754_infinity _ => Raise OverflowError
    | q => Ok q
    end.

Definition float_mul (x y : spec_float) : spec_float := SFmul prec emax x y.

(** comparisons of a float with an [int] literal *)
Definition float_le_int (x : spec_float) (n : Z) : bool := SFleb x (float_of_int n).
Definition float_lt_int (x : spec_float) (n : Z) : bool := SFltb x (float_of_int n).
Definition float_ge_int (x : spec_float) (n : Z) : bool := SFleb (float_of_int n) x.
Definition float_gt_int (x : spec_float) (n : Z) : bool := SFltb (float_of_int n) x.

(** [str(n)] *)
Definition str_of_int (n : Z) : string := NilZero.string_of_int (Z.to_int n).

(** Pieces of a formatted string: literal text, and a float printed with
    the format [:.1f]. *)
Inductive piece : Type :=
| Lit (s : string)
| Fixed1 (x : spec_float).

Definition text : Type := list piece.

Definition TAB : string := String "009"%char EmptyString.
Definition ESC : string := String "027"%char EmptyString.
Definition CTRL_R : string := String "018"%char EmptyString.

End Py.

Export Py.

Declare Scope py_scope.
Notation "x <- m ;; k" := (bind m (fun x => k))
  (at level 61, m at next level, right associativity) : py_scope.
Open Scope py_scope.

(** ** decision_engine.py *)

Module decision_engine.

Inductive Priority : Type :=
| CRITICAL
| URGENT
| HIGH
| NORMAL
| LOW.

Definition value (p : Priority) : Z :=
  match p with
  | CRITICAL => 1
  | URGENT => 5
  | HIGH => 10
  | NORMAL => 20
  | LOW => 30
  end.

Definition Priority_eqb (p q : Priority) : bool := value p =? value q.

Record DecisionContext : Type := {
  output : string;
  health : Z;
  max_health : Z;
  level : Z;
  dungeon_level : Z;
  enemy_detected : bool;
  enemy_name : string;
  items_on_ground : bool;
  in_shop : bool;
  in_inventory_screen : bool;
  in_item_pickup_menu : bool;
  in_menu : bool;
  equip_slot_pending : bool;
  quaff_slot_pending : bool;
  has_level_up : bool;
  has_more_prompt : bool;
  attribute_increase_prompt : bool;
  save_game_prompt : bool;
  last_action_sent : string;
  last_level_up_processed : Z;
  last_attribute_increase_level : Z;
  last_equipment_check : Z;
  last_inventory_refresh : Z;
  move_count : Z;
  has_gameplay_indicators : bool;
  gameplay_started : bool;
  goto_state : option string;
  goto_target_level : Z
}.

Definition health_percentage (ctx : DecisionContext) : result spec_float :=
  if max_health ctx <=? 0 then Ok (float_of_int 100)
  else
    q <- int_truediv (health ctx) (max_health ctx) ;;
    Ok (float_mul q (float_of_int 100)).

Record Rule : Type := {
  name : string;
  priority : Priority;
  condition : DecisionContext -> result bool;
  action : DecisionContext -> result (string * text)
}.

Record DecisionEngine : Type := { rules : list Rule }.

Definition new_engine : DecisionEngine := {| rules := [] |}.

Definition add_rule (engine : DecisionEngine) (rule : Rule) : DecisionEngine :=
  {| rules := rules engine ++ [rule] |}.

(** [sorted(self.rules, key=lambda r: r.priority.value)]: a stable sort. *)
Fixpoint insert_rule (r : Rule) (l : list Rule) : list Rule :=
  match l with
  | [] => [r]
  | x :: l' =>
      if value (priority r) <=? value (priority x) then r :: l
      else x :: insert_rule r l'
  end.

Definition sorted (l : list Rule) : list Rule := fold_right insert_rule [] l.

Definition no_match : option string * text := (None, [Lit "No matching rules"]).

(** The loop of [decide]: the first rule whose condition is true and whose
    action returns supplies the result; a rule that raises is skipped. *)
Fixpoint evaluate (rs : list Rule) (ctx : DecisionContext) : option string * text :=
  match rs with
  | [] => no_match
  | rule :: rest =>
      match condition rule ctx with
      | Ok true =>
          match action rule ctx with
          | Ok (command, reason) => (Some command, reason)
          | Raise _ => evaluate rest ctx
          end
      | Ok false => evaluate rest ctx
      | Raise _ => evaluate rest ctx
      end
  end.

Definition decide (engine : DecisionEngine) (ctx : DecisionContext) : option string * text :=
  evaluate (sorted (rules engine)) ctx.

(** The rule that supplied the result of [evaluate]. *)
Fixpoint winner (rs : list Rule) (ctx : DecisionContext) : option Rule :=
  match rs with
  | [] => None
  | rule :: rest =>
      match condition rule ctx with
      | Ok true =>
          match action rule ctx with
          | Ok _ => Some rule
          | Raise _ => winner rest ctx
          end
      | _ => winner rest ctx
      end
  end.

(** [a and b] where only [b] can raise *)
Definition and_then (a : bool) (b : result bool) : result bool :=
  if a then b else Ok false.

Definition const_action (command reason : string) : DecisionContext -> result (string * text) :=
  fun _ => Ok (command, [Lit reason]).

Definition handled_by_caller : DecisionContext -> result (string * text) :=
  fun _ => Ok (EmptyString, [Lit EmptyString]).

Definition opt_str_eqb (o : option string) (s : string) : bool :=
  match o with
  | Some t => String.eqb t s
  | None => false
  end.

Definition default_rules : list Rule := [
  (* CRITICAL PRIORITY: Menu prompts and immediate threats *)
  {| name := "Equip slot prompt"; priority := CRITICAL;
     condition := fun ctx => Ok (equip_slot_pending ctx);
     action := handled_by_caller |};
  {| name := "Quaff slot prompt"; priority := CRITICAL;
     condition := fun ctx => Ok (quaff_slot_pending ctx);
     action := handled_by_caller |};
  {| name := "Attribute increase prompt"; priority := CRITICAL;
     condition := fun ctx =>
       Ok (attribute_increase_prompt ctx && (level ctx >? last_attribute_increase_level ctx));
     action := const_action "S" "Level-up: Increasing Strength" |};
  {| name := "Save game prompt"; priority := CRITICAL;
     condition := fun ctx => Ok (save_game_prompt ctx);
     action := const_action "n" "Rejecting save prompt - continuing gameplay" |};
  {| name := "More prompt"; priority := CRITICAL;
     condition := fun ctx => Ok (has_more_prompt ctx);
     action := const_action " " "Dismissing --more-- prompt" |};
  {| name := "Screen redraw (health unreadable)"; priority := CRITICAL;
     condition := fun ctx => Ok ((health ctx =? 0) && (max_health ctx =? 0));
     action := const_action CTRL_R "Requesting screen redraw (health display missing)" |};
  (* HIGH PRIORITY: Shop and menu handling *)
  {| name := "Shop detected"; priority := HIGH;
     condition := fun ctx => Ok (in_shop ctx);
     action := const_action ESC "Exiting shop (not buying)" |};
  {| name := "Item pickup menu"; priority := HIGH;
     condition := fun ctx => Ok (in_item_pickup_menu ctx);
     action := handled_by_caller |};
  {| name := "Inventory screen"; priority := HIGH;
     condition := fun ctx => Ok (in_inventory_screen ctx);
     action := handled_by_caller |};
  {| name := "In menu"; priority := HIGH;
     condition := fun ctx => Ok (in_menu ctx);
     action := const_action "." "Waiting in menu" |};
  (* URGENT PRIORITY: Level-up and damage recovery *)
  {| name := "Level-up with more prompt"; priority := URGENT;
     condition := fun ctx =>
       Ok (has_level_up ctx && has_more_prompt ctx
           && (level ctx >? last_level_up_processed ctx));
     action := const_action " " "Dismissing level-up --more-- prompt" |};
  {| name := "Level-up"; priority := URGENT;
     condition := fun ctx =>
       Ok (has_level_up ctx && (level ctx >? last_level_up_processed ctx));
     action := const_action "." "Level-up processed" |};
  {| name := "Items on ground"; priority := URGENT;
     condition := fun ctx => Ok (items_on_ground ctx);
     action := const_action "g" "Grabbing items from ground" |};
  {| name := "Better armor available"; priority := URGENT;
     condition := fun _ => Ok false;
     action := handled_by_caller |};
  {| name := "Untested potions"; priority := URGENT;
     condition := fun _ => Ok false;
     action := handled_by_caller |};
  (* NORMAL PRIORITY: Combat *)
  {| name := "Combat (low health - move to engage)"; priority := NORMAL;
     condition := fun ctx =>
       and_then (enemy_detected ctx)
                (p <- health_percentage ctx ;; Ok (float_le_int p 70));
     action := fun ctx =>
       p <- health_percentage ctx ;;
       Ok ("l", [Lit "Moving toward "; Lit (enemy_name ctx);
                 Lit " to engage (low health: "; Fixed1 p; Lit "%)"]) |};
  {| name := "Combat (autofight)"; priority := NORMAL;
     condition := fun ctx =>
       and_then (enemy_detected ctx)
                (p <- health_percentage ctx ;; Ok (float_gt_int p 70));
     action := fun ctx =>
       Ok (TAB, [Lit "Autofight - "; Lit (enemy_name ctx); Lit " in range"]) |};
  (* NORMAL PRIORITY: Goto (level descent) *)
  {| name := "Goto location type"; priority := NORMAL;
     condition := fun ctx => Ok (opt_str_eqb (goto_state ctx) "awaiting_location_type");
     action := const_action "D" "Selecting Dungeon from goto location menu" |};
  {| name := "Goto level number"; priority := NORMAL;
     condition := fun ctx => Ok (opt_str_eqb (goto_state ctx) "awaiting_level_number");
     action := fun ctx =>
       Ok (str_of_int (goto_target_level ctx),
           [Lit "Descending to dungeon level "; Lit (str_of_int (goto_target_level ctx))]) |};
  (* NORMAL PRIORITY: Health-based decisions *)
  {| name := "Rest after autofight"; priority := NORMAL;
     condition := fun ctx =>
       Ok (String.eqb (last_action_sent ctx) TAB && negb (enemy_detected ctx));
     action := const_action "." "Waiting after autofight" |};
  {| name := "Explore (good health)"; priority := NORMAL;
     condition := fun ctx =>
       and_then (has_gameplay_indicators ctx)
                (p <- health_percentage ctx ;; Ok (float_ge_int p 60));
     action := fun ctx =>
       p <- health_percentage ctx ;;
       Ok ("o", [Lit "Auto-explore (health: "; Fixed1 p; Lit "%)"]) |};
  {| name := "Rest to recover"; priority := NORMAL;
     condition := fun ctx =>
       and_then (has_gameplay_indicators ctx)
                (p <- health_percentage ctx ;; Ok (float_lt_int p 60));
     action := fun ctx =>
       p <- health_percentage ctx ;;
       Ok ("5", [Lit "Resting to recover (health: "; Fixed1 p; Lit "%)"]) |};
  (* LOW PRIORITY: Fallback actions *)
  {| name := "Explore (game not ready)"; priority := LOW;
     condition := fun ctx => Ok (has_gameplay_indicators ctx);
     action := const_action "o" "Auto-explore" |};
  {| name := "Waiting for gameplay"; priority := LOW;
     condition := fun ctx => Ok (negb (gameplay_started ctx));
     action := const_action "o" "Auto-explore (waiting for gameplay to start)" |};
  {| name := "Fallback exploration"; priority := LOW;
     condition := fun _ => Ok true;
     action := const_action "o" "Auto-explore (fallback)" |}
].

Definition create_default_engine : DecisionEngine :=
  fold_left add_rule default_rules new_engine.

(** *** Vocabulary of the statements *)

(** the rule's condition evaluates to true *)
Definition holds (ctx : DecisionContext) (r : Rule) : bool :=
  match condition r ctx with
  | Ok true => true
  | _ => false
  end.

(** some rule of the band has a condition that holds *)
Definition band_holds (e : DecisionEngine) (p : Priority) (ctx : DecisionContext) : bool :=
  existsb (fun r => (Priority_eqb (priority r) p && holds ctx r)%bool) (rules e).

(** the rule called [n] has a condition that holds *)
Definition rule_holds (e : DecisionEngine) (n : string) (ctx : DecisionContext) : bool :=
  existsb (fun r => (String.eqb (name r) n && holds ctx r)%bool) (rules e).

(** the rules evaluated before the rule called [n] *)
Fixpoint before (n : string) (rs : list Rule) : list Rule :=
  match rs with
  | [] => []
  | r :: rest => if String.eqb (name r) n then [] else r :: before n rest
  end.

(** the rule called [n] and the rules evaluated after it *)
Fixpoint from (n : string) (rs : list Rule) : list Rule :=
  match rs with
  | [] => []
  | r :: rest => if String.eqb (name r) n then rs else from n rest
  end.

Definition none_holds_before (e : DecisionEngine) (n : string) (ctx : DecisionContext) : bool :=
  forallb (fun r => negb (holds ctx r)) (before n (sorted (rules e))).

Definition band_of_decision (e : DecisionEngine) (ctx : DecisionContext) : option Priority :=
  option_map priority (winner (sorted (rules e)) ctx).

Definition has_priority (p : Priority) (r : Rule) : bool := Priority_eqb (priority r) p.

(** a list of rules in ascending order of priority value *)
Inductive ascending : list Rule -> Prop :=
| asc_nil : ascending []
| asc_cons r l :
    Forall (fun x => value (priority r) <= value (priority x)) l ->
    ascending l -> ascending (r :: l).

End decision_engine.

(** ** Python [str] methods *)

Module Str.

Definition code (c : ascii) : nat := nat_of_ascii c.

Definition between (lo hi : nat) (c : ascii) : bool :=
  (Nat.leb lo (code c) && Nat.leb (code c) hi)%bool.

(** [c.isspace()], which is also the class [\s] of a [str] pattern *)
Definition isspace (c : ascii) : bool :=
  (between 9 13 c || between 28 32 c || Nat.eqb (code c) 133 || Nat.eqb (code c) 160)%bool.

(** the class [\d] *)
Definition isdigit (c : ascii) : bool := between 48 57 c.

Definition isupper_ascii (c : ascii) : bool := between 65 90 c.
Definition islower_ascii (c : ascii) : bool := between 97 122 c.
Definition isalpha_ascii (c : ascii) : bool := (isupper_ascii c || islower_ascii c)%bool.

(** [c.lower()] *)
Definition lower_char (c : ascii) : ascii :=
  if (isupper_ascii c || (between 192 222 c && negb (Nat.eqb (code c) 215)))%bool
  then ascii_of_nat (code c + 32)
  else c.

Fixpoint lower (s : string) : string :=
  match s with
  | EmptyString => EmptyString
  | String c s' => String (lower_char c) (lower s')
  end.

Definition is_empty (s : string) : bool :=
  match s with
  | EmptyString => true
  | String _ _ => false
  end.

Definition len (s : string) : Z := Z.of_nat (String.length s).

Fixpoint startswith (p s : string) : bool :=
  match p, s with
  | EmptyString, _ => true
  | String a p', String b s' => (Ascii.eqb a b && startswith p' s')%bool
  | String _ _, EmptyString => false
  end.

(** [p in s] *)
Fixpoint contains (p s : string) : bool :=
  (startswith p s ||
   match s with
   | EmptyString => false
   | String _ s' => contains p s'
   end)%bool.

(** [s.index(p)], [None] standing for [ValueError] *)
Fixpoint index (p s : string) : option Z :=
  if startswith p s then Some 0
  else
    match s with
    | EmptyString => None
    | String _ s' => option_map Z.succ (index p s')
    end.

Fixpoint lstrip (s : string) : string :=
  match s with
  | EmptyString => EmptyString
  | String c s' => if isspace c then lstrip s' else s
  end.

Fixpoint rstrip (s : string) : string :=
  match s with
  | EmptyString => EmptyString
  | String c s' =>
      match rstrip s' with
      | EmptyString => if isspace c then EmptyString else String c EmptyString
      | t => String c t
      end
  end.

Definition strip (s : string) : string := rstrip (lstrip s).

Fixpoint last_char (s : string) : option ascii :=
  match s with
  | EmptyString => None
  | String c EmptyString => Some c
  | String _ s' => last_char s'
  end.

(** [s.endswith(c)] for a one-character [c] *)
Definition endswith_char (s : string) (c : ascii) : bool :=
  match last_char s with
  | Some a => Ascii.eqb a c
  | None => false
  end.

Definition NL : ascii := "010"%char.

(** [s.split('\n')] *)
Fixpoint split_lines (s : string) : list string :=
  match s with
  | EmptyString => [EmptyString]
  | String c s' =>
      if Ascii.eqb c NL then EmptyString :: split_lines s'
      else
        match split_lines s' with
        | [] => [String c EmptyString]
        | l :: ls => String c l :: ls
        end
  end.

Fixpoint join_lines (ls : list string) : string :=
  match ls with
  | [] => EmptyString
  | [l] => l
  | l :: ls' => String.append l (String NL (join_lines ls'))
  end.

(** [int(s)] for a run of digits *)
Definition digit_value (c : ascii) : Z := Z.of_nat (code c - 48).

Fixpoint int_of_digits_acc (acc : Z) (s : string) : Z :=
  match s with
  | EmptyString => acc
  | String c s' => int_of_digits_acc (10 * acc + digit_value c) s'
  end.

Definition int_of_digits (s : string) : Z := int_of_digits_acc 0 s.

(** the first [n] characters *)
Fixpoint take (n : nat) (s : string) : string :=
  match n, s with
  | S n', String c s' => String c (take n' s')
  | _, _ => EmptyString
  end.

End Str.

(** ** The fragment of Python's [re] that the program uses

    A backtracking matcher: alternatives are tried from left to right, a
    greedy repetition tries the longest run first, a lazy one the shortest,
    and [search] takes the leftmost position at which the pattern matches. *)

Module Re.

Import Str.

Definition charset : Type := ascii -> bool.

Inductive regex : Type :=
| Eps
| Chr (c : ascii)
| Cls (p : charset)
| Cat (r1 r2 : regex)
| Alt (r1 r2 : regex)
| Rep (greedy : bool) (lo : nat) (p : charset)
| Grp (n : nat) (r : regex)
| Bol.

Definition captures : Type := list (nat * string).

Fixpoint group (n : nat) (caps : captures) : string :=
  match caps with
  | [] => EmptyString
  | (i, s) :: rest => if Nat.eqb i n then s else group n rest
  end.

Definition swapcase_ascii (c : ascii) : ascii :=
  if isupper_ascii c then ascii_of_nat (code c + 32)
  else if islower_ascii c then ascii_of_nat (code c - 32)
  else c.

Section Exec.

Context {A : Type}.
(** the flag [re.IGNORECASE] *)
Variable ignorecase : bool.

Definition chr_match (c x : ascii) : bool :=
  (Ascii.eqb x c || (ignorecase && Ascii.eqb (swapcase_ascii x) c))%bool.

Definition cls_match (p : charset) (x : ascii) : bool :=
  (p x || (ignorecase && p (swapcase_ascii x)))%bool.

(** A continuation receives: whether the position is still the start of
    the text, the rest of the text, the groups captured so far. *)
Definition cont : Type := bool -> string -> captures -> option A.

Fixpoint rep_greedy (p : charset) (lo : nat) (bol : bool) (s : string)
         (caps : captures) (k : cont) : option A :=
  let stop := match lo with O => k bol s caps | S _ => None end in
  match s with
  | String x s' =>
      if cls_match p x then
        match rep_greedy p (Nat.pred lo) false s' caps k with
        | Some a => Some a
        | None => stop
        end
      else stop
  | EmptyString => stop
  end.

Fixpoint rep_lazy (p : charset) (lo : nat) (bol : bool) (s : string)
         (caps : captures) (k : cont) : option A :=
  let more :=
    match s with
    | String x s' =>
        if cls_match p x then rep_lazy p (Nat.pred lo) false s' caps k else None
    | EmptyString => None
    end in
  match lo with
  | O => match k bol s caps with
         | Some a => Some a
         | None => more
         end
  | S _ => more
  end.

(** the text between two positions, the second given by what is left *)
Definition consumed (s rest : string) : string :=
  take (String.length s - String.length rest) s.

Fixpoint exec (r : regex) (bol : bool) (s : string) (caps : captures)
         (k : cont) : option A :=
  match r with
  | Eps => k bol s caps
  | Chr c =>
      match s with
      | String x s' => if chr_match c x then k false s' caps else None
      | EmptyString => None
      end
  | Cls p =>
      match s with
      | String x s' => if cls_match p x then k false s' caps else None
      | EmptyString => None
      end
  | Cat r1 r2 => exec r1 bol s caps (fun b s' c' => exec r2 b s' c' k)
  | Alt r1 r2 =>
      match exec r1 bol s caps k with
      | Some a => Some a
      | None => exec r2 bol s caps k
      end
  | Rep greedy lo p =>
      if greedy then rep_greedy p lo bol s caps k else rep_lazy p lo bol s caps k
  | Grp n r1 =>
      exec r1 bol s caps (fun b s' c' => k b s' ((n, consumed s s') :: c'))
  | Bol => if bol then k bol s caps else None
  end.

End Exec.

(** A match: the text after it, and its groups. *)
Definition match_at (ignorecase : bool) (r : regex) (bol : bool) (s : string)
  : option (string * captures) :=
  exec ignorecase r bol s [] (fun _ rest caps => Some (rest, caps)).

Fixpoint search_from (ignorecase : bool) (r : regex) (bol : bool) (s : string)
  : option (string * captures) :=
  match match_at ignorecase r bol s with
  | Some m => Some m
  | None =>
      match s with
      | String _ s' => search_from ignorecase r false s'
      | EmptyString => None
      end
  end.

(** [re.search(r, s)] and [re.search(r, s, re.IGNORECASE)] *)
Definition search (ignorecase : bool) (r : regex) (s : string) : option captures :=
  option_map snd (search_from ignorecase r true s).

(** [re.sub(r, '', s)]: [skip] characters of a match are still to be dropped *)
Fixpoint remove_from (r : regex) (skip : nat) (bol : bool) (s : string) : string :=
  match s with
  | EmptyString => EmptyString
  | String c s' =>
      match skip with
      | S n => remove_from r n false s'
      | O =>
          match match_at false r bol s with
          | Some (rest, _) =>
              match (String.length s - String.length rest)%nat with
              | O => String c (remove_from r O false s')
              | S n => remove_from r n false s'
              end
          | None => String c (remove_from r O false s')
          end
      end
  end.

Definition remove_all (r : regex) (s : string) : string := remove_from r O true s.

(** Writing patterns *)
Definition seq (rs : list regex) : regex := fold_right Cat Eps rs.

Fixpoint lit (s : string) : regex :=
  match s with
  | EmptyString => Eps
  | String c s' => Cat (Chr c) (lit s')
  end.

Definition plus (p : charset) : regex := Rep true 1 p.
Definition star (p : charset) : regex := Rep true 0 p.
Definition just (c : ascii) : charset := fun x => Ascii.eqb x c.
Definition either (p q : charset) : charset := fun x => (p x || q x)%bool.
Definition except (p : charset) : charset := fun x => negb (p x).
Definition one_of (s : string) : charset := fun x => contains (String x EmptyString) s.
(** [.] without [re.DOTALL] *)
Definition dot : charset := except (just NL).

(** [\x1b\[[^\x1b]*?[a-zA-Z]|\x1b\([B0UK]] *)
Definition ansi_escape : regex :=
  Alt (seq [Chr "027"; Chr "["; Rep false 0 (except (just "027")); Cls isalpha_ascii])
      (seq [Chr "027"; Chr "("; Cls (one_of "B0UK")]).

(** [_clean_ansi], the same in [bot.py] and in [game_state.py] *)
Definition _clean_ansi (text : string) : string := remove_all ansi_escape text.

End Re.

(** ** bot.py: the direction toward an enemy *)

Module bot.

Import Str Re.

(** [r'^([a-zA-Z])\s{3,}' + re.escape(enemy_name)] *)
Definition enemy_symbol_pattern (enemy_name : string) : regex :=
  seq [Bol; Grp 1 (Cls isalpha_ascii); Rep true 3 isspace; lit enemy_name].

(** the first loop: the symbol of the first monster-list line that
    matches; the loop leaves at the first match *)
Fixpoint find_enemy_symbol (enemy_name : string) (lines : list string) : option string :=
  match lines with
  | [] => None
  | line :: rest =>
      if contains enemy_name line then
        match search false (enemy_symbol_pattern enemy_name) line with
        | Some m => Some (group 1 m)
        | None => find_enemy_symbol enemy_name rest
        end
      else find_enemy_symbol enemy_name rest
  end.

Record positions : Type := {
  player_row : option Z;
  player_col : option Z;
  enemy_row : option Z;
  enemy_col : option Z
}.

Definition no_positions : positions :=
  {| player_row := None; player_col := None; enemy_row := None; enemy_col := None |}.

(** the second loop, over [enumerate(lines[:21])]; a later row overwrites
    what an earlier row has set *)
Fixpoint scan_map (enemy_symbol : string) (row_idx : Z) (lines : list string)
         (acc : positions) : positions :=
  match lines with
  | [] => acc
  | line :: rest =>
      let acc1 :=
        if contains "@" line then
          {| player_row := Some row_idx; player_col := index "@" line;
             enemy_row := enemy_row acc; enemy_col := enemy_col acc |}
        else acc in
      let acc2 :=
        if contains enemy_symbol line then
          if row_idx <=? 20 then
            {| player_row := player_row acc1; player_col := player_col acc1;
               enemy_row := Some row_idx; enemy_col := index enemy_symbol line |}
          else acc1
        else acc1 in
      scan_map enemy_symbol (row_idx + 1) rest acc2
  end.

Definition direction_of (row_diff col_diff : Z) : string :=
  if Z.abs row_diff >? Z.abs col_diff then
    if row_diff >? 0 then "j" else "k"
  else if Z.abs col_diff >? Z.abs row_diff then
    if col_diff >? 0 then "l" else "h"
  else
    if row_diff >? 0 then
      if col_diff >? 0 then "n" else "b"
    else
      if col_diff >? 0 then "u" else "y".

Definition _calculate_direction_to_enemy (output enemy_name : string) : option string :=
  if (is_empty output || is_empty enemy_name)%bool then None
  else
    let clean := _clean_ansi output in
    let lines := split_lines clean in
    match find_enemy_symbol enemy_name lines with
    | None => None
    | Some enemy_symbol =>
        let found := scan_map enemy_symbol 0 (firstn 21 lines) no_positions in
        match player_row found, player_col found, enemy_row found, enemy_col found with
        | Some pr, Some pc, Some er, Some ec =>
            let row_diff := er - pr in
            let col_diff := ec - pc in
            Some (direction_of row_diff col_diff)
        | _, _, _, _ => None
        end
    end.

End bot.

(** ** game_state.py *)

Module game_state.

Import Str Re.

Record Position : Type := { x : Z; y : Z }.

Record InventoryItem : Type := {
  slot : string;
  name : string;
  quantity : Z;
  identified : bool;
  color : option string;
  item_type : string;
  ac_value : Z;
  is_equipped : bool;
  equipment_slot : option string
}.

(** A [dict] is kept as the list of its items in insertion order, each key
    once. *)
Record GameState : Type := {

  position : option Position;
  dungeon_branch : string;
  dungeon_level : Z;
  health : Z;
  max_health : Z;
  mana : Z;
  max_mana : Z;
  gold : Z;
  experience_level : Z;
  experience_progress : Z;
  hunger_level : string;
  status_line : string;
  message_line : string;
  inventory : list string;
  visible_map : list string;
  inventory_items : list (string * InventoryItem);
  identified_potions : list (string * string);
  untested_potions : list (string * string);
  items_on_ground : list (string * Z);
  equipped_items : list (string * InventoryItem);
  current_ac : Z

}.

Definition new_state : GameState := {|
  position := None;
  dungeon_branch := "Dungeon";
  dungeon_level := 1;
  health := 0;
  max_health := 0;
  mana := 0;
  max_mana := 0;
  gold := 0;
  experience_level := 1;
  experience_progress := 0;
  hunger_level := "satisfied";
  status_line := EmptyString;
  message_line := EmptyString;
  inventory := [];
  visible_map := [];
  inventory_items := [];
  identified_potions := [];
  untested_potions := [];
  items_on_ground := [];
  equipped_items := [];
  current_ac := 10
|}.

(** Assignments to the attributes of [self.state] *)

Definition set_dungeon (b : string) (n : Z) (st : GameState) : GameState :=
  {| position := position st;
     dungeon_branch := b;
     dungeon_level := n;
     health := health st;
     max_health := max_health st;
     mana := mana st;
     max_mana := max_mana st;
     gold := gold st;
     experience_level := experience_level st;
     experience_progress := experience_progress st;
     hunger_level := hunger_level st;
     status_line := status_line st;
     message_line := message_line st;
     inventory := inventory st;
     visible_map := visible_map st;
     inventory_items := inventory_items st;
     identified_potions := identified_potions st;
     untested_potions := untested_potions st;
     items_on_ground := items_on_ground st;
     equipped_items := equipped_items st;
     current_ac := current_ac st |}.

Definition set_health (h : Z) (m : Z) (st : GameState) : GameState :=
  {| position := position st;
     dungeon_branch := dungeon_branch st;
     dungeon_level := dungeon_level st;
     health := h;
     max_health := m;
     mana := mana st;
     max_mana := max_mana st;
     gold := gold st;
     experience_level := experience_level st;
     experience_progress := experience_progress st;
     hunger_level := hunger_level st;
     status_line := status_line st;
     message_line := message_line st;
     inventory := inventory st;
     visible_map := visible_map st;
     inventory_items := inventory_items st;
     identified_potions := identified_potions st;
     untested_potions := untested_potions st;
     items_on_ground := items_on_ground st;
     equipped_items := equipped_items st;
     current_ac := current_ac st |}.

Definition set_mana (h : Z) (m : Z) (st : GameState) : GameState :=
  {| position := position st;
     dungeon_branch := dungeon_branch st;
     dungeon_level := dungeon_level st;
     health := health st;
     max_health := max_health st;
     mana := h;
     max_mana := m;
     gold := gold st;
     experience_level := experience_level st;
     experience_progress := experience_progress st;
     hunger_level := hunger_level st;
     status_line := status_line st;
     message_line := message_line st;
     inventory := inventory st;
     visible_map := visible_map st;
     inventory_items := inventory_items st;
     identified_potions := identified_potions st;
     untested_potions := untested_potions st;
     items_on_ground := items_on_ground st;
     equipped_items := equipped_items st;
     current_ac := current_ac st |}.

Definition set_experience_level (n : Z) (st : GameState) : GameState :=
  {| position := position st;
     dungeon_branch := dungeon_branch st;
     dungeon_level := dungeon_level st;
     health := health st;
     max_health := max_health st;
     mana := mana st;
     max_mana := max_mana st;
     gold := gold st;
     experience_level := n;
     experience_progress := experience_progress st;
     hunger_level := hunger_level st;
     status_line := status_line st;
     message_line := message_line st;
     inventory := inventory st;
     visible_map := visible_map st;
     inventory_items := inventory_items st;
     identified_potions := identified_potions st;
     untested_potions := untested_potions st;
     items_on_ground := items_on_ground st;
     equipped_items := equipped_items st;
     current_ac := current_ac st |}.

Definition set_experience_progress (n : Z) (st : GameState) : GameState :=
  {| position := position st;
     dungeon_branch := dungeon_branch st;
     dungeon_level := dungeon_level st;
     health := health st;
     max_health := max_health st;
     mana := mana st;
     max_mana := max_mana st;
     gold := gold st;
     experience_level := experience_level st;
     experience_progress := n;
     hunger_level := hunger_level st;
     status_line := status_line st;
     message_line := message_line st;
     inventory := inventory st;
     visible_map := visible_map st;
     inventory_items := inventory_items st;
     identified_potions := identified_potions st;
     untested_potions := untested_potions st;
     items_on_ground := items_on_ground st;
     equipped_items := equipped_items st;
     current_ac := current_ac st |}.

Definition set_gold (n : Z) (st : GameState) : GameState :=
  {| position := position st;
     dungeon_branch := dungeon_branch st;
     dungeon_level := dungeon_level st;
     health := health st;
     max_health := max_health st;
     mana := mana st;
     max_mana := max_mana st;
     gold := n;
     experience_level := experience_level st;
     experience_progress := experience_progress st;
     hunger_level := hunger_level st;
     status_line := status_line st;
     message_line := message_line st;
     inventory := inventory st;
     visible_map := visible_map st;
     inventory_items := inventory_items st;
     identified_potions := identified_potions st;
     untested_potions := untested_potions st;
     items_on_ground := items_on_ground st;
     equipped_items := equipped_items st;
     current_ac := current_ac st |}.

Definition set_hunger_level (s : string) (st : GameState) : GameState :=
  {| position := position st;
     dungeon_branch := dungeon_branch st;
     dungeon_level := dungeon_level st;
     health := health st;
     max_health := max_health st;
     mana := mana st;
     max_mana := max_mana st;
     gold := gold st;
     experience_level := experience_level st;
     experience_progress := experience_progress st;
     hunger_level := s;
     status_line := status_line st;
     message_line := message_line st;
     inventory := inventory st;
     visible_map := visible_map st;
     inventory_items := inventory_items st;
     identified_potions := identified_potions st;
     untested_potions := untested_potions st;
     items_on_ground := items_on_ground st;
     equipped_items := equipped_items st;
     current_ac := current_ac st |}.

Definition set_status_line (s : string) (st : GameState) : GameState :=
  {| position := position st;
     dungeon_branch := dungeon_branch st;
     dungeon_level := dungeon_level st;
     health := health st;
     max_health := max_health st;
     mana := mana st;
     max_mana := max_mana st;
     gold := gold st;
     experience_level := experience_level st;
     experience_progress := experience_progress st;
     hunger_level := hunger_level st;
     status_line := s;
     message_line := message_line st;
     inventory := inventory st;
     visible_map := visible_map st;
     inventory_items := inventory_items st;
     identified_potions := identified_potions st;
     untested_potions := untested_potions st;
     items_on_ground := items_on_ground st;
     equipped_items := equipped_items st;
     current_ac := current_ac st |}.

Definition set_message_line (s : string) (st : GameState) : GameState :=
  {| position := position st;
     dungeon_branch := dungeon_branch st;
     dungeon_level := dungeon_level st;
     health := health st;
     max_health := max_health st;
     mana := mana st;
     max_mana := max_mana st;
     gold := gold st;
     experience_level := experience_level st;
     experience_progress := experience_progress st;
     hunger_level := hunger_level st;
     status_line := status_line st;
     message_line := s;
     inventory := inventory st;
     visible_map := visible_map st;
     inventory_items := inventory_items st;
     identified_potions := identified_potions st;
     untested_potions := untested_potions st;
     items_on_ground := items_on_ground st;
     equipped_items := equipped_items st;
     current_ac := current_ac st |}.

Record GameStateParser : Type := {
  state : GameState;
  last_health : Z * Z;
  last_mana : Z * Z;
  last_screen_output : string
}.

(** [GameStateParser()] *)
Definition new_parser : GameStateParser :=
  {| state := set_mana 0 0 (set_health 10 10 new_state);
     last_health := (10, 10);
     last_mana := (0, 0);
     last_screen_output := EmptyString |}.

(** [int(m.group(n))]; the groups of the patterns below are runs of digits *)
Definition int_group (n : nat) (m : captures) : Z := int_of_digits (group n m).

Definition digits : regex := plus isdigit.
Definition colon_or_space : charset := either (just ":") isspace.

(** [([A-Za-z]+):(\d+)] *)
Definition branch_pattern : regex :=
  seq [Grp 1 (plus isalpha_ascii); Chr ":"; Grp 2 digits].

Definition hp_patterns : list regex := [
  (* Health[:\s]+(\d+)/(\d+) *)
  seq [lit "Health"; plus colon_or_space; Grp 1 digits; Chr "/"; Grp 2 digits];
  (* HP[:\s]+(\d+)/(\d+) *)
  seq [lit "HP"; plus colon_or_space; Grp 1 digits; Chr "/"; Grp 2 digits];
  (* (\d+)/(\d+)\s+hp *)
  seq [Grp 1 digits; Chr "/"; Grp 2 digits; plus isspace; lit "hp"]
].

Definition mana_patterns : list regex := [
  (* Magic\s+(\d+)/(\d+) *)
  seq [lit "Magic"; plus isspace; Grp 1 digits; Chr "/"; Grp 2 digits];
  (* MP[:\s]+(\d+)/(\d+) *)
  seq [lit "MP"; plus colon_or_space; Grp 1 digits; Chr "/"; Grp 2 digits];
  (* (\d+)/(\d+)\s+mp *)
  seq [Grp 1 digits; Chr "/"; Grp 2 digits; plus isspace; lit "mp"]
].

(** [XL:\s*(\d+)] *)
Definition xl_pattern : regex := seq [lit "XL:"; star isspace; Grp 1 digits].
(** [Next:\s*(\d+)%] *)
Definition next_pattern : regex := seq [lit "Next:"; star isspace; Grp 1 digits; Chr "%"].
(** [Gold:\s*(\d+)] *)
Definition gold_pattern : regex := seq [lit "Gold:"; star isspace; Grp 1 digits].

Definition hunger_keywords : list string :=
  ["engorged"; "full"; "satisfied"; "hungry"; "very hungry"; "near starving"; "starving"].

Definition status_indicators : list string :=
  ["Health"; "HP"; "XL:"; "Time:"; "Depth:"; "Dungeon:"].

(** [for pattern in patterns: m = re.search(pattern, line, re.IGNORECASE);
    if m: ...; break] *)
Fixpoint first_search (patterns : list regex) (line : string) : option captures :=
  match patterns with
  | [] => None
  | pattern :: rest =>
      match search true pattern line with
      | Some m => Some m
      | None => first_search rest line
      end
  end.

(** [for hunger in hunger_keywords: if hunger in line.lower(): ...; break] *)
Definition first_hunger (line : string) : option string :=
  find (fun hunger => contains hunger (lower line)) hunger_keywords.

Definition _parse_status_line (line : string) (st : GameState) : GameState :=
  let st :=
    match search false branch_pattern line with
    | Some m => set_dungeon (group 1 m) (int_group 2 m) st
    | None => st
    end in
  let st :=
    match first_search hp_patterns line with
    | Some m => set_health (int_group 1 m) (int_group 2 m) st
    | None => st
    end in
  let st :=
    match first_search mana_patterns line with
    | Some m => set_mana (int_group 1 m) (int_group 2 m) st
    | None => st
    end in
  let st :=
    match search true xl_pattern line with
    | Some m => set_experience_level (int_group 1 m) st
    | None => st
    end in
  let st :=
    match search true next_pattern line with
    | Some m => set_experience_progress (int_group 1 m) st
    | None => st
    end in
  let st :=
    match search true gold_pattern line with
    | Some m => set_gold (int_group 1 m) st
    | None => st
    end in
  let st :=
    match first_hunger line with
    | Some hunger => set_hunger_level hunger st
    | None => st
    end in
  set_status_line line st.

Definition has_status (line : string) : bool :=
  existsb (fun indicator => contains indicator line) status_indicators.

(** [_parse_line]: the state after the call and the value returned *)
Definition _parse_line (line : string) (st : GameState) : GameState * bool :=
  if (is_empty line || (len (strip line) <? 2))%bool then (st, false)
  else if has_status line then (_parse_status_line line st, true)
  else if (endswith_char (strip line) "." || endswith_char (strip line) "?")%bool
       then (set_message_line (strip line) st, false)
       else (st, false).

(** the loop of [parse_output] over [clean_output.split('\n')] *)
Fixpoint parse_lines (lines : list string) (st : GameState) (found : bool)
  : GameState * bool :=
  match lines with
  | [] => (st, found)
  | line :: rest =>
      if is_empty (strip line) then parse_lines rest st found
      else
        let '(st', r) := _parse_line (strip line) st in
        parse_lines rest st' (r || found)%bool
  end.

(** [parse_output]: the parser after the call; the value returned is its
    [state]. A tuple of two is always true, so the tests [if
    self.last_health] and [if self.last_mana] always pass. *)
Definition parse_output (p : GameStateParser) (output : string) : GameStateParser :=
  if is_empty output then p
  else
    let clean_output := _clean_ansi output in
    let '(st, found_status_in_this_update) :=
      parse_lines (split_lines clean_output) (state p) false in
    let last_health' :=
      if ((health st >? 0) && (max_health st >? 0))%bool
      then (health st, max_health st) else last_health p in
    let last_mana' :=
      if ((mana st >=? 0) && (max_mana st >? 0))%bool
      then (mana st, max_mana st) else last_mana p in
    let st' :=
      if negb found_status_in_this_update
      then set_mana (fst last_mana') (snd last_mana')
             (set_health (fst last_health') (snd last_health') st)
      else st in
    {| state := st';
       last_health := last_health';
       last_mana := last_mana';
       last_screen_output := clean_output |}.

(** *** find_better_armor *)

(** [d.get(key)] *)
Fixpoint get {V : Type} (key : string) (d : list (string * V)) : option V :=
  match d with
  | [] => None
  | (k, v) :: rest => if String.eqb k key then Some v else get key rest
  end.

(** [x.sort(reverse=True, key=lambda x: x[0])]: stable, so that of two
    entries with the same improvement the one appended first stays first *)
Definition entry : Type := Z * string * InventoryItem.

Definition improvement_of (e : entry) : Z := fst (fst e).

Fixpoint insert_desc (e : entry) (l : list entry) : list entry :=
  match l with
  | [] => [e]
  | y :: l' =>
      if improvement_of y <=? improvement_of e then e :: l
      else y :: insert_desc e l'
  end.

Definition sort_desc (l : list entry) : list entry := fold_right insert_desc [] l.

(** [not item.equipment_slot] *)
Definition no_slot (o : option string) : bool :=
  match o with
  | Some s => is_empty s
  | None => true
  end.

Definition slot_name (o : option string) : string :=
  match o with
  | Some s => s
  | None => EmptyString
  end.

(** the body of the loop: what one inventory entry appends to
    [better_items] *)
Definition consider (st : GameState) (kv : string * InventoryItem) : list entry :=
  let '(slot, item) := kv in
  if (negb (String.eqb (item_type item) "armor") || no_slot (equipment_slot item))%bool
  then []
  else if is_equipped item then []
  else if ac_value item <? 0 then
    match get (slot_name (equipment_slot item)) (equipped_items st) with
    | Some current_equipped =>
        if ac_value item <? ac_value current_equipped
        then [(ac_value current_equipped - ac_value item, slot, item)]
        else []
    | None => [(Z.abs (ac_value item), slot, item)]
    end
  else [].

Definition better_items (st : GameState) : list entry :=
  flat_map (consider st) (inventory_items st).

Definition find_better_armor (st : GameState) : option (string * InventoryItem) :=
  match sort_desc (better_items st) with
  | (_, best_slot, best_item) :: _ => Some (best_slot, best_item)
  | [] => None
  end.

End game_state.

(** ** state_machines/char_creation_state_machine.py *)

Module char_creation_state_machine.

Import Str Re.

(** the enumeration [CharCreationStates], used as the key of the patterns *)
Inductive CharCreationStates : Type :=
| STARTUP | START | SPECIES | CLASS | BACKGROUND | SKILLS
| ABILITIES | DIFFICULTY | CONFIRMATION | GAMEPLAY | ERROR.

(** the [State] objects of the machine *)
Inductive State : Type :=
| startup | species | class_select | background | skills
| abilities | difficulty | confirmation | gameplay | error.

Definition State_eqb (a b : State) : bool :=
  match a, b with
  | startup, startup | species, species | class_select, class_select
  | background, background | skills, skills | abilities, abilities
  | difficulty, difficulty | confirmation, confirmation
  | gameplay, gameplay | error, error => true
  | _, _ => false
  end.

Definition id (s : State) : string :=
  match s with
  | startup => "startup"
  | species => "species"
  | class_select => "class_select"
  | background => "background"
  | skills => "skills"
  | abilities => "abilities"
  | difficulty => "difficulty"
  | confirmation => "confirmation"
  | gameplay => "gameplay"
  | error => "error"
  end.

(** A pattern of a [MenuTransitionPattern]: [Regex] when [is_regex], the
    literal text otherwise. *)
Inductive pattern : Type :=
| Regex (source : string) (r : regex)
| Plain (source : string).

Record MenuTransitionPattern : Type := {
  patterns : list pattern;
  case_sensitive : bool;
  match_all : bool
}.

(** [pattern if self.case_sensitive else pattern.lower()]: every source
    below is in lower case already, so the compiled [regex] of a [Regex]
    is the one of either. *)
Definition pattern_found (case_sens : bool) (test_text : string) (p : pattern) : bool :=
  match p with
  | Regex _ r =>
      match search false r test_text with
      | Some _ => true
      | None => false
      end
  | Plain source => contains (if case_sens then source else lower source) test_text
  end.

Definition matches (p : MenuTransitionPattern) (text : string) : bool :=
  let test_text := if case_sensitive p then text else lower text in
  if match_all p
  then forallb (pattern_found (case_sensitive p) test_text) (patterns p)
  else existsb (pattern_found (case_sensitive p) test_text) (patterns p).

Definition words (s : string) : pattern := Regex s (lit s).
(** [a.*b] *)
Definition gap (a b : string) : pattern :=
  Regex (String.append a (String.append ".*" b)) (seq [lit a; star dot; lit b]).

(** [_build_patterns]: the dictionary in insertion order *)
Definition transition_patterns : list (CharCreationStates * MenuTransitionPattern) := [
  (GAMEPLAY,
   {| patterns := [
        Regex "hp:\s+\d+/\d+" (seq [lit "hp:"; plus isspace; plus isdigit; Chr "/"; plus isdigit]);
        Regex "ac:\s+\d+" (seq [lit "ac:"; plus isspace; plus isdigit]);
        Regex "ev:\s+\d+" (seq [lit "ev:"; plus isspace; plus isdigit]) ];
      case_sensitive := false; match_all := true |});
  (SPECIES,
   {| patterns := [ words "select your species"; words "select your ancestry";
                    gap "choose" "race"; gap "choose" "species"; gap "which" "race";
                    words "please select your species" ];
      case_sensitive := false; match_all := false |});
  (CLASS,
   {| patterns := [ words "select your class"; gap "choose" "class"; gap "job" ":";
                    gap "profession" ":"; gap "which" "class";
                    words "please select your class" ];
      case_sensitive := false; match_all := false |});
  (BACKGROUND,
   {| patterns := [ words "select your background"; words "please select your background";
                    gap "choose" "background"; gap "religious" "choice" ];
      case_sensitive := false; match_all := false |});
  (SKILLS,
   {| patterns := [ gap "choose" "skill"; gap "select" "skill"; gap "skill" "point";
                    gap "skill" "aptitude"; gap "choice" "weapon"; gap "select" "weapon" ];
      case_sensitive := false; match_all := false |});
  (ABILITIES,
   {| patterns := [ words "ability"; gap "ability" "score"; gap "abil" ":";
                    gap "select" "ability" ];
      case_sensitive := false; match_all := false |});
  (DIFFICULTY,
   {| patterns := [ words "difficulty"; words "challenge"; words "permadeath" ];
      case_sensitive := false; match_all := false |});
  (STARTUP,
   {| patterns := [ Plain "enter your name:"; Plain "choose game seed"; Plain "tutorial";
                    Plain "hints mode"; Plain "dungeon sprint" ];
      case_sensitive := false; match_all := false |})
].

Record CharacterCreationStateMachine : Type := {
  current_state : State;
  screen_text : string;
  stuck_count : Z;
  max_stuck_threshold : Z;
  last_state : option State;
  state_history : list string
}.

(** [CharacterCreationStateMachine()] *)
Definition new_machine : CharacterCreationStateMachine :=
  {| current_state := startup;
     screen_text := EmptyString;
     stuck_count := 0;
     max_stuck_threshold := 3;
     last_state := None;
     state_history := ["start"] |}.

(** A declared transition [source.to(target)], called as an event: it
    moves the machine when it is in [source] and raises otherwise. *)
Definition fire (source target : State) (cur : State) : result State :=
  if State_eqb cur source then Ok target else Raise TransitionNotAllowed.

Definition startup_to_species := fire startup species.
Definition startup_error := fire startup error.
Definition species_to_class := fire species class_select.
Definition species_to_background := fire species background.
Definition species_to_gameplay := fire species gameplay.
Definition species_error := fire species error.
Definition class_to_background := fire class_select background.
Definition class_to_skills := fire class_select skills.
Definition class_to_gameplay := fire class_select gameplay.
Definition class_error := fire class_select error.
Definition background_to_skills := fire background skills.
Definition background_to_abilities := fire background abilities.
Definition background_to_difficulty := fire background difficulty.
Definition background_to_gameplay := fire background gameplay.
Definition background_error := fire background error.
Definition skills_to_abilities := fire skills abilities.
Definition skills_to_difficulty := fire skills difficulty.
Definition skills_to_gameplay := fire skills gameplay.
Definition skills_error := fire skills error.
Definition abilities_to_difficulty := fire abilities difficulty.
Definition abilities_to_confirmation := fire abilities confirmation.
Definition abilities_to_gameplay := fire abilities gameplay.
Definition abilities_error := fire abilities error.
Definition difficulty_to_confirmation := fire difficulty confirmation.
Definition difficulty_to_gameplay := fire difficulty gameplay.
Definition difficulty_error := fire difficulty error.
Definition confirmation_to_gameplay := fire confirmation gameplay.
Definition confirmation_error := fire confirmation error.
Definition error_retry := fire error species.

Definition _trigger_transition (target_state : CharCreationStates) (cur : State)
  : result State :=
  match target_state with
  | STARTUP => Ok cur
  | SPECIES =>
      if State_eqb cur startup then startup_to_species cur
      else Ok cur
  | CLASS =>
      if State_eqb cur species then species_to_class cur
      else Ok cur
  | BACKGROUND =>
      if State_eqb cur species then species_to_background cur
      else if State_eqb cur class_select then class_to_background cur
      else Ok cur
  | SKILLS =>
      if State_eqb cur class_select then class_to_skills cur
      else if State_eqb cur background then background_to_skills cur
      else Ok cur
  | ABILITIES =>
      if State_eqb cur background then background_to_abilities cur
      else if State_eqb cur skills then skills_to_abilities cur
      else Ok cur
  | DIFFICULTY =>
      if State_eqb cur background then background_to_difficulty cur
      else if State_eqb cur skills then skills_to_difficulty cur
      else if State_eqb cur abilities then abilities_to_difficulty cur
      else Ok cur
  | GAMEPLAY =>
      if existsb (State_eqb cur)
           [species; class_select; background; skills; abilities; difficulty; confirmation]
      then
        if State_eqb cur species then species_to_gameplay cur
        else if State_eqb cur class_select then class_to_gameplay cur
        else if State_eqb cur background then background_to_gameplay cur
        else if State_eqb cur skills then skills_to_gameplay cur
        else if State_eqb cur abilities then abilities_to_gameplay cur
        else if State_eqb cur difficulty then difficulty_to_gameplay cur
        else if State_eqb cur confirmation then confirmation_to_gameplay cur
        else Ok cur
      else Ok cur
  | START | CONFIRMATION | ERROR => Ok cur
  end.

(** [for target_state, pattern in self.transition_patterns.items(): if
    pattern.matches(self.screen_text): ...; break] *)
Fixpoint first_matching (pats : list (CharCreationStates * MenuTransitionPattern))
         (text : string) : option CharCreationStates :=
  match pats with
  | [] => None
  | (target_state, p) :: rest =>
      if matches p text then Some target_state else first_matching rest text
  end.

(** [_process_screen]: the current state after the call *)
Definition _process_screen (cur : State) (text : string) : result State :=
  if State_eqb cur gameplay then Ok cur
  else
    match first_matching transition_patterns text with
    | Some target_state => _trigger_transition target_state cur
    | None => Ok cur
    end.

Definition last_state_is (o : option State) (s : State) : bool :=
  match o with
  | Some t => State_eqb t s
  | None => false
  end.

(** [update]: the machine after the call; the value returned is the [id]
    of its current state *)
Definition update (m : CharacterCreationStateMachine) (text : string) : result CharacterCreationStateMachine :=
  let screen := lower text in
  let previous := current_state m in
  let stuck :=
    if last_state_is (last_state m) (current_state m) then stuck_count m + 1 else 0 in
  cur <- _process_screen (current_state m) screen ;;
  let history :=
    if negb (State_eqb previous cur) then state_history m ++ [id cur]
    else state_history m in
  Ok {| current_state := cur;
        screen_text := screen;
        stuck_count := stuck;
        max_stuck_threshold := max_stuck_threshold m;
        last_state := Some cur;
        state_history := history |}.

Definition is_stuck (m : CharacterCreationStateMachine) : bool := stuck_count m >=? max_stuck_threshold m.

Definition in_gameplay (m : CharacterCreationStateMachine) : bool := State_eqb (current_state m) gameplay.

(** a sequence of [update] calls *)
Fixpoint updates (m : CharacterCreationStateMachine) (screens : list string) : result CharacterCreationStateMachine :=
  match screens with
  | [] => Ok m
  | text :: rest => m' <- update m text ;; updates m' rest
  end.

End char_creation_state_machine.

(** ** Concrete inputs *)

Module Inputs.

Import decision_engine.

Definition NL : string := String Str.NL EmptyString.

(** A turn of ordinary play: 80 of 100 health points, nothing pending. *)
Definition context (output : string) (health max_health : Z)
           (enemy_detected : bool) (enemy_name : string)
           (items_on_ground in_shop has_more_prompt : bool)
           (goto_state : option string) (goto_target_level : Z) : DecisionContext :=
  {| output := output;
     health := health;
     max_health := max_health;
     level := 1;
     dungeon_level := 1;
     enemy_detected := enemy_detected;
     enemy_name := enemy_name;
     items_on_ground := items_on_ground;
     in_shop := in_shop;
     in_inventory_screen := false;
     in_item_pickup_menu := false;
     in_menu := false;
     equip_slot_pending := false;
     quaff_slot_pending := false;
     has_level_up := false;
     has_more_prompt := has_more_prompt;
     attribute_increase_prompt := false;
     save_game_prompt := false;
     last_action_sent := EmptyString;
     last_level_up_processed := 0;
     last_attribute_increase_level := 0;
     last_equipment_check := 0;
     last_inventory_refresh := 0;
     move_count := 0;
     has_gameplay_indicators := true;
     gameplay_started := true;
     goto_state := goto_state;
     goto_target_level := goto_target_level |}.

(** in a shop, with items on the ground *)
Definition shop_with_items : DecisionContext :=
  context EmptyString 80 100 false EmptyString true true false None 0.

(** a kobold two cells to the left of the player, health 50 of 100 *)
Definition kobold_screen : string :=
  String.append "K   kobold" (String.append NL "..K.@..").

Definition kobold_on_the_left : DecisionContext :=
  context kobold_screen 50 100 true "kobold" false false false None 0.

(** the same kobold, health 80 of 100 *)
Definition kobold_good_health : DecisionContext :=
  context kobold_screen 80 100 true "kobold" false false false None 0.

(** a --more-- prompt while a kobold is in view *)
Definition more_prompt_and_kobold : DecisionContext :=
  context kobold_screen 80 100 true "kobold" false false true None 0.

(** no enemy in view, health 60 of 100 and 59 of 100 *)
Definition quiet_at_60 : DecisionContext :=
  context EmptyString 60 100 false EmptyString false false false None 0.

Definition quiet_at_59 : DecisionContext :=
  context EmptyString 59 100 false EmptyString false false false None 0.

(** a kobold two cells to the right of the player *)
Definition kobold_on_the_right : string :=
  String.append "K   kobold" (String.append NL "..@.K..").

(** the two prompts of the goto sequence *)
Definition goto_location_prompt : DecisionContext :=
  context EmptyString 80 100 false EmptyString false false false
          (Some "awaiting_location_type") 2.

Definition goto_level_prompt : DecisionContext :=
  context EmptyString 80 100 false EmptyString false false false
          (Some "awaiting_level_number") 5.

(** the location prompt of the goto sequence while a kobold is in view *)
Definition kobold_at_location_prompt : DecisionContext :=
  context kobold_screen 80 100 true "kobold" false false false
          (Some "awaiting_location_type") 2.

(** the first step of the goto sequence: no prompt awaited yet *)
Definition goto_not_started : DecisionContext :=
  context EmptyString 80 100 false EmptyString false false false None 2.

(** screens of the character creation, and of play *)
Definition species_screen : string := "Please select your species".
Definition hud_screen : string := "HP: 10/10  AC: 3  EV: 4".
Definition class_screen : string := "Please select your class".

(** the machine after the species menu and the first frame of play *)
Definition machine_in_play : char_creation_state_machine.CharacterCreationStateMachine :=
  {| char_creation_state_machine.current_state := char_creation_state_machine.gameplay;
     char_creation_state_machine.screen_text := "hp: 10/10  ac: 3  ev: 4";
     char_creation_state_machine.stuck_count := 1;
     char_creation_state_machine.max_stuck_threshold := 3;
     char_creation_state_machine.last_state := Some char_creation_state_machine.gameplay;
     char_creation_state_machine.state_history := ["start"; "species"; "gameplay"] |}.

(** frames of the status panel *)
Definition healthy_frame : string := "Health: 23/23  Magic: 3/5  XL: 1 Next: 40%".
Definition out_of_range_frame : string := "Health: 50/23  XL: 1 Next: 250%".
Definition zero_health_frame : string := "Health: 0/23".
Definition blank_frame : string := "   ".

(** pieces of armor *)
Definition armor (slot name : string) (ac : Z) (equipped : bool) (where_ : string)
  : game_state.InventoryItem :=
  {| game_state.slot := slot;
     game_state.name := name;
     game_state.quantity := 1;
     game_state.identified := true;
     game_state.color := None;
     game_state.item_type := "armor";
     game_state.ac_value := ac;
     game_state.is_equipped := equipped;
     game_state.equipment_slot := Some where_ |}.

Definition wearing (equipped inventory : list (string * game_state.InventoryItem))
  : game_state.GameState :=
  {| game_state.position := None;
     game_state.dungeon_branch := "Dungeon";
     game_state.dungeon_level := 1;
     game_state.health := 10;
     game_state.max_health := 10;
     game_state.mana := 0;
     game_state.max_mana := 0;
     game_state.gold := 0;
     game_state.experience_level := 1;
     game_state.experience_progress := 0;
     game_state.hunger_level := "satisfied";
     game_state.status_line := EmptyString;
     game_state.message_line := EmptyString;
     game_state.inventory := [];
     game_state.visible_map := [];
     game_state.inventory_items := inventory;
     game_state.identified_potions := [];
     game_state.untested_potions := [];
     game_state.items_on_ground := [];
     game_state.equipped_items := equipped;
     game_state.current_ac := 10 |}.

Definition leather_armour := armor "c" "a +1 leather armour" (-1) true "body".
Definition helmet := armor "a" "a +2 helmet" (-2) false "head".
Definition chain_mail := armor "b" "a +6 chain mail" (-6) false "body".
Definition plain_robe := armor "d" "a +1 robe" (-1) false "body".

(** leather armour worn, no helmet; a helmet and a chain mail carried *)
Definition bare_headed : game_state.GameState :=
  wearing [("body", leather_armour)] [("a", helmet); ("b", chain_mail)].

(** leather armour worn; only a robe that is no better carried *)
Definition nothing_better : game_state.GameState :=
  wearing [("body", leather_armour)] [("d", plain_robe)].

End Inputs.

(** ** What a frame writes

    The assignments that the lines of a frame make, collected: for each
    attribute that [parse_output] can write, the value written last, if
    any. *)

Module Frame.

Import Str Re game_state.

Record writes : Type := {
  u_dungeon : option (string * Z);
  u_health : option (Z * Z);
  u_mana : option (Z * Z);
  u_level : option Z;
  u_progress : option Z;
  u_gold : option Z;
  u_hunger : option string;
  u_status : option string;
  u_message : option string
}.

Definition no_writes : writes :=
  {| u_dungeon := None; u_health := None; u_mana := None; u_level := None;
     u_progress := None; u_gold := None; u_hunger := None; u_status := None;
     u_message := None |}.

Definition later {A : Type} (second first : option A) : option A :=
  match second with
  | Some a => Some a
  | None => first
  end.

(** the writes of [u1], then those of [u2] *)
Definition and_then_writes (u1 u2 : writes) : writes :=
  {| u_dungeon := later (u_dungeon u2) (u_dungeon u1);
     u_health := later (u_health u2) (u_health u1);
     u_mana := later (u_mana u2) (u_mana u1);
     u_level := later (u_level u2) (u_level u1);
     u_progress := later (u_progress u2) (u_progress u1);
     u_gold := later (u_gold u2) (u_gold u1);
     u_hunger := later (u_hunger u2) (u_hunger u1);
     u_status := later (u_status u2) (u_status u1);
     u_message := later (u_message u2) (u_message u1) |}.

Definition write (u : writes) (st : GameState) : GameState :=
  {| position := position st;
     dungeon_branch := match u_dungeon u with Some (b, _) => b | None => dungeon_branch st end;
     dungeon_level := match u_dungeon u with Some (_, n) => n | None => dungeon_level st end;
     health := match u_health u with Some (h, _) => h | None => health st end;
     max_health := match u_health u with Some (_, m) => m | None => max_health st end;
     mana := match u_mana u with Some (h, _) => h | None => mana st end;
     max_mana := match u_mana u with Some (_, m) => m | None => max_mana st end;
     gold := match u_gold u with Some n => n | None => gold st end;
     experience_level := match u_level u with Some n => n | None => experience_level st end;
     experience_progress := match u_progress u with Some n => n | None => experience_progress st end;
     hunger_level := match u_hunger u with Some x => x | None => hunger_level st end;
     status_line := match u_status u with Some x => x | None => status_line st end;
     message_line := match u_message u with Some x => x | None => message_line st end;
     inventory := inventory st;
     visible_map := visible_map st;
     inventory_items := inventory_items st;
     identified_potions := identified_potions st;
     untested_potions := untested_potions st;
     items_on_ground := items_on_ground st;
     equipped_items := equipped_items st;
     current_ac := current_ac st |}.

Definition pair_of (m : captures) : Z * Z := (int_group 1 m, int_group 2 m).

(** the writes of [_parse_status_line] *)
Definition status_writes (line : string) : writes :=
  {| u_dungeon :=
       option_map (fun m => (group 1 m, int_group 2 m)) (search false branch_pattern line);
     u_health := option_map pair_of (first_search hp_patterns line);
     u_mana := option_map pair_of (first_search mana_patterns line);
     u_level := option_map (int_group 1) (search true xl_pattern line);
     u_progress := option_map (int_group 1) (search true next_pattern line);
     u_gold := option_map (int_group 1) (search true gold_pattern line);
     u_hunger := first_hunger line;
     u_status := Some line;
     u_message := None |}.

(** a line that [_parse_line] takes for a status line *)
Definition is_status_line (line : string) : bool :=
  (negb (is_empty line || (len (strip line) <? 2)) && has_status line)%bool.

(** the writes of [_parse_line] *)
Definition line_writes (line : string) : writes :=
  if (is_empty line || (len (strip line) <? 2))%bool then no_writes
  else if has_status line then status_writes line
  else if (endswith_char (strip line) "." || endswith_char (strip line) "?")%bool
       then {| u_dungeon := None; u_health := None; u_mana := None; u_level := None;
               u_progress := None; u_gold := None; u_hunger := None; u_status := None;
               u_message := Some (strip line) |}
       else no_writes.

(** the lines that the loop of [parse_output] passes to [_parse_line] *)
Definition parsed_lines (output : string) : list string :=
  filter (fun line => negb (is_empty line))
         (map strip (split_lines (_clean_ansi output))).

Fixpoint lines_writes (lines : list string) : writes :=
  match lines with
  | [] => no_writes
  | line :: rest => and_then_writes (line_writes line) (lines_writes rest)
  end.

(** the frame has a status line: [found_status_in_this_update] *)
Definition status_found (output : string) : bool :=
  existsb is_status_line (parsed_lines output).

(** a status line of the frame shows a health pair *)
Definition health_found (output : string) : bool :=
  existsb (fun line =>
             (is_status_line line &&
              match first_search hp_patterns line with
              | Some _ => true
              | None => false
              end)%bool)
          (parsed_lines output).

(** The numbers that a status line shows are in range: health is at most
    the maximum, the progress at most 100. *)
Definition shows_in_range (line : string) : Prop :=
  is_status_line line = true ->
  match first_search hp_patterns line with
  | Some m => int_group 1 m <= int_group 2 m
  | None => True
  end /\
  match search true next_pattern line with
  | Some m => int_group 1 m <= 100
  | None => True
  end.

(** the invariant of the data model on a state *)
Definition bounded (st : GameState) : Prop :=
  (0 < max_health st -> health st <= max_health st) /\
  0 <= experience_progress st <= 100.

Definition consistent (p : GameStateParser) : Prop :=
  bounded (state p) /\ fst (last_health p) <= snd (last_health p).

End Frame.

(** ** The reference definition of the better-armor search *)

Module Armor.

Import Str game_state.

(** How much an item improves on what is worn: a number of armor-class
    points, or without bound. *)
Inductive gain : Type :=
| Points (d : Z)
| Unbounded.

Definition gain_ltb (a b : gain) : bool :=
  match a, b with
  | Points x, Points y => x <? y
  | Points _, Unbounded => true
  | Unbounded, _ => false
  end.

Definition improves (g : gain) : bool :=
  match g with
  | Points d => 0 <? d
  | Unbounded => true
  end.

(** the first of the entries with the largest gain *)
Fixpoint first_best {A : Type} (l : list (gain * A)) (best : option (gain * A))
  : option (gain * A) :=
  match l with
  | [] => best
  | (g, a) :: rest =>
      match best with
      | Some (gb, _) =>
          if gain_ltb gb g then first_best rest (Some (g, a)) else first_best rest best
      | None => first_best rest (Some (g, a))
      end
  end.

(** Modelled on the words of the specification, to be compared with
    [find_better_armor]: an armor item that is not equipped and has an
    equipment slot is compared with the item equipped in that slot, an empty
    slot being infinitely improvable. *)
Definition spec_gain (st : GameState) (item : InventoryItem) : gain :=
  match get (slot_name (equipment_slot item)) (equipped_items st) with
  | Some current_equipped => Points (ac_value current_equipped - ac_value item)
  | None => Unbounded
  end.

Definition spec_candidate (item : InventoryItem) : bool :=
  (String.eqb (item_type item) "armor" && negb (is_equipped item)
   && negb (no_slot (equipment_slot item)))%bool.

Definition spec_candidates (st : GameState) : list (gain * (string * InventoryItem)) :=
  flat_map (fun kv =>
              if (spec_candidate (snd kv) && improves (spec_gain st (snd kv)))%bool
              then [(spec_gain st (snd kv), kv)] else [])
           (inventory_items st).

Definition findBetterArmor_spec (st : GameState) : option (string * InventoryItem) :=
  option_map snd (first_best (spec_candidates st) None).

(** The improvement that [find_better_armor] credits to an inventory item:
    only an unequipped armor item with a slot and a negative armor-class
    value counts; against an equipped item it must be strictly lower, and
    counts the difference; for an empty slot it counts its own protection. *)
Definition credit (st : GameState) (item : InventoryItem) : option Z :=
  if (String.eqb (item_type item) "armor" && negb (no_slot (equipment_slot item))
      && negb (is_equipped item) && (ac_value item <? 0))%bool
  then
    match get (slot_name (equipment_slot item)) (equipped_items st) with
    | Some current_equipped =>
        if ac_value item <? ac_value current_equipped
        then Some (ac_value current_equipped - ac_value item)
        else None
    | None => Some (- ac_value item)
    end
  else None.

End Armor.

(** ** The claims that fail on the code, as they are stated *)

Module Stated.

Import decision_engine.

(** "HIGH is evaluated before URGENT": with no CRITICAL condition, a HIGH
    condition and an URGENT condition, the HIGH band supplies the action. *)
Definition high_before_urgent (ctx : DecisionContext) : Prop :=
  band_holds create_default_engine CRITICAL ctx = false ->
  band_holds create_default_engine HIGH ctx = true ->
  band_holds create_default_engine URGENT ctx = true ->
  band_of_decision create_default_engine ctx = Some HIGH.

(** "With an enemy detected and no rule before the combat rules matching,
    health percentage <= 70 gives the move toward the enemy, in the
    direction computed from the map, and > 70 gives autofight." *)
Definition combat_follows_map (ctx : DecisionContext) : Prop :=
  enemy_detected ctx = true ->
  none_holds_before create_default_engine "Combat (low health - move to engage)" ctx = true ->
  forall p, health_percentage ctx = Ok p ->
    (float_le_int p 70 = true ->
     fst (decide create_default_engine ctx) =
     bot._calculate_direction_to_enemy (output ctx) (enemy_name ctx)) /\
    (float_gt_int p 70 = true ->
     fst (decide create_default_engine ctx) = Some TAB).

(** "When no rule of a higher priority matches, the location prompt is
    answered with D and the level prompt with the decimal text of the
    target level; in none of the three steps of the sequence is the explore
    command sent." *)
Definition goto_as_stated (ctx : DecisionContext) : Prop :=
  band_holds create_default_engine CRITICAL ctx = false ->
  band_holds create_default_engine URGENT ctx = false ->
  band_holds create_default_engine HIGH ctx = false ->
  (goto_state ctx = Some "awaiting_location_type" ->
   fst (decide create_default_engine ctx) = Some "D") /\
  (goto_state ctx = Some "awaiting_level_number" ->
   fst (decide create_default_engine ctx) = Some (str_of_int (goto_target_level ctx))) /\
  (goto_state ctx = None \/ goto_state ctx = Some "awaiting_location_type" \/
   goto_state ctx = Some "awaiting_level_number" ->
   fst (decide create_default_engine ctx) <> Some "o").

(** "Every parsed state is in range." *)
Definition parse_keeps_bounds (p : game_state.GameStateParser) (output : string) : Prop :=
  Frame.bounded (game_state.state (game_state.parse_output p output)).

(** "Without a status line the health and mana values are those of the
    cache; when a health pair was found the cache holds it." *)
Definition restores_or_caches (p : game_state.GameStateParser) (output : string) : Prop :=
  let p' := game_state.parse_output p output in
  let st' := game_state.state p' in
  (Frame.status_found output = false ->
   (game_state.health st', game_state.max_health st') = game_state.last_health p' /\
   (game_state.mana st', game_state.max_mana st') = game_state.last_mana p') /\
  (Frame.health_found output = true ->
   game_state.last_health p' = (game_state.health st', game_state.max_health st')).

(** "find_better_armor is the reference definition." *)
Definition armor_as_specified (st : game_state.GameState) : Prop :=
  game_state.find_better_armor st = Armor.findBetterArmor_spec st.

End Stated.

Module Bands.
Import decision_engine.

(** the rule's condition is true and its action returns *)
Definition fires (ctx : DecisionContext) (r : Rule) : bool :=
  match condition r ctx with
  | Ok true => match action r ctx with Ok _ => true | Raise _ => false end
  | _ => false
  end.

(** the rules of one band, in the order in which they were added *)
Definition band (p : Priority) (l : list Rule) : list Rule :=
  filter (has_priority p) l.

Definition by_band (l : list Rule) : list Rule :=
  band CRITICAL l ++ band URGENT l ++ band HIGH l ++ band NORMAL l ++ band LOW l.

(** the commands of the rules of [create_default_engine] that do not depend
    on the context *)
Definition fixed_commands : list string :=
  [EmptyString; "S"; "n"; " "; CTRL_R; ESC; "."; "g"; "l"; TAB; "D"; "o"; "5"].

(** the engine of [test_decide_priority_order]: three rules that always
    match, added in the order low, critical, normal *)
Definition always (n : string) (p : Priority) : Rule :=
  {| name := n; priority := p;
     condition := fun _ => Ok true;
     action := fun _ => Ok (n, [Lit n]) |}.

Definition low_rule : Rule := always "low" LOW.

Definition test_engine : DecisionEngine :=
  add_rule (add_rule (add_rule new_engine low_rule) (always "critical" CRITICAL))
           (always "normal" NORMAL).

End Bands.

Module Moves.

(** The movement keys, as the docstring of [_calculate_direction_to_enemy]
    gives them: by how many rows (down) and columns (right) a key moves the
    player. *)
Definition step (key : string) : Z * Z :=
  if String.eqb key "h" then (0, -1)
  else if String.eqb key "j" then (1, 0)
  else if String.eqb key "k" then (-1, 0)
  else if String.eqb key "l" then (0, 1)
  else if String.eqb key "y" then (-1, -1)
  else if String.eqb key "u" then (-1, 1)
  else if String.eqb key "b" then (1, -1)
  else if String.eqb key "n" then (1, 1)
  else (0, 0).

Definition movement_keys : list string := ["h"; "j"; "k"; "l"; "y"; "u"; "b"; "n"].

(** the number of moves that a king needs *)
Definition distance (rows cols : Z) : Z := Z.max (Z.abs rows) (Z.abs cols).

Definition opposite (key : string) : string :=
  if String.eqb key "h" then "l"
  else if String.eqb key "l" then "h"
  else if String.eqb key "j" then "k"
  else if String.eqb key "k" then "j"
  else if String.eqb key "y" then "n"
  else if String.eqb key "n" then "y"
  else if String.eqb key "u" then "b"
  else if String.eqb key "b" then "u"
  else key.

Definition has_escape (s : string) : bool := Str.contains ESC s.

End Moves.

Module Frames.
Import game_state.

(** a session: the frames are parsed one after the other *)
Definition parse_all (p : GameStateParser) (frames : list string) : GameStateParser :=
  fold_left parse_output frames p.

(** two frames of a fight: the status panel before and after a hit *)
Definition two_status_lines : string :=
  String.append "Health: 23/23" (String.append Inputs.NL "Health: 17/23").

(** writes that touch the message line at most *)
Definition message_only (u : Frame.writes) : Prop :=
  Frame.u_dungeon u = None /\ Frame.u_health u = None /\ Frame.u_mana u = None /\ Frame.u_level u = None /\
  Frame.u_progress u = None /\ Frame.u_gold u = None /\ Frame.u_hunger u = None /\ Frame.u_status u = None.

End Frames.

Module Creation.
Import char_creation_state_machine.

(** the order of the screens of a character creation *)
Definition rank (s : State) : Z :=
  match s with
  | startup => 0
  | species => 1
  | class_select => 2
  | background => 3
  | skills => 4
  | abilities => 5
  | difficulty => 6
  | confirmation => 7
  | gameplay => 8
  | error => 9
  end.

(** the machine is where its history ends *)
Definition history_agrees (m : CharacterCreationStateMachine) : Prop :=
  (current_state m = startup /\ state_history m = ["start"]) \/
  last (state_history m) EmptyString = id (current_state m).

(** the machine after the species menu *)
Definition machine_at_species : CharacterCreationStateMachine :=
  {| current_state := species;
     screen_text := "please select your species";
     stuck_count := 0;
     max_stuck_threshold := 3;
     last_state := Some species;
     state_history := ["start"; "species"] |}.

End Creation.

(** ** game_state.py: messages and the inventory screen *)

Module game_state_screens.

Import Str Re game_state.

(** [has_level_up_message] *)
Definition has_level_up_message (output : string) : bool :=
  (contains "You have reached level" output || contains "You reach level" output)%bool.

(** [You have reached level (\d+)] and [You reach level (\d+)] *)
Definition reached_level_pattern : regex :=
  seq [lit "You have reached level "; Grp 1 digits].
Definition reach_level_pattern : regex :=
  seq [lit "You reach level "; Grp 1 digits].

(** [extract_level_from_message] *)
Definition extract_level_from_message (output : string) : option Z :=
  let m :=
    match search false reached_level_pattern output with
    | Some m => Some m
    | None => search false reach_level_pattern output
    end in
  match m with
  | Some m => Some (int_group 1 m)
  | None => None
  end.

(** [$]: the end of the text, or the line break that ends it *)
Definition at_end (rest : string) : bool :=
  (is_empty rest || String.eqb rest (String NL EmptyString))%bool.

(** [re.match(r, s)] for a pattern [r] that ends with [$] *)
Definition match_to_end (r : regex) (s : string) : option captures :=
  exec false r true s [] (fun _ rest caps => if at_end rest then Some caps else None).

(** [^([a-z])\s*-\s+(.+)$] *)
Definition inventory_pattern : regex :=
  seq [Bol; Grp 1 (Cls islower_ascii); star isspace; Chr "-"; plus isspace; Grp 2 (plus dot)].

Definition colors : list string :=
  ["purple"; "red"; "blue"; "green"; "yellow"; "cyan"; "magenta"; "brown"; "gray";
   "white"; "black"; "orange"; "golden"; "silver"; "pink"; "violet"; "indigo"; "turquoise"].

(** [a|b|...] *)
Fixpoint any_of (ws : list string) : regex :=
  match ws with
  | [] => Cls (fun _ => false)
  | [w] => lit w
  | w :: rest => Alt (lit w) (any_of rest)
  end.

(** [(purple|red|...) potion] *)
Definition color_pattern : regex := seq [Grp 1 (any_of colors); lit " potion"].
(** [(\d+)\s+gold] *)
Definition gold_quantity_pattern : regex := seq [Grp 1 digits; plus isspace; lit "gold"].
(** [([+-])(\d+)] *)
Definition modifier_pattern : regex := seq [Grp 1 (Cls (one_of "+-")); Grp 2 digits].

Definition weapon_words : list string :=
  ["sword"; "axe"; "mace"; "staff"; "dagger"; "spear"; "polearm"; "club"; "flail"].

Definition armor_words : list string :=
  ["robe"; "armour"; "armor"; "cloak"; "boots"; "gloves"; "helmet"; "shield"; "ring";
   "amulet"; "scale"; "mail"; "circlet"; "crown"; "gauntlets"; "sandals"; "necklace";
   "tunic"; "leather"].

(** [any(w in s for w in ws)] *)
Definition any_in (ws : list string) (s : string) : bool :=
  existsb (fun w => contains w s) ws.

(** the equipment slot of an armor description *)
Definition slot_of_description (desc_lower : string) : option string :=
  if any_in ["robe"; "armour"; "armor"; "tunic"; "leather"; "scale"] desc_lower then Some "body"
  else if any_in ["gloves"; "gauntlets"; "hands"] desc_lower then Some "hands"
  else if any_in ["boots"; "feet"; "sandals"] desc_lower then Some "feet"
  else if any_in ["helmet"; "helm"; "circlet"; "head"; "crown"] desc_lower then Some "head"
  else if any_in ["ring"; "amulet"; "necklace"; "neck"] desc_lower then Some "neck"
  else None.

(** the item that a line of the inventory screen describes *)
Definition item_of_line (slot item_desc : string) : InventoryItem :=
  let desc_lower := lower item_desc in
  let item_type :=
    if contains "potion" desc_lower then "potion"
    else if contains "gold" desc_lower then "gold"
    else if any_in weapon_words desc_lower then "weapon"
    else if any_in armor_words desc_lower then "armor"
    else if contains "scroll" desc_lower then "scroll"
    else "unknown" in
  let identified :=
    if (String.eqb item_type "potion" || String.eqb item_type "scroll")%bool
    then negb (contains "(unknown)" item_desc) else true in
  let color :=
    if String.eqb item_type "potion" then
      match search false color_pattern desc_lower with
      | Some m => Some (group 1 m)
      | None => None
      end
    else None in
  let quantity :=
    if String.eqb item_type "gold" then
      match search false gold_quantity_pattern desc_lower with
      | Some m => int_group 1 m
      | None => 1
      end
    else 1 in
  let ac_value :=
    if String.eqb item_type "armor" then
      match search false modifier_pattern item_desc with
      | Some m => if String.eqb (group 1 m) "+" then - int_group 2 m else int_group 2 m
      | None => 0
      end
    else 0 in
  let equipment_slot :=
    if String.eqb item_type "armor" then slot_of_description desc_lower else None in
  {| slot := slot;
     name := item_desc;
     quantity := quantity;
     identified := identified;
     color := color;
     item_type := item_type;
     ac_value := ac_value;
     is_equipped := false;
     equipment_slot := equipment_slot |}.

(** [d[key] = v]: a key that is there keeps its place *)
Fixpoint dict_set {V : Type} (key : string) (v : V) (d : list (string * V))
  : list (string * V) :=
  match d with
  | [] => [(key, v)]
  | (k, w) :: rest =>
      if String.eqb k key then (k, v) :: rest else (k, w) :: dict_set key v rest
  end.

(** [color] is true: a colour was found, and it is not the empty text *)
Definition truthy (o : option string) : bool :=
  match o with
  | Some s => negb (is_empty s)
  | None => false
  end.

Definition color_text (o : option string) : string :=
  match o with
  | Some s => s
  | None => EmptyString
  end.

(** the loop of [parse_inventory_screen]: [items], and the dictionary
    [self.state.untested_potions] *)
Fixpoint parse_inventory_lines (lines : list string)
         (items : list (string * InventoryItem)) (untested : list (string * string))
  : list (string * InventoryItem) * list (string * string) :=
  match lines with
  | [] => (items, untested)
  | line0 :: rest =>
      let line := strip line0 in
      if is_empty line then parse_inventory_lines rest items untested
      else
        match match_to_end inventory_pattern line with
        | None => parse_inventory_lines rest items untested
        | Some m =>
            let slot := group 1 m in
            let item_desc := strip (group 2 m) in
            let item := item_of_line slot item_desc in
            let items' := dict_set slot item items in
            let untested' :=
              if (String.eqb (item_type item) "potion" && negb (identified item)
                  && truthy (color item))%bool
              then dict_set slot (color_text (color item)) untested
              else untested in
            parse_inventory_lines rest items' untested'
        end
  end.

Definition set_inventory (items : list (string * InventoryItem))
           (untested : list (string * string)) (st : GameState) : GameState :=
  {| position := position st;
     dungeon_branch := dungeon_branch st;
     dungeon_level := dungeon_level st;
     health := health st;
     max_health := max_health st;
     mana := mana st;
     max_mana := max_mana st;
     gold := gold st;
     experience_level := experience_level st;
     experience_progress := experience_progress st;
     hunger_level := hunger_level st;
     status_line := status_line st;
     message_line := message_line st;
     inventory := inventory st;
     visible_map := visible_map st;
     inventory_items := items;
     identified_potions := identified_potions st;
     untested_potions := untested;
     items_on_ground := items_on_ground st;
     equipped_items := equipped_items st;
     current_ac := current_ac st |}.

(** [parse_inventory_screen]: the state after the call; the value returned
    is its [inventory_items] *)
Definition parse_inventory_screen (st : GameState) (screen_text : string) : GameState :=
  let clean_text := if is_empty screen_text then EmptyString else _clean_ansi screen_text in
  let '(items, untested) :=
    parse_inventory_lines (split_lines clean_text) [] (untested_potions st) in
  set_inventory items untested st.

(** [get_equipped_ac_total] *)
Definition get_equipped_ac_total (st : GameState) : Z :=
  fold_left (fun total_ac kv => total_ac + ac_value (snd kv)) (equipped_items st) 0.

End game_state_screens.

Module Screens.
Import game_state game_state_screens.

(** what [parse_inventory_screen] guarantees of an entry of the inventory *)
Definition well_formed (kv : string * InventoryItem) : Prop :=
  let item := snd kv in
  slot item = fst kv /\
  is_equipped item = false /\
  (equipment_slot item <> None -> item_type item = "armor") /\
  (ac_value item <> 0 -> item_type item = "armor") /\
  (quantity item <> 1 -> item_type item = "gold") /\
  (identified item = false -> item_type item = "potion" \/ item_type item = "scroll") /\
  (color item <> None -> item_type item = "potion").

(** an inventory screen *)
Definition pack_screen : string :=
  String.append "a - +0 war axe"
    (String.append Inputs.NL
       (String.append "c - a purple potion (unknown)"
          (String.append Inputs.NL "e - +2 leather armour"))).

Definition level_up_message : string := "You have reached level 12!".

End Screens.

(** ** bot.py: the equipment upgrade, and the call of the engine *)

Module bot_actions.

Import Str game_state decision_engine.

(** the attributes of [DCSSBot] that these methods read and write *)
Record DCSSBot : Type := {
  parser_state : GameState;
  equip_slot : option string;
  quaff_slot : option string;
  action_reason : text;
  engine_decisions_made : Z
}.

(** [_return_action]: sets the reason, returns the action *)
Definition _return_action (b : DCSSBot) (action : string) (reason : text)
  : DCSSBot * string :=
  ({| parser_state := parser_state b;
      equip_slot := equip_slot b;
      quaff_slot := quaff_slot b;
      action_reason := reason;
      engine_decisions_made := engine_decisions_made b |}, action).

Definition with_equip_slot (b : DCSSBot) (s : string) : DCSSBot :=
  {| parser_state := parser_state b;
     equip_slot := Some s;
     quaff_slot := quaff_slot b;
     action_reason := action_reason b;
     engine_decisions_made := engine_decisions_made b |}.

(** [_find_and_equip_better_armor]: the bot after the call, and the command
    or [None] *)
Definition _find_and_equip_better_armor (b : DCSSBot) : DCSSBot * option string :=
  match find_better_armor (parser_state b) with
  | None => (b, None)
  | Some (slot, item) =>
      if ac_value item <? -2 then
        let '(b', action) :=
          _return_action (with_equip_slot b slot) "e"
                         [Lit "Equipping better armor: "; Lit (game_state.name item)] in
        (b', Some action)
      else (b, None)
  end.

Definition with_quaff_slot (b : DCSSBot) (s : string) : DCSSBot :=
  {| parser_state := parser_state b;
     equip_slot := equip_slot b;
     quaff_slot := Some s;
     action_reason := action_reason b;
     engine_decisions_made := engine_decisions_made b |}.

(** [_identify_untested_potions]: the first key of the dictionary, in the
    order of insertion, and its colour *)
Definition _identify_untested_potions (b : DCSSBot) : DCSSBot * option string :=
  match untested_potions (parser_state b) with
  | [] => (b, None)
  | (slot, color) :: _ =>
      let '(b', action) :=
        _return_action (with_quaff_slot b slot) "q"
                       [Lit "Quaffing "; Lit color; Lit " potion to identify (slot ";
                        Lit slot; Lit ")"] in
      (b', Some action)
  end.

(** [self.parser.state] after a call of a method of the parser *)
Definition with_parser_state (b : DCSSBot) (st : GameState) : DCSSBot :=
  {| parser_state := st;
     equip_slot := equip_slot b;
     quaff_slot := quaff_slot b;
     action_reason := action_reason b;
     engine_decisions_made := engine_decisions_made b |}.

(** What a call can raise: [TypeError], or one of the exceptions of the
    helper methods. *)
Inductive raised : Type :=
| TypeError
| Helper (e : exn).

Inductive outcome (A : Type) : Type :=
| Returns (a : A)
| Raises (e : raised).
Arguments Returns {A} a.
Arguments Raises {A} e.

(** a keyword argument *)
Inductive value : Type :=
| VStr (s : string)
| VInt (n : Z)
| VBool (b : bool)
| VOpt (o : option string).

Definition kwargs : Type := list (string * value).

(** the fields of the dataclass [DecisionContext], none with a default *)
Definition DecisionContext_fields : list string :=
  ["output"; "health"; "max_health"; "level"; "dungeon_level";
   "enemy_detected"; "enemy_name"; "items_on_ground"; "in_shop";
   "in_inventory_screen"; "in_item_pickup_menu"; "in_menu";
   "equip_slot_pending"; "quaff_slot_pending"; "has_level_up"; "has_more_prompt";
   "attribute_increase_prompt"; "save_game_prompt";
   "last_action_sent"; "last_level_up_processed"; "last_attribute_increase_level";
   "last_equipment_check"; "last_inventory_refresh"; "move_count";
   "has_gameplay_indicators"; "gameplay_started"; "goto_state"; "goto_target_level"].

Fixpoint arg (key : string) (kw : kwargs) : option value :=
  match kw with
  | [] => None
  | (k, v) :: rest => if String.eqb k key then Some v else arg key rest
  end.

Definition str_arg (key : string) (kw : kwargs) : string :=
  match arg key kw with Some (VStr s) => s | _ => EmptyString end.
Definition int_arg (key : string) (kw : kwargs) : Z :=
  match arg key kw with Some (VInt n) => n | _ => 0 end.
Definition bool_arg (key : string) (kw : kwargs) : bool :=
  match arg key kw with Some (VBool b) => b | _ => false end.
Definition opt_arg (key : string) (kw : kwargs) : option string :=
  match arg key kw with Some (VOpt o) => o | _ => None end.

(** The [__init__] that [@dataclass] generates for [DecisionContext], called
    with keyword arguments: it raises [TypeError] for a keyword that is no
    field, and for a field without an argument. *)
Definition DecisionContext_init (kw : kwargs) : outcome DecisionContext :=
  if negb (forallb (fun kv => existsb (String.eqb (fst kv)) DecisionContext_fields) kw)
  then Raises TypeError
  else if negb (forallb (fun f => existsb (fun kv => String.eqb (fst kv) f) kw)
                        DecisionContext_fields)
  then Raises TypeError
  else Returns
    {| output := str_arg "output" kw;
       health := int_arg "health" kw;
       max_health := int_arg "max_health" kw;
       level := int_arg "level" kw;
       dungeon_level := int_arg "dungeon_level" kw;
       enemy_detected := bool_arg "enemy_detected" kw;
       enemy_name := str_arg "enemy_name" kw;
       items_on_ground := bool_arg "items_on_ground" kw;
       in_shop := bool_arg "in_shop" kw;
       in_inventory_screen := bool_arg "in_inventory_screen" kw;
       in_item_pickup_menu := bool_arg "in_item_pickup_menu" kw;
       in_menu := bool_arg "in_menu" kw;
       equip_slot_pending := bool_arg "equip_slot_pending" kw;
       quaff_slot_pending := bool_arg "quaff_slot_pending" kw;
       has_level_up := bool_arg "has_level_up" kw;
       has_more_prompt := bool_arg "has_more_prompt" kw;
       attribute_increase_prompt := bool_arg "attribute_increase_prompt" kw;
       save_game_prompt := bool_arg "save_game_prompt" kw;
       last_action_sent := str_arg "last_action_sent" kw;
       last_level_up_processed := int_arg "last_level_up_processed" kw;
       last_attribute_increase_level := int_arg "last_attribute_increase_level" kw;
       last_equipment_check := int_arg "last_equipment_check" kw;
       last_inventory_refresh := int_arg "last_inventory_refresh" kw;
       move_count := int_arg "move_count" kw;
       has_gameplay_indicators := bool_arg "has_gameplay_indicators" kw;
       gameplay_started := bool_arg "gameplay_started" kw;
       goto_state := opt_arg "goto_state" kw;
       goto_target_level := int_arg "goto_target_level" kw |}.

(** The local variables of [_prepare_decision_context] when it calls the
    constructor: what the parser and the helper methods have found, and the
    attributes of the bot. *)
Record observations : Type := {
  o_output : string;
  o_health : Z;
  o_max_health : Z;
  o_level : Z;
  o_dungeon_level : Z;
  o_enemy_detected : bool;
  o_enemy_name : string;
  o_enemy_direction : option string;
  o_items_on_ground : bool;
  o_in_shop : bool;
  o_in_inventory_screen : bool;
  o_in_item_pickup_menu : bool;
  o_in_menu : bool;
  o_equip_slot : option string;
  o_quaff_slot : option string;
  o_has_level_up : bool;
  o_has_more_prompt : bool;
  o_attribute_increase_prompt : bool;
  o_save_game_prompt : bool;
  o_last_action_sent : string;
  o_last_level_up_processed : Z;
  o_last_attribute_increase_level : Z;
  o_last_equipment_check : Z;
  o_last_inventory_refresh : Z;
  o_move_count : Z;
  o_has_gameplay_indicators : bool;
  o_gameplay_started : bool;
  o_goto_state : option string;
  o_goto_target_level : Z
}.

Definition is_not_none (o : option string) : bool :=
  match o with
  | Some _ => true
  | None => false
  end.

(** the keyword arguments of the call [DecisionContext(...)] in
    [_prepare_decision_context] *)
Definition arguments (v : observations) : kwargs :=
  [ ("output", VStr (o_output v));
    ("health", VInt (o_health v));
    ("max_health", VInt (o_max_health v));
    ("level", VInt (o_level v));
    ("dungeon_level", VInt (o_dungeon_level v));
    ("enemy_detected", VBool (o_enemy_detected v));
    ("enemy_name", VStr (o_enemy_name v));
    ("enemy_direction", VOpt (o_enemy_direction v));
    ("items_on_ground", VBool (o_items_on_ground v));
    ("in_shop", VBool (o_in_shop v));
    ("in_inventory_screen", VBool (o_in_inventory_screen v));
    ("in_item_pickup_menu", VBool (o_in_item_pickup_menu v));
    ("in_menu", VBool (o_in_menu v));
    ("equip_slot_pending", VBool (is_not_none (o_equip_slot v)));
    ("quaff_slot_pending", VBool (is_not_none (o_quaff_slot v)));
    ("has_level_up", VBool (o_has_level_up v));
    ("has_more_prompt", VBool (o_has_more_prompt v));
    ("attribute_increase_prompt", VBool (o_attribute_increase_prompt v));
    ("save_game_prompt", VBool (o_save_game_prompt v));
    ("last_action_sent", VStr (o_last_action_sent v));
    ("last_level_up_processed", VInt (o_last_level_up_processed v));
    ("last_attribute_increase_level", VInt (o_last_attribute_increase_level v));
    ("last_equipment_check", VInt (o_last_equipment_check v));
    ("last_inventory_refresh", VInt (o_last_inventory_refresh v));
    ("move_count", VInt (o_move_count v));
    ("has_gameplay_indicators", VBool (o_has_gameplay_indicators v));
    ("gameplay_started", VBool (o_gameplay_started v));
    ("goto_state", VOpt (o_goto_state v));
    ("goto_target_level", VInt (o_goto_target_level v)) ].

(** [_prepare_decision_context], from the point where the parser and the
    helper methods have returned their values or one of them has raised *)
Definition _prepare_decision_context (found : outcome observations)
  : outcome DecisionContext :=
  match found with
  | Raises e => Raises e
  | Returns v => DecisionContext_init (arguments v)
  end.

Definition count_decision (b : DCSSBot) : DCSSBot :=
  {| parser_state := parser_state b;
     equip_slot := equip_slot b;
     quaff_slot := quaff_slot b;
     action_reason := action_reason b;
     engine_decisions_made := engine_decisions_made b + 1 |}.

(** [_decide_action]: [except Exception] catches whatever the preparation or
    the engine raises *)
Definition _decide_action (b : DCSSBot) (engine : DecisionEngine)
           (found : outcome observations) : DCSSBot * string :=
  match _prepare_decision_context found with
  | Returns context =>
      match decide engine context with
      | (Some command, reason) => _return_action (count_decision b) command reason
      | (None, _) =>
          _return_action (count_decision b) "o" [Lit "Auto-explore (no rule matched)"]
      end
  | Raises _ => _return_action b "o" [Lit "Auto-explore (engine error fallback)"]
  end.

End bot_actions.

Module Actions.
Import game_state bot_actions.

Definition idle_bot (st : GameState) : DCSSBot :=
  {| parser_state := st;
     equip_slot := None;
     quaff_slot := None;
     action_reason := [];
     engine_decisions_made := 0 |}.

(** a helmet with three points of protection, and nothing worn *)
Definition good_helmet : InventoryItem := Inputs.armor "a" "a +3 helmet" (-3) false "head".

Definition with_good_helmet : GameState := Inputs.wearing [] [("a", good_helmet)].

End Actions.

(** * Properties of the decision engine *)

Module EngineFacts.

Import decision_engine Inputs Stated.

Local Abbreviation E := create_default_engine.

(** *** The sort of [decide] *)

Lemma filter_insert_rule (p : Priority) (r : Rule) (l : list Rule) :
  filter (has_priority p) (insert_rule r l) =
  filter (has_priority p) (r :: l).
Proof.
  induction l as [|x l IH]; [reflexivity|].
  cbn [insert_rule].
  destruct (value (priority r) <=? value (priority x)) eqn:Hle; [reflexivity|].
  cbn [filter] in *. rewrite IH.
  destruct (has_priority p r) eqn:Hr; [|reflexivity].
  destruct (has_priority p x) eqn:Hx; [|reflexivity].
  unfold has_priority, Priority_eqb in Hr, Hx.
  apply Z.eqb_eq in Hr, Hx. apply Z.leb_gt in Hle. lia.
Qed.

(** The sort is stable: the rules of one priority keep their order. *)
Lemma sorted_stable (p : Priority) (l : list Rule) :
  filter (has_priority p) (sorted l) = filter (has_priority p) l.
Proof.
  induction l as [|x l IH]; [reflexivity|].
  cbn [sorted fold_right]. fold (sorted l).
  rewrite filter_insert_rule. cbn [filter]. now rewrite IH.
Qed.

Lemma insert_rule_elements (r : Rule) (l : list Rule) (P : Rule -> Prop) :
  P r -> Forall P l -> Forall P (insert_rule r l).
Proof.
  intros Hr Hl. induction Hl as [|x l Hx Hl IH]; cbn [insert_rule].
  - now constructor.
  - destruct (value (priority r) <=? value (priority x)); constructor; auto.
Qed.

Lemma insert_rule_ascending (r : Rule) (l : list Rule) :
  ascending l -> ascending (insert_rule r l).
Proof.
  induction 1 as [|x l Hx Hl IH]; cbn [insert_rule].
  - constructor; constructor.
  - destruct (value (priority r) <=? value (priority x)) eqn:Hle.
    + apply Z.leb_le in Hle. constructor.
      * constructor; [exact Hle|].
        eapply Forall_impl; [|exact Hx]. cbn. intros; lia.
      * now constructor.
    + apply Z.leb_gt in Hle. constructor; [|exact IH].
      apply insert_rule_elements; [lia | exact Hx].
Qed.

(** The sort orders the rules by ascending priority value. *)
Lemma sorted_ascending (l : list Rule) : ascending (sorted l).
Proof.
  induction l as [|x l IH]; [constructor|].
  cbn [sorted fold_right]. now apply insert_rule_ascending.
Qed.

(** The order in which the default engine evaluates its rules. *)
Lemma default_order :
  map (fun r => (name r, priority r)) (sorted (rules E)) =
  [ ("Equip slot prompt", CRITICAL); ("Quaff slot prompt", CRITICAL);
    ("Attribute increase prompt", CRITICAL); ("Save game prompt", CRITICAL);
    ("More prompt", CRITICAL); ("Screen redraw (health unreadable)", CRITICAL);
    ("Level-up with more prompt", URGENT); ("Level-up", URGENT);
    ("Items on ground", URGENT); ("Better armor available", URGENT);
    ("Untested potions", URGENT);
    ("Shop detected", HIGH); ("Item pickup menu", HIGH);
    ("Inventory screen", HIGH); ("In menu", HIGH);
    ("Combat (low health - move to engage)", NORMAL); ("Combat (autofight)", NORMAL);
    ("Goto location type", NORMAL); ("Goto level number", NORMAL);
    ("Rest after autofight", NORMAL); ("Explore (good health)", NORMAL);
    ("Rest to recover", NORMAL);
    ("Explore (game not ready)", LOW); ("Waiting for gameplay", LOW);
    ("Fallback exploration", LOW) ].
Proof. reflexivity. Qed.

(** *** The loop of [decide] *)

Lemma evaluate_skip (ctx : DecisionContext) (l1 l2 : list Rule) :
  forallb (fun r => negb (holds ctx r)) l1 = true ->
  evaluate (l1 ++ l2) ctx = evaluate l2 ctx.
Proof.
  induction l1 as [|r l1 IH]; [reflexivity|].
  cbn [forallb app evaluate]. intros H.
  apply andb_true_iff in H. destruct H as [Hr Hl].
  unfold holds in Hr.
  destruct (condition r ctx) as [[|]|]; try discriminate; auto.
Qed.

Lemma winner_skip (ctx : DecisionContext) (l1 l2 : list Rule) :
  forallb (fun r => negb (holds ctx r)) l1 = true ->
  winner (l1 ++ l2) ctx = winner l2 ctx.
Proof.
  induction l1 as [|r l1 IH]; [reflexivity|].
  cbn [forallb app winner]. intros H.
  apply andb_true_iff in H. destruct H as [Hr Hl].
  unfold holds in Hr.
  destruct (condition r ctx) as [[|]|]; try discriminate; auto.
Qed.

(** [evaluate] returns the action of the [winner]. *)
Lemma evaluate_winner (ctx : DecisionContext) (l : list Rule) :
  match winner l ctx with
  | Some r => exists c why, action r ctx = Ok (c, why) /\ evaluate l ctx = (Some c, why)
  | None => evaluate l ctx = no_match
  end.
Proof.
  induction l as [|r l IH]; [reflexivity|].
  cbn [winner evaluate].
  destruct (condition r ctx) as [[|]|]; auto.
  destruct (action r ctx) as [[c why]|] eqn:Ha; auto.
  exists c, why. now rewrite Ha.
Qed.

Lemma evaluate_fires (ctx : DecisionContext) (r : Rule) (l : list Rule) c why :
  condition r ctx = Ok true -> action r ctx = Ok (c, why) ->
  evaluate (r :: l) ctx = (Some c, why).
Proof. intros Hc Ha. cbn [evaluate]. now rewrite Hc, Ha. Qed.

Lemma winner_fires (ctx : DecisionContext) (r : Rule) (l : list Rule) cw :
  condition r ctx = Ok true -> action r ctx = Ok cw ->
  winner (r :: l) ctx = Some r.
Proof. intros Hc Ha. cbn [winner]. now rewrite Hc, Ha. Qed.

Lemma before_from (n : string) (l : list Rule) : l = before n l ++ from n l.
Proof.
  induction l as [|r l IH]; [reflexivity|].
  cbn [before from]. destruct (String.eqb (name r) n); [reflexivity|].
  cbn [app]. now rewrite <- IH.
Qed.

Lemma decide_from (n : string) (ctx : DecisionContext) :
  none_holds_before E n ctx = true ->
  decide E ctx = evaluate (from n (sorted (rules E))) ctx /\
  winner (sorted (rules E)) ctx = winner (from n (sorted (rules E))) ctx.
Proof.
  unfold none_holds_before, decide. intros H.
  rewrite (before_from n (sorted (rules E))) at 1 3.
  split; [now apply evaluate_skip | now apply winner_skip].
Qed.

(** unfolds the rule list of the default engine, and nothing inside a rule *)
Ltac rule_list :=
  cbv [from before sorted fold_right insert_rule rules create_default_engine
       fold_left add_rule default_rules new_engine app name priority value
       Z.leb Z.compare Pos.compare Pos.compare_cont
       String.eqb Ascii.eqb Bool.eqb].

Ltac rule_list_in H :=
  cbv [from before sorted fold_right insert_rule rules create_default_engine
       fold_left add_rule default_rules new_engine app name priority value
       Z.leb Z.compare Pos.compare Pos.compare_cont
       String.eqb Ascii.eqb Bool.eqb] in H.

Lemma compare_cont_flip (p q : positive) :
  PosDef.Pos.compare_cont Eq q p = CompOpp (PosDef.Pos.compare_cont Eq p q).
Proof. exact (eq_sym (Pos.compare_cont_antisym p q Eq)). Qed.

Lemma SFcompare_flip (x y : spec_float) :
  SFcompare y x = option_map CompOpp (SFcompare x y).
Proof.
  destruct x as [sx|sx| |sx mx ex], y as [sy|sy| |sy my ey]; cbn;
    try reflexivity;
    try (destruct sx; reflexivity);
    try (destruct sy; reflexivity);
    try (destruct sx, sy; reflexivity).
  destruct sx, sy; cbn; try reflexivity.
  - rewrite (Z.compare_antisym ey ex), (compare_cont_flip mx my).
    destruct (ey ?= ex); cbn; try reflexivity.
  - rewrite (Z.compare_antisym ey ex), (compare_cont_flip mx my).
    destruct (ey ?= ex); cbn; reflexivity.
Qed.

Lemma float_gt_not_le (p : spec_float) (n : Z) :
  float_gt_int p n = true -> float_le_int p n = false.
Proof.
  unfold float_gt_int, float_le_int, SFltb, SFleb.
  rewrite (SFcompare_flip p (float_of_int n)).
  now destruct (SFcompare p (float_of_int n)) as [[| |]|].
Qed.

(** The decimal text of a number is neither the explore key nor the goto
    key. *)
Lemma str_of_int_not_a_trigger (n : Z) : str_of_int n <> "o" /\ str_of_int n <> "G".
Proof.
  unfold str_of_int.
  destruct (Z.to_int n) as [d|d]; cbn; [|split; discriminate].
  destruct d; cbn; split; discriminate.
Qed.

Lemma evaluate_reaches (ctx : DecisionContext) (r : Rule) (l1 l2 : list Rule) cw :
  condition r ctx = Ok true -> action r ctx = Ok cw ->
  exists command reason, evaluate (l1 ++ r :: l2) ctx = (Some command, reason).
Proof.
  intros Hc Ha. induction l1 as [|x l1 IH]; cbn [app evaluate].
  - rewrite Hc, Ha. destruct cw as [c why]. eauto.
  - destruct (condition x ctx) as [[|]|]; auto.
    destruct (action x ctx) as [[c why]|]; eauto.
Qed.

(** expands a band condition of the default engine into its rules *)
Ltac band_in H :=
  cbv [band_holds rules create_default_engine fold_left add_rule
       default_rules new_engine app] in H;
  cbn [existsb priority Priority_eqb value Z.eqb Pos.eqb andb orb holds condition] in H.

Ltac split_flags :=
  repeat match goal with
         | H : context [if ?b then true else false] |- _ =>
             destruct b eqn:?; cbn [andb orb negb] in *; try discriminate
         | |- context [if ?b then true else false] =>
             destruct b eqn:?; cbn [andb orb negb] in *; try discriminate
         end.

Lemma critical_band (ctx : DecisionContext) :
  band_holds E CRITICAL ctx = false ->
  none_holds_before E "Level-up with more prompt" ctx = true.
Proof.
  intros H. band_in H.
  unfold none_holds_before. rule_list. cbn [forallb holds condition].
  split_flags. reflexivity.
Qed.

(** expands the condition of a named rule of the default engine *)
Ltac rule_in H :=
  cbv [rule_holds rules create_default_engine fold_left add_rule
       default_rules new_engine app] in H;
  cbn [existsb name String.eqb Ascii.eqb Bool.eqb andb orb] in H.

(** With no rule of the three bands above NORMAL holding, the evaluation
    reaches the combat rules, the first of the NORMAL band. *)
Lemma higher_bands (ctx : DecisionContext) :
  band_holds E CRITICAL ctx = false ->
  band_holds E URGENT ctx = false ->
  band_holds E HIGH ctx = false ->
  none_holds_before E "Combat (low health - move to engage)" ctx = true.
Proof.
  intros Hc Hu Hh. band_in Hc. band_in Hu. band_in Hh.
  unfold none_holds_before. rule_list. cbn [forallb holds condition].
  split_flags. reflexivity.
Qed.

(** the rules from the combat rules on, in the order of evaluation *)
Lemma combat_onwards :
  from "Combat (low health - move to engage)" (sorted (rules E)) = skipn 15 default_rules.
Proof. reflexivity. Qed.

(** *** The engine on the frames of the test suite *)

Example explores_at_60 :
  decide E quiet_at_60 =
  (Some "o", [Lit "Auto-explore (health: "; Fixed1 (float_of_int 60); Lit "%)"]).
Proof. reflexivity. Qed.

Example rests_at_59 :
  decide E quiet_at_59 =
  (Some "5", [Lit "Resting to recover (health: "; Fixed1 (float_of_int 59); Lit "%)"]).
Proof. reflexivity. Qed.

Example kobold_to_the_right :
  bot._calculate_direction_to_enemy kobold_on_the_right "kobold" = Some "l".
Proof. reflexivity. Qed.

(** *** Claims *)

(** C1, as amended. The engine evaluates the URGENT band before the HIGH
    band: when no CRITICAL condition holds, a HIGH condition holds and an
    URGENT condition holds, the URGENT band supplies the action. The command
    is not the shop exit; it is the grab command unless a level-up rule
    takes the turn. *)
Theorem urgent_before_high (ctx : DecisionContext) :
  band_holds E CRITICAL ctx = false ->
  band_holds E HIGH ctx = true ->
  band_holds E URGENT ctx = true ->
  band_of_decision E ctx = Some URGENT /\
  fst (decide E ctx) <> Some ESC /\
  ((has_level_up ctx && (level ctx >? last_level_up_processed ctx))%bool = false ->
   decide E ctx = (Some "g", [Lit "Grabbing items from ground"])).
Proof.
  intros Hcrit _ Hurgent.
  apply critical_band in Hcrit.
  destruct (decide_from _ ctx Hcrit) as [Hd Hw].
  unfold band_of_decision. rewrite Hd, Hw. clear Hd Hw Hcrit.
  band_in Hurgent. rule_list.
  match goal with
  | |- context [evaluate (?a :: ?b :: ?c :: ?t) ctx] => generalize t; intros tail
  end.
  cbn [evaluate winner condition action const_action option_map priority].
  destruct (has_level_up ctx); cbn [andb] in *.
  - destruct (has_more_prompt ctx); cbn [andb] in *.
    + destruct (level ctx >? last_level_up_processed ctx).
      * repeat split; discriminate.
      * destruct (items_on_ground ctx); [|discriminate]. repeat split; discriminate.
    + destruct (level ctx >? last_level_up_processed ctx).
      * repeat split; discriminate.
      * destruct (items_on_ground ctx); [|discriminate]. repeat split; discriminate.
  - destruct (items_on_ground ctx); [|discriminate]. repeat split; discriminate.
Qed.

Lemma urgent_before_high_witness :
  decide E shop_with_items = (Some "g", [Lit "Grabbing items from ground"]).
Proof.
  exact (proj2 (proj2 (urgent_before_high shop_with_items eq_refl eq_refl eq_refl)) eq_refl).
Defined.

(** C1, as stated, fails: in a shop with items on the ground the engine
    grabs the items. *)
Lemma high_before_urgent_counterexample :
  fst (decide E shop_with_items) = Some "g" /\ ~ high_before_urgent shop_with_items.
Proof.
  split; [reflexivity|].
  intros H. specialize (H eq_refl eq_refl eq_refl). vm_compute in H. discriminate.
Qed.

(** C2, as amended. With an enemy detected and no earlier rule matching, a
    health percentage <= 70 gives the fixed move-right command [l], whatever
    the map shows, and a health percentage > 70 gives autofight. *)
Theorem combat_commands (ctx : DecisionContext) (p : spec_float) :
  enemy_detected ctx = true ->
  none_holds_before E "Combat (low health - move to engage)" ctx = true ->
  health_percentage ctx = Ok p ->
  (float_le_int p 70 = true ->
   decide E ctx =
   (Some "l", [Lit "Moving toward "; Lit (enemy_name ctx);
               Lit " to engage (low health: "; Fixed1 p; Lit "%)"])) /\
  (float_gt_int p 70 = true ->
   decide E ctx =
   (Some TAB, [Lit "Autofight - "; Lit (enemy_name ctx); Lit " in range"])).
Proof.
  intros Henemy Hnone Hp.
  destruct (decide_from _ ctx Hnone) as [-> _]. rule_list.
  match goal with
  | |- context [evaluate (?a :: ?b :: ?t) ctx] => generalize t; intros tail
  end.
  cbn [evaluate condition action]. rewrite Henemy, Hp. cbn [and_then bind].
  split; intros Hcmp.
  - now rewrite Hcmp.
  - now rewrite (float_gt_not_le _ _ Hcmp), Hcmp.
Qed.

Lemma combat_commands_witness :
  decide E kobold_on_the_left =
  (Some "l", [Lit "Moving toward "; Lit "kobold"; Lit " to engage (low health: ";
              Fixed1 (float_of_int 50); Lit "%)"]) /\
  fst (decide E kobold_good_health) = Some TAB.
Proof.
  split.
  - exact (proj1 (combat_commands kobold_on_the_left (float_of_int 50)
                    eq_refl eq_refl eq_refl) eq_refl).
  - rewrite (proj2 (combat_commands kobold_good_health (float_of_int 80)
                      eq_refl eq_refl eq_refl) eq_refl). reflexivity.
Defined.

(** C2, as stated, fails: the map puts the kobold to the left of the
    player, [_calculate_direction_to_enemy] answers [h], the engine
    answers [l]. *)
Lemma combat_follows_map_counterexample :
  bot._calculate_direction_to_enemy (output kobold_on_the_left)
                                    (enemy_name kobold_on_the_left) = Some "h" /\
  fst (decide E kobold_on_the_left) = Some "l" /\
  ~ combat_follows_map kobold_on_the_left.
Proof.
  split; [reflexivity|]. split; [reflexivity|].
  intros H.
  destruct (H eq_refl eq_refl (float_of_int 50) eq_refl) as [Hlow _].
  specialize (Hlow eq_refl). vm_compute in Hlow. discriminate.
Qed.

(** C4. With the --more-- prompt and an enemy at once, and no other prompt
    pending, the engine dismisses the prompt and does not fight. *)
Theorem more_prompt_beats_combat (ctx : DecisionContext) :
  has_more_prompt ctx = true ->
  enemy_detected ctx = true ->
  equip_slot_pending ctx = false ->
  quaff_slot_pending ctx = false ->
  attribute_increase_prompt ctx = false ->
  save_game_prompt ctx = false ->
  decide E ctx = (Some " ", [Lit "Dismissing --more-- prompt"]) /\
  fst (decide E ctx) <> Some "l" /\
  fst (decide E ctx) <> Some TAB.
Proof.
  intros Hmore _ Hequip Hquaff Hattr Hsave.
  assert (Hd : decide E ctx = (Some " ", [Lit "Dismissing --more-- prompt"])).
  { destruct (decide_from "More prompt" ctx) as [-> _].
    - unfold none_holds_before. rule_list. cbn [forallb holds condition].
      now rewrite Hequip, Hquaff, Hattr, Hsave.
    - rule_list. cbn [evaluate condition action const_action]. now rewrite Hmore. }
  rewrite Hd. repeat split; discriminate.
Qed.

Lemma more_prompt_beats_combat_witness :
  decide E more_prompt_and_kobold = (Some " ", [Lit "Dismissing --more-- prompt"]).
Proof.
  exact (proj1 (more_prompt_beats_combat more_prompt_and_kobold
                  eq_refl eq_refl eq_refl eq_refl eq_refl eq_refl)).
Defined.

(** C8, as amended. When no CRITICAL, URGENT or HIGH rule matches, the
    combat rules still come before the goto rules, although all four are
    NORMAL: a combat rule that matches answers with [l] or with autofight,
    whatever the goto state. When neither combat rule matches, the engine
    answers the location prompt with [D] and the level prompt with the
    decimal text of the target level, and in these two steps sends neither
    the explore key [o] nor the goto key [G]. In the first step of the
    sequence, with no goto state, the engine has no goto rule: it waits,
    explores or rests, and it does send the explore key [o] when no wait
    after an autofight is due and the game shows gameplay indicators with a
    health percentage >= 60. *)
Theorem goto_responses (ctx : DecisionContext) :
  band_holds E CRITICAL ctx = false ->
  band_holds E URGENT ctx = false ->
  band_holds E HIGH ctx = false ->
  (rule_holds E "Combat (low health - move to engage)" ctx = true \/
   rule_holds E "Combat (autofight)" ctx = true ->
   fst (decide E ctx) = Some "l" \/ fst (decide E ctx) = Some TAB) /\
  (rule_holds E "Combat (low health - move to engage)" ctx = false ->
   rule_holds E "Combat (autofight)" ctx = false ->
   (goto_state ctx = Some "awaiting_location_type" ->
    decide E ctx = (Some "D", [Lit "Selecting Dungeon from goto location menu"])) /\
   (goto_state ctx = Some "awaiting_level_number" ->
    decide E ctx =
    (Some (str_of_int (goto_target_level ctx)),
     [Lit "Descending to dungeon level "; Lit (str_of_int (goto_target_level ctx))])) /\
   (goto_state ctx = Some "awaiting_location_type" \/
    goto_state ctx = Some "awaiting_level_number" ->
    fst (decide E ctx) <> Some "o" /\ fst (decide E ctx) <> Some "G") /\
   (goto_state ctx = None ->
    (fst (decide E ctx) = Some "." \/ fst (decide E ctx) = Some "o" \/
     fst (decide E ctx) = Some "5") /\
    ((String.eqb (last_action_sent ctx) TAB && negb (enemy_detected ctx))%bool = false ->
     has_gameplay_indicators ctx = true ->
     forall p, health_percentage ctx = Ok p -> float_ge_int p 60 = true ->
     decide E ctx = (Some "o", [Lit "Auto-explore (health: "; Fixed1 p; Lit "%)"])))).
Proof.
  intros Hc Hu Hh.
  destruct (decide_from "Combat (low health - move to engage)" ctx
                        (higher_bands ctx Hc Hu Hh)) as [Hd _].
  rewrite Hd, combat_onwards. clear Hd Hc Hu Hh. cbv [skipn default_rules].
  split.
  - intros H. rule_in H. unfold holds in H. cbn [condition] in H.
    match goal with
    | |- context [evaluate (?a :: ?b :: ?t) ctx] => generalize t; intros tail
    end.
    cbn [evaluate condition action].
    destruct (enemy_detected ctx); cbn [and_then] in *; [|destruct H; discriminate].
    destruct (health_percentage ctx) as [p|e]; cbn [bind] in *; [|destruct H; discriminate].
    destruct (float_le_int p 70); [now left|].
    destruct (float_gt_int p 70); [now right|]. destruct H; discriminate.
  - intros Hl Ha. rule_in Hl. rule_in Ha. rewrite orb_false_r in Hl, Ha.
    match goal with
    | |- context [evaluate (?a :: ?b :: ?t) ctx] =>
        change (evaluate (a :: b :: t) ctx) with (evaluate ([a; b] ++ t) ctx);
        rewrite (evaluate_skip ctx [a; b] t)
          by (cbn [forallb]; now rewrite Hl, Ha)
    end.
    clear Hl Ha.
    cbn [evaluate condition action const_action].
    split; [|split; [|split]].
    + intros Hs. now rewrite Hs.
    + intros Hs. now rewrite Hs.
    + intros [Hs|Hs]; rewrite Hs; cbn [opt_str_eqb String.eqb Ascii.eqb Bool.eqb fst];
        [split; discriminate|].
      destruct (str_of_int_not_a_trigger (goto_target_level ctx)) as [Ho HG].
      split; intros Heq; injection Heq; auto.
    + intros Hs. rewrite Hs. cbn [opt_str_eqb]. split.
      * destruct (String.eqb (last_action_sent ctx) TAB && negb (enemy_detected ctx))%bool;
          [now left|].
        destruct (has_gameplay_indicators ctx); cbn [and_then].
        -- destruct (health_percentage ctx) as [p|e]; cbn [bind].
           ++ destruct (float_ge_int p 60); [right; now left|].
              destruct (float_lt_int p 60); [right; now right | right; now left].
           ++ right; now left.
        -- destruct (gameplay_started ctx); right; now left.
      * intros Hr Hg p Hp Hge. rewrite Hr, Hg, Hp. cbn [and_then bind]. now rewrite Hge.
Qed.

Lemma goto_responses_witness :
  fst (decide E goto_location_prompt) = Some "D" /\
  fst (decide E goto_level_prompt) = Some "5" /\
  fst (decide E goto_not_started) = Some "o" /\
  (fst (decide E kobold_at_location_prompt) = Some "l" \/
   fst (decide E kobold_at_location_prompt) = Some TAB).
Proof.
  split; [|split; [|split]].
  - rewrite (proj1 (proj2 (goto_responses goto_location_prompt eq_refl eq_refl eq_refl)
                      eq_refl eq_refl) eq_refl).
    reflexivity.
  - rewrite (proj1 (proj2 (proj2 (goto_responses goto_level_prompt eq_refl eq_refl eq_refl)
                             eq_refl eq_refl)) eq_refl).
    reflexivity.
  - rewrite (proj2 (proj2 (proj2 (proj2 (proj2 (goto_responses goto_not_started
                                                  eq_refl eq_refl eq_refl)
                                           eq_refl eq_refl))) eq_refl)
               eq_refl eq_refl (float_of_int 80) eq_refl eq_refl).
    reflexivity.
  - apply (proj1 (goto_responses kobold_at_location_prompt eq_refl eq_refl eq_refl)).
    right. reflexivity.
Defined.

(** C8, as stated, fails twice. At the location prompt with a kobold in
    view no CRITICAL, URGENT or HIGH rule matches, yet the engine answers
    with autofight, not with [D]: the combat rules are NORMAL like the goto
    rules and were added first. And in the first step of the sequence the
    engine sends the explore key [o]. *)
Lemma goto_as_stated_counterexample :
  band_holds E CRITICAL kobold_at_location_prompt = false /\
  band_holds E URGENT kobold_at_location_prompt = false /\
  band_holds E HIGH kobold_at_location_prompt = false /\
  fst (decide E kobold_at_location_prompt) = Some TAB /\
  ~ goto_as_stated kobold_at_location_prompt /\
  fst (decide E goto_not_started) = Some "o" /\
  ~ goto_as_stated goto_not_started.
Proof.
  repeat split; try reflexivity.
  - intros H. destruct (H eq_refl eq_refl eq_refl) as [HD _].
    specialize (HD eq_refl). vm_compute in HD. discriminate HD.
  - intros H. destruct (H eq_refl eq_refl eq_refl) as [_ [_ Ho]].
    apply Ho; [now left | reflexivity].
Qed.

(** C10. The default engine always returns a command: the last rule in the
    order of evaluation is the fallback, whose condition is constantly
    true; and a rule whose condition or action raises is skipped, the
    evaluation going on with the next rule. *)
Theorem decide_never_none (ctx : DecisionContext) :
  (exists command reason, decide E ctx = (Some command, reason)) /\
  (exists front fallback,
     sorted (rules E) = front ++ [fallback] /\
     name fallback = "Fallback exploration" /\
     priority fallback = LOW /\
     forall ctx', condition fallback ctx' = Ok true) /\
  (forall rule rest,
     evaluate (rule :: rest) ctx =
     match condition rule ctx with
     | Ok true =>
         match action rule ctx with
         | Ok (command, reason) => (Some command, reason)
         | Raise _ => evaluate rest ctx
         end
     | Ok false => evaluate rest ctx
     | Raise _ => evaluate rest ctx
     end).
Proof.
  split; [|split].
  - unfold decide.
    rewrite (before_from "Fallback exploration" (sorted (rules E))).
    eapply evaluate_reaches with (cw := ("o", [Lit "Auto-explore (fallback)"])); reflexivity.
  - exists (before "Fallback exploration" (sorted (rules E))). eexists.
    split; [|split; [|split]]; [reflexivity| reflexivity | reflexivity |].
    intros ctx'. reflexivity.
  - reflexivity.
Qed.

End EngineFacts.

(** * Properties of the character-creation machine *)

Module CharCreationFacts.

Import char_creation_state_machine Inputs.

(** [machine_in_play] is what two updates of a new machine give. *)
Lemma machine_in_play_reached :
  updates new_machine [species_screen; hud_screen] = Ok machine_in_play.
Proof. reflexivity. Qed.

(** No guarded call of a transition raises. *)
Lemma _trigger_transition_returns (target_state : CharCreationStates) (cur : State) :
  exists cur', _trigger_transition target_state cur = Ok cur'.
Proof. destruct target_state, cur; eexists; reflexivity. Qed.

Lemma update_returns (m : CharacterCreationStateMachine) (text : string) :
  exists m', update m text = Ok m'.
Proof.
  unfold update, _process_screen.
  destruct (State_eqb (current_state m) gameplay); [eexists; reflexivity|].
  destruct (first_matching transition_patterns (Str.lower text)) as [t|];
    [|eexists; reflexivity].
  destruct (_trigger_transition_returns t (current_state m)) as [cur' ->].
  eexists; reflexivity.
Qed.

Lemma update_in_gameplay (m : CharacterCreationStateMachine) (text : string) :
  current_state m = gameplay ->
  exists m', update m text = Ok m' /\ current_state m' = gameplay.
Proof.
  intros H. unfold update, _process_screen. rewrite H. cbn.
  eexists; split; reflexivity.
Qed.

(** C9. The state [gameplay] is terminal: from a machine in [gameplay] every
    sequence of updates returns, and leaves the machine in [gameplay]; this
    holds for each prefix of the sequence, so for every update after the
    state was reached. *)
Theorem gameplay_is_terminal (m : CharacterCreationStateMachine) (screens : list string) :
  current_state m = gameplay ->
  forall n, exists m',
    updates m (firstn n screens) = Ok m' /\ current_state m' = gameplay.
Proof.
  intros H n. revert m H screens.
  induction n as [|n IH]; intros m H screens.
  - exists m. now split.
  - destruct screens as [|text rest]; [exists m; now split|].
    cbn [firstn updates].
    destruct (update_in_gameplay m text H) as [m1 [-> H1]]. cbn [bind].
    apply IH, H1.
Qed.

Lemma gameplay_is_terminal_witness :
  exists m',
    updates machine_in_play (firstn 2 [class_screen; species_screen; "tutorial"]) = Ok m' /\
    current_state m' = gameplay.
Proof.
  exact (gameplay_is_terminal machine_in_play
           [class_screen; species_screen; "tutorial"] eq_refl 2%nat).
Defined.

End CharCreationFacts.

(** * Properties of the game-state parser *)

Module ParserFacts.

Import Str Re game_state Frame Inputs Stated.

(** *** What the lines of a frame write *)

(** Two states with the same attributes are the same state. *)
Lemma GameState_ext (a b : GameState) :
  position a = position b ->
  dungeon_branch a = dungeon_branch b ->
  dungeon_level a = dungeon_level b ->
  health a = health b ->
  max_health a = max_health b ->
  mana a = mana b ->
  max_mana a = max_mana b ->
  gold a = gold b ->
  experience_level a = experience_level b ->
  experience_progress a = experience_progress b ->
  hunger_level a = hunger_level b ->
  status_line a = status_line b ->
  message_line a = message_line b ->
  inventory a = inventory b ->
  visible_map a = visible_map b ->
  inventory_items a = inventory_items b ->
  identified_potions a = identified_potions b ->
  untested_potions a = untested_potions b ->
  items_on_ground a = items_on_ground b ->
  equipped_items a = equipped_items b ->
  current_ac a = current_ac b ->
  a = b.
Proof.
  destruct a, b. cbn. intros. subst. reflexivity.
Qed.

Lemma write_no_writes (st : GameState) : write no_writes st = st.
Proof. now destruct st. Qed.

Lemma later_same {A : Type} (o : option A) : later o o = o.
Proof. now destruct o. Qed.

Lemma write_write (u1 u2 : writes) (st : GameState) :
  write u2 (write u1 st) = write (and_then_writes u1 u2) st.
Proof.
  destruct u1 as [d1 h1 m1 l1 p1 g1 n1 s1 e1], u2 as [d2 h2 m2 l2 p2 g2 n2 s2 e2].
  apply GameState_ext; cbn; try reflexivity.
  - now destruct d2 as [[? ?]|].
  - now destruct d2 as [[? ?]|].
  - now destruct h2 as [[? ?]|].
  - now destruct h2 as [[? ?]|].
  - now destruct m2 as [[? ?]|].
  - now destruct m2 as [[? ?]|].
  - now destruct g2.
  - now destruct l2.
  - now destruct p2.
  - now destruct n2.
  - now destruct s2.
  - now destruct e2.
Qed.

Lemma and_then_same (u : writes) : and_then_writes u u = u.
Proof.
  destruct u. unfold and_then_writes. cbn. now rewrite !later_same.
Qed.

(** Writing the same values twice is writing them once. *)
Lemma write_twice (u : writes) (st : GameState) : write u (write u st) = write u st.
Proof. now rewrite write_write, and_then_same. Qed.

Lemma _parse_status_line_writes (line : string) (st : GameState) :
  _parse_status_line line st = write (status_writes line) st.
Proof.
  unfold _parse_status_line, status_writes.
  generalize (search false branch_pattern line) (first_search hp_patterns line)
    (first_search mana_patterns line) (search true xl_pattern line)
    (search true next_pattern line) (search true gold_pattern line)
    (first_hunger line).
  intros o1 o2 o3 o4 o5 o6 o7. destruct st.
  destruct o1, o2, o3, o4, o5, o6, o7; reflexivity.
Qed.

Lemma _parse_line_writes (line : string) (st : GameState) :
  _parse_line line st = (write (line_writes line) st, is_status_line line).
Proof.
  unfold _parse_line, line_writes, is_status_line.
  destruct (is_empty line || (len (strip line) <? 2))%bool; cbn [negb andb].
  - now rewrite write_no_writes.
  - destruct (has_status line).
    + now rewrite _parse_status_line_writes.
    + destruct (endswith_char (strip line) "." || endswith_char (strip line) "?")%bool.
      * now destruct st.
      * now rewrite write_no_writes.
Qed.

Lemma parse_lines_writes (lines : list string) (st : GameState) (found : bool) :
  parse_lines lines st found =
  (write (lines_writes (filter (fun l => negb (is_empty l)) (map strip lines))) st,
   (existsb is_status_line (filter (fun l => negb (is_empty l)) (map strip lines)) || found)%bool).
Proof.
  revert st found. induction lines as [|line rest IH]; intros st found.
  - cbn. now rewrite write_no_writes.
  - cbn [parse_lines map filter].
    destruct (is_empty (strip line)); cbn [negb]; [apply IH|].
    rewrite _parse_line_writes, IH. cbn [lines_writes existsb].
    rewrite write_write. f_equal.
    destruct (is_status_line (strip line)); cbn; [now rewrite orb_true_r|reflexivity].
Qed.

(** *** The parser on a frame of the test suite *)

Example parses_health_23 :
  health (state (parse_output new_parser "Health: 23/23")) = 23 /\
  max_health (state (parse_output new_parser "Health: 23/23")) = 23.
Proof. split; reflexivity. Qed.

(** *** [parse_output] in terms of what the frame writes *)

Lemma parse_output_empty (p : GameStateParser) (output : string) :
  is_empty output = true -> parse_output p output = p.
Proof. intros H. unfold parse_output. now rewrite H. Qed.

Lemma parse_output_writes (p : GameStateParser) (output : string) :
  is_empty output = false ->
  parse_output p output =
  let st := write (lines_writes (parsed_lines output)) (state p) in
  let last_health' :=
    if ((health st >? 0) && (max_health st >? 0))%bool
    then (health st, max_health st) else last_health p in
  let last_mana' :=
    if ((mana st >=? 0) && (max_mana st >? 0))%bool
    then (mana st, max_mana st) else last_mana p in
  {| state :=
       if negb (status_found output)
       then set_mana (fst last_mana') (snd last_mana')
              (set_health (fst last_health') (snd last_health') st)
       else st;
     last_health := last_health';
     last_mana := last_mana';
     last_screen_output := _clean_ansi output |}.
Proof.
  intros H. unfold parse_output. rewrite H, parse_lines_writes.
  unfold status_found, parsed_lines. now rewrite orb_false_r.
Qed.

Lemma line_writes_no_status (line : string) :
  is_status_line line = false ->
  u_health (line_writes line) = None /\ u_mana (line_writes line) = None.
Proof.
  unfold is_status_line, line_writes.
  destruct (is_empty line || (len (strip line) <? 2))%bool; cbn [negb andb];
    [now split|].
  destruct (has_status line); [discriminate|]. intros _.
  destruct (endswith_char (strip line) "." || endswith_char (strip line) "?")%bool;
    now split.
Qed.

(** A frame without a status line writes neither health nor mana. *)
Lemma lines_writes_no_status (lines : list string) :
  existsb is_status_line lines = false ->
  u_health (lines_writes lines) = None /\ u_mana (lines_writes lines) = None.
Proof.
  induction lines as [|line rest IH]; [now split|].
  cbn [existsb lines_writes]. intros H.
  apply orb_false_iff in H. destruct H as [Hl Hr].
  destruct (IH Hr) as [H1 H2]. destruct (line_writes_no_status line Hl) as [H3 H4].
  unfold and_then_writes. cbn. now rewrite H1, H2, H3, H4.
Qed.

Lemma write_keeps_health (u : writes) (st : GameState) :
  u_health u = None -> u_mana u = None ->
  health (write u st) = health st /\ max_health (write u st) = max_health st /\
  mana (write u st) = mana st /\ max_mana (write u st) = max_mana st.
Proof. destruct u. cbn. intros -> ->. now repeat split. Qed.

Lemma write_after_restore (u : writes) (st : GameState) (a b c d : Z) :
  u_health u = None -> u_mana u = None ->
  write u (set_mana a b (set_health c d st)) = set_mana a b (set_health c d (write u st)).
Proof.
  destruct u. cbn. intros -> ->. apply GameState_ext; reflexivity.
Qed.

Lemma restore_twice (st : GameState) (a b c d : Z) :
  set_mana a b (set_health c d (set_mana a b (set_health c d st))) =
  set_mana a b (set_health c d st).
Proof. apply GameState_ext; reflexivity. Qed.

Lemma GameStateParser_ext (p q : GameStateParser) :
  state p = state q -> last_health p = last_health q ->
  last_mana p = last_mana q -> last_screen_output p = last_screen_output q ->
  p = q.
Proof. destruct p, q. cbn. intros. now subst. Qed.

(** C6. Parsing the same snapshot a second time changes nothing: not the
    state, not the caches, not the stored screen. *)
Theorem parse_output_idempotent (p : GameStateParser) (output : string) :
  parse_output (parse_output p output) output = parse_output p output.
Proof.
  destruct (is_empty output) eqn:He.
  - now rewrite !parse_output_empty.
  - rewrite (parse_output_writes (parse_output p output) output He).
    rewrite (parse_output_writes p output He).
    set (u := lines_writes (parsed_lines output)).
    cbn zeta. cbn [state last_health last_mana last_screen_output].
    destruct (status_found output) eqn:Hf; cbn [negb].
    + rewrite write_twice.
      set (st := write u (state p)).
      apply GameStateParser_ext; cbn [state last_health last_mana last_screen_output];
        try reflexivity.
      * now destruct ((health st >? 0) && (max_health st >? 0))%bool.
      * now destruct ((mana st >=? 0) && (max_mana st >? 0))%bool.
    + destruct (lines_writes_no_status _ Hf) as [Hh Hm]. fold u in Hh, Hm.
      rewrite (write_after_restore u _ _ _ _ _ Hh Hm), write_twice.
      set (st := write u (state p)).
      set (lh := if ((health st >? 0) && (max_health st >? 0))%bool
                 then (health st, max_health st) else last_health p).
      set (lm := if ((mana st >=? 0) && (max_mana st >? 0))%bool
                 then (mana st, max_mana st) else last_mana p).
      assert (Hlh : (if ((health (set_mana (fst lm) (snd lm) (set_health (fst lh) (snd lh) st)) >? 0) &&
                         (max_health (set_mana (fst lm) (snd lm) (set_health (fst lh) (snd lh) st)) >? 0))%bool
                     then (health (set_mana (fst lm) (snd lm) (set_health (fst lh) (snd lh) st)),
                           max_health (set_mana (fst lm) (snd lm) (set_health (fst lh) (snd lh) st)))
                     else lh) = lh).
      { cbn [health max_health set_mana set_health].
        destruct ((fst lh >? 0) && (snd lh >? 0))%bool; [now destruct lh | reflexivity]. }
      assert (Hlm : (if ((mana (set_mana (fst lm) (snd lm) (set_health (fst lh) (snd lh) st)) >=? 0) &&
                         (max_mana (set_mana (fst lm) (snd lm) (set_health (fst lh) (snd lh) st)) >? 0))%bool
                     then (mana (set_mana (fst lm) (snd lm) (set_health (fst lh) (snd lh) st)),
                           max_mana (set_mana (fst lm) (snd lm) (set_health (fst lh) (snd lh) st)))
                     else lm) = lm).
      { cbn [mana max_mana set_mana set_health].
        destruct ((fst lm >=? 0) && (snd lm >? 0))%bool; [now destruct lm | reflexivity]. }
      rewrite Hlh, Hlm.
      apply GameStateParser_ext; cbn [state last_health last_mana last_screen_output];
        reflexivity.
Qed.

(** *** The numbers that are parsed *)

Lemma int_of_digits_acc_nonneg (s : string) (acc : Z) :
  0 <= acc -> 0 <= int_of_digits_acc acc s.
Proof.
  revert acc. induction s as [|c s IH]; intros acc H; cbn [int_of_digits_acc]; [exact H|].
  apply IH. unfold digit_value. lia.
Qed.

Lemma int_group_nonneg (n : nat) (m : captures) : 0 <= int_group n m.
Proof. apply int_of_digits_acc_nonneg. lia. Qed.

Lemma write_line_bounded (line : string) (st : GameState) :
  bounded st -> shows_in_range line -> bounded (write (line_writes line) st).
Proof.
  intros Hb Hr. unfold shows_in_range, is_status_line in Hr. unfold line_writes.
  destruct (is_empty line || (len (strip line) <? 2))%bool; cbn [negb andb] in Hr;
    [now rewrite write_no_writes|].
  destruct (has_status line).
  - destruct (Hr eq_refl) as [Hh Hp]. destruct Hb as [Hb1 Hb2].
    unfold bounded, write, status_writes.
    cbn [health max_health experience_progress u_health u_progress].
    split.
    + destruct (first_search hp_patterns line); cbn; [intros _; exact Hh | exact Hb1].
    + destruct (search true next_pattern line); cbn [option_map]; [|exact Hb2].
      split; [apply int_group_nonneg | exact Hp].
  - destruct (endswith_char (strip line) "." || endswith_char (strip line) "?")%bool;
      [exact Hb | now rewrite write_no_writes].
Qed.

Lemma write_lines_bounded (lines : list string) (st : GameState) :
  bounded st -> Forall shows_in_range lines -> bounded (write (lines_writes lines) st).
Proof.
  intros Hb Hr. revert st Hb.
  induction Hr as [|line rest Hl Hrest IH]; intros st Hb; cbn [lines_writes].
  - now rewrite write_no_writes.
  - rewrite <- write_write. apply IH. now apply write_line_bounded.
Qed.

(** C3, as amended. The parser copies the numbers that the status lines
    show: when these are in range (health at most the maximum, progress at
    most 100), a parser whose state and cache are in range stays so. *)
Theorem parse_output_in_range (p : GameStateParser) (output : string) :
  consistent p ->
  Forall shows_in_range (parsed_lines output) ->
  consistent (parse_output p output).
Proof.
  intros [Hb Hc] Hr.
  destruct (is_empty output) eqn:He; [rewrite parse_output_empty by exact He; now split|].
  rewrite (parse_output_writes p output He).
  pose proof (write_lines_bounded _ _ Hb Hr) as Hst.
  set (st := write (lines_writes (parsed_lines output)) (state p)) in *.
  cbn zeta. unfold consistent. cbn [state last_health].
  set (lh := if ((health st >? 0) && (max_health st >? 0))%bool
             then (health st, max_health st) else last_health p).
  assert (Hlh : fst lh <= snd lh).
  { unfold lh. destruct ((health st >? 0) && (max_health st >? 0))%bool eqn:Hpos; [|exact Hc].
    cbn [fst snd]. apply andb_true_iff in Hpos. destruct Hpos as [_ Hm].
    apply Z.gtb_lt in Hm. now apply Hst. }
  split; [|exact Hlh].
  destruct (status_found output); cbn [negb]; [exact Hst|].
  unfold bounded in *. cbn. split; [intros _; exact Hlh | apply Hst].
Qed.

Lemma new_parser_consistent : consistent new_parser.
Proof. unfold consistent, bounded. cbn. lia. Qed.

Lemma parse_output_in_range_witness :
  consistent (parse_output new_parser healthy_frame).
Proof.
  apply (parse_output_in_range new_parser healthy_frame new_parser_consistent).
  change (parsed_lines healthy_frame) with [healthy_frame].
  constructor; [|constructor].
  intros _. split; vm_compute; intro H; discriminate H.
Defined.

(** C3, as stated, fails: a frame that shows 50/23 and a progress of 250%
    is parsed to exactly these numbers. *)
Lemma parse_keeps_bounds_counterexample :
  health (state (parse_output new_parser out_of_range_frame)) = 50 /\
  max_health (state (parse_output new_parser out_of_range_frame)) = 23 /\
  experience_progress (state (parse_output new_parser out_of_range_frame)) = 250 /\
  ~ parse_keeps_bounds new_parser out_of_range_frame.
Proof.
  repeat split; try reflexivity.
  unfold parse_keeps_bounds, bounded. intros [H _].
  vm_compute in H. exact (H eq_refl eq_refl).
Qed.

(** *** The cache *)

Lemma health_found_status_found (output : string) :
  health_found output = true -> status_found output = true.
Proof.
  unfold health_found, status_found.
  induction (parsed_lines output) as [|line rest IH]; cbn [existsb]; [discriminate|].
  intros H. apply orb_true_iff in H. apply orb_true_iff.
  destruct H as [H|H]; [left | right; auto].
  now apply andb_true_iff in H.
Qed.

(** A cache of positive health values stays one. *)
Lemma cache_stays_positive (p : GameStateParser) (output : string) :
  0 < fst (last_health p) /\ 0 < snd (last_health p) ->
  0 < fst (last_health (parse_output p output)) /\
  0 < snd (last_health (parse_output p output)).
Proof.
  intros Hc.
  destruct (is_empty output) eqn:He; [now rewrite parse_output_empty|].
  rewrite (parse_output_writes p output He). cbn zeta. cbn [last_health].
  set (st := write (lines_writes (parsed_lines output)) (state p)).
  destruct ((health st >? 0) && (max_health st >? 0))%bool eqn:Hpos; [|exact Hc].
  apply andb_true_iff in Hpos. destruct Hpos as [Hh Hm].
  apply Z.gtb_lt in Hh, Hm. now split.
Qed.

(** C5, as amended. A non-empty frame without a status line sets health,
    maximal health, mana and maximal mana from the cache; it leaves positive
    health values (and mana values with a positive maximum) as they were,
    and with a cache of positive values it never sets health or maximal
    health to zero. A frame in which a health pair was found updates the
    health cache when both numbers are positive, and leaves the cache as it
    was otherwise. *)
Theorem blank_frame_restores (p : GameStateParser) (output : string) :
  is_empty output = false ->
  let p' := parse_output p output in
  let st' := state p' in
  (status_found output = false ->
   ((health st', max_health st') = last_health p' /\
    (mana st', max_mana st') = last_mana p') /\
   (0 < health (state p) -> 0 < max_health (state p) ->
    health st' = health (state p) /\ max_health st' = max_health (state p)) /\
   (0 <= mana (state p) -> 0 < max_mana (state p) ->
    mana st' = mana (state p) /\ max_mana st' = max_mana (state p)) /\
   (0 < fst (last_health p) -> 0 < snd (last_health p) ->
    0 < health st' /\ 0 < max_health st')) /\
  (health_found output = true ->
   (0 < health st' -> 0 < max_health st' ->
    last_health p' = (health st', max_health st')) /\
   (~ (0 < health st' /\ 0 < max_health st') -> last_health p' = last_health p)).
Proof.
  intros He. cbn zeta.
  rewrite (parse_output_writes p output He). cbn zeta.
  cbn [state last_health last_mana].
  set (u := lines_writes (parsed_lines output)).
  set (st := write u (state p)).
  split.
  - intros Hf. rewrite Hf. cbn [negb].
    destruct (lines_writes_no_status _ Hf) as [Hh Hm]. fold u in Hh, Hm.
    destruct (write_keeps_health u (state p) Hh Hm) as [E1 [E2 [E3 E4]]].
    fold st in E1, E2, E3, E4.
    cbn [health max_health mana max_mana set_mana set_health].
    rewrite E1, E2, E3, E4.
    split; [|split; [|split]].
    + split; symmetry; apply surjective_pairing.
    + intros H1 H2. apply Z.gtb_lt in H1, H2. rewrite H1, H2. now cbn.
    + intros H1 H2. apply Z.geb_le in H1. apply Z.gtb_lt in H2. rewrite H1, H2. now cbn.
    + intros H1 H2.
      destruct ((health (state p) >? 0) && (max_health (state p) >? 0))%bool eqn:Hpos;
        [|now split].
      apply andb_true_iff in Hpos. destruct Hpos as [Hp1 Hp2].
      apply Z.gtb_lt in Hp1, Hp2. now split.
  - intros Hf. apply health_found_status_found in Hf. rewrite Hf. cbn [negb].
    split.
    + intros H1 H2. apply Z.gtb_lt in H1, H2. now rewrite H1, H2.
    + intros Hn.
      destruct ((health st >? 0) && (max_health st >? 0))%bool eqn:Hpos; [|reflexivity].
      apply andb_true_iff in Hpos. destruct Hpos as [Hp1 Hp2].
      apply Z.gtb_lt in Hp1, Hp2. now destruct Hn.
Qed.

Lemma blank_frame_restores_witness :
  health (state (parse_output (parse_output new_parser healthy_frame) blank_frame)) = 23 /\
  max_health (state (parse_output (parse_output new_parser healthy_frame) blank_frame)) = 23.
Proof.
  exact (proj1 (proj2 (proj1 (blank_frame_restores
                                (parse_output new_parser healthy_frame) blank_frame eq_refl)
                             eq_refl))
               eq_refl eq_refl).
Defined.

(** C5, as stated, fails twice: a frame that shows a health of 0 is not
    cached although the pair was found, and an empty snapshot restores
    nothing. *)
Lemma restores_or_caches_counterexample :
  last_health (parse_output new_parser zero_health_frame) = (10, 10) /\
  ~ restores_or_caches new_parser zero_health_frame /\
  ~ restores_or_caches (parse_output new_parser zero_health_frame) EmptyString.
Proof.
  split; [reflexivity|]. split.
  - intros [_ H]. specialize (H eq_refl). vm_compute in H. discriminate H.
  - intros [H _]. destruct (H eq_refl) as [H1 _]. vm_compute in H1. discriminate H1.
Qed.

End ParserFacts.

(** * Properties of the better-armor search *)

Module ArmorFacts.

Import Str game_state Armor Inputs Stated.

Lemma consider_credit (st : GameState) (slot : string) (item : InventoryItem) :
  consider st (slot, item) =
  match credit st item with
  | Some d => [(d, slot, item)]
  | None => []
  end.
Proof.
  unfold consider, credit.
  destruct (String.eqb (item_type item) "armor"); cbn [negb orb andb]; [|reflexivity].
  destruct (no_slot (equipment_slot item)); cbn [negb orb andb]; [reflexivity|].
  destruct (is_equipped item); cbn [negb andb]; [reflexivity|].
  destruct (ac_value item <? 0) eqn:Hneg; [|reflexivity].
  destruct (get (slot_name (equipment_slot item)) (equipped_items st)) as [cur|].
  - now destruct (ac_value item <? ac_value cur).
  - apply Z.ltb_lt in Hneg. now rewrite Z.abs_neq by lia.
Qed.

(** The head of the descending stable sort: the new entry, unless the head
    of the rest is strictly larger. *)
Lemma hd_sort_desc_cons (e : entry) (l : list entry) :
  hd_error (sort_desc (e :: l)) =
  match hd_error (sort_desc l) with
  | None => Some e
  | Some y => if improvement_of y <=? improvement_of e then Some e else Some y
  end.
Proof.
  cbn [sort_desc fold_right]. fold (sort_desc l).
  destruct (sort_desc l) as [|y l']; [reflexivity|].
  cbn [insert_desc hd_error].
  now destruct (improvement_of y <=? improvement_of e).
Qed.

Lemma find_better_armor_hd (st : GameState) :
  find_better_armor st =
  option_map (fun e : entry => (snd (fst e), snd e)) (hd_error (sort_desc (better_items st))).
Proof.
  unfold find_better_armor.
  now destruct (sort_desc (better_items st)) as [|[[d s] i] l].
Qed.

(** The head of the sorted candidates is the first inventory entry with the
    largest credit. *)
Lemma best_entry (st : GameState) (inv : list (string * InventoryItem)) :
  match hd_error (sort_desc (flat_map (consider st) inv)) with
  | None => forall kv, In kv inv -> credit st (snd kv) = None
  | Some (d, slot, item) =>
      exists before after,
        inv = before ++ (slot, item) :: after /\
        credit st item = Some d /\
        (forall kv d', In kv before -> credit st (snd kv) = Some d' -> d' < d) /\
        (forall kv d', In kv after -> credit st (snd kv) = Some d' -> d' <= d)
  end.
Proof.
  induction inv as [|[slot0 item0] rest IH]; [intros kv []|].
  cbn [flat_map]. rewrite consider_credit.
  destruct (credit st item0) as [d0|] eqn:Hc0; cbn [app].
  - rewrite hd_sort_desc_cons.
    destruct (hd_error (sort_desc (flat_map (consider st) rest))) as [[[d slot] item]|].
    + destruct IH as [before [after [Hinv [Hc [Hb Ha]]]]].
      unfold improvement_of. cbn [fst].
      destruct (d <=? d0) eqn:Hle.
      * apply Z.leb_le in Hle. exists [], rest. cbn [app].
        repeat split; auto; [intros kv d' []|].
        intros kv d' Hin Hkv. rewrite Hinv in Hin.
        apply in_app_or in Hin. destruct Hin as [Hin|[Heq|Hin]].
        -- specialize (Hb kv d' Hin Hkv). lia.
        -- subst kv. cbn [snd] in Hkv. rewrite Hc in Hkv. injection Hkv as <-. exact Hle.
        -- specialize (Ha kv d' Hin Hkv). lia.
      * apply Z.leb_gt in Hle. exists ((slot0, item0) :: before), after.
        rewrite Hinv. cbn [app]. repeat split; auto.
        intros kv d' [Heq|Hin] Hkv.
        -- subst kv. cbn [snd] in Hkv. rewrite Hc0 in Hkv. injection Hkv as <-. exact Hle.
        -- exact (Hb kv d' Hin Hkv).
    + exists [], rest. cbn [app]. repeat split; auto; [intros kv d' []|].
      intros kv d' Hin Hkv. rewrite (IH kv Hin) in Hkv. discriminate.
  - destruct (hd_error (sort_desc (flat_map (consider st) rest))) as [[[d slot] item]|].
    + destruct IH as [before [after [Hinv [Hc [Hb Ha]]]]].
      exists ((slot0, item0) :: before), after.
      rewrite Hinv. cbn [app]. repeat split; auto.
      intros kv d' [Heq|Hin] Hkv.
      * subst kv. cbn [snd] in Hkv. rewrite Hc0 in Hkv. discriminate.
      * exact (Hb kv d' Hin Hkv).
    + intros kv [Heq|Hin]; [now subst kv | now apply IH].
Qed.

(** C7, as amended. [find_better_armor] returns the first inventory entry
    with the largest credit, and nothing when no entry has a credit; the
    credit of an item for an empty slot is its own protection, not
    unbounded, and an item without protection has none. In particular it
    returns nothing when the only item carried is no better than the item
    equipped in its slot. *)
Theorem find_better_armor_best (st : GameState) :
  match find_better_armor st with
  | None => forall kv, In kv (inventory_items st) -> credit st (snd kv) = None
  | Some (slot, item) =>
      exists before after d,
        inventory_items st = before ++ (slot, item) :: after /\
        credit st item = Some d /\
        (forall kv d', In kv before -> credit st (snd kv) = Some d' -> d' < d) /\
        (forall kv d', In kv after -> credit st (snd kv) = Some d' -> d' <= d)
  end /\
  (forall slot item current_equipped,
     inventory_items st = [(slot, item)] ->
     get (slot_name (equipment_slot item)) (equipped_items st) = Some current_equipped ->
     ac_value current_equipped <= ac_value item ->
     find_better_armor st = None).
Proof.
  split.
  - rewrite find_better_armor_hd. unfold better_items.
    pose proof (best_entry st (inventory_items st)) as H.
    destruct (hd_error (sort_desc (flat_map (consider st) (inventory_items st))))
      as [[[d slot] item]|]; cbn [option_map fst snd].
    + destruct H as [before [after H]]. now exists before, after, d.
    + exact H.
  - intros slot item cur Hinv Hget Hle.
    unfold find_better_armor, better_items. rewrite Hinv. cbn [flat_map app].
    rewrite consider_credit, app_nil_r. unfold credit. rewrite Hget.
    destruct (_ && _ && _ && _)%bool; [|reflexivity].
    apply Z.ltb_ge in Hle. now rewrite Hle.
Qed.

(** C7, as stated, fails: with a helmet for the empty head slot and a chain
    mail that is five points better than the armour worn, the code takes the
    chain mail, the reference the helmet. *)
Lemma armor_as_specified_counterexample :
  find_better_armor bare_headed = Some ("b", chain_mail) /\
  findBetterArmor_spec bare_headed = Some ("a", helmet) /\
  ~ armor_as_specified bare_headed.
Proof.
  split; [reflexivity|]. split; [reflexivity|].
  unfold armor_as_specified. intros H. vm_compute in H. discriminate H.
Qed.

Lemma find_better_armor_best_witness : find_better_armor nothing_better = None.
Proof.
  exact (proj2 (find_better_armor_best nothing_better) "d" plain_robe leather_armour
               eq_refl eq_refl (Z.le_refl (-1))).
Defined.

End ArmorFacts.

Module EngineMore.
Import decision_engine Bands Inputs EngineFacts.
Local Abbreviation E := create_default_engine.

Lemma band_none (p : Priority) (v : Z) (l : list Rule) :
  Forall (fun x => v <= value (priority x)) l ->
  value p < v ->
  band p l = [].
Proof.
  intros Hall Hlt. unfold band.
  induction Hall as [|x l Hx Hl IH]; [reflexivity|].
  cbn [filter]. unfold has_priority at 1, Priority_eqb.
  destruct (value (priority x) =? value p) eqn:Heq; [apply Z.eqb_eq in Heq; lia | exact IH].
Qed.

Lemma band_cons_same (p : Priority) (r : Rule) (l : list Rule) :
  priority r = p -> band p (r :: l) = r :: band p l.
Proof.
  intros <-. unfold band. cbn [filter]. unfold has_priority at 1, Priority_eqb.
  now rewrite Z.eqb_refl.
Qed.

Lemma band_cons_other (p : Priority) (r : Rule) (l : list Rule) :
  value (priority r) <> value p -> band p (r :: l) = band p l.
Proof.
  intros Hne. unfold band. cbn [filter]. unfold has_priority at 1, Priority_eqb.
  destruct (value (priority r) =? value p) eqn:Heq; [apply Z.eqb_eq in Heq; lia | reflexivity].
Qed.

Ltac other_bands Hp :=
  repeat match goal with
         | |- context [band ?p (?r :: ?l)] =>
             first [ rewrite (band_cons_same p r l Hp)
                   | rewrite (band_cons_other p r l) by (rewrite Hp; cbn; lia) ]
         end.

Ltac empty_bands Hall :=
  repeat match goal with
         | |- context [band ?p ?l] =>
             rewrite (band_none p _ l Hall) by (cbn; lia)
         end.

Lemma ascending_by_band (l : list Rule) : ascending l -> by_band l = l.
Proof.
  induction 1 as [|r l Hall Hasc IH]; [reflexivity|].
  rewrite <- IH at 2. unfold by_band.
  destruct (priority r) eqn:Hp; other_bands Hp; empty_bands Hall; reflexivity.
Qed.

Lemma by_band_sorted (l : list Rule) : by_band (sorted l) = by_band l.
Proof. unfold by_band, band. now rewrite !sorted_stable. Qed.

(** X1. For every engine, [decide] evaluates the CRITICAL rules, then the
    URGENT, HIGH, NORMAL and LOW rules, each band in the order in which its
    rules were added. *)
Theorem decide_by_band (e : DecisionEngine) (ctx : DecisionContext) :
  sorted (rules e) = by_band (rules e) /\
  decide e ctx = evaluate (by_band (rules e)) ctx.
Proof.
  assert (H : sorted (rules e) = by_band (rules e)).
  { rewrite <- (ascending_by_band (sorted (rules e)) (sorted_ascending (rules e))).
    apply by_band_sorted. }
  split; [exact H|]. unfold decide. now rewrite H.
Qed.

Lemma in_by_band (r : Rule) (l : list Rule) : In r (by_band l) <-> In r l.
Proof.
  unfold by_band, band. rewrite !in_app_iff, !filter_In.
  unfold has_priority, Priority_eqb.
  split; [tauto|]. intros H.
  destruct (priority r); cbn; tauto.
Qed.

(** The sort keeps the rules: none is lost, none is added. *)
Lemma in_sorted (r : Rule) (l : list Rule) : In r (sorted l) <-> In r l.
Proof.
  rewrite <- (ascending_by_band (sorted l) (sorted_ascending l)), by_band_sorted.
  apply in_by_band.
Qed.

Lemma winner_cons (ctx : DecisionContext) (r : Rule) (l : list Rule) :
  winner (r :: l) ctx = if fires ctx r then Some r else winner l ctx.
Proof.
  cbn [winner]. unfold fires.
  destruct (condition r ctx) as [[|]|]; try reflexivity.
  now destruct (action r ctx).
Qed.

Lemma evaluate_cons_quiet (ctx : DecisionContext) (r : Rule) (l : list Rule) :
  fires ctx r = false -> evaluate (r :: l) ctx = evaluate l ctx.
Proof.
  cbn [evaluate]. unfold fires.
  destruct (condition r ctx) as [[|]|]; try reflexivity.
  now destruct (action r ctx).
Qed.

Lemma evaluate_cons_fires (ctx : DecisionContext) (r : Rule) (l : list Rule) :
  fires ctx r = true ->
  exists command reason,
    action r ctx = Ok (command, reason) /\ evaluate (r :: l) ctx = (Some command, reason).
Proof.
  cbn [evaluate]. unfold fires.
  destruct (condition r ctx) as [[|]|]; try discriminate.
  destruct (action r ctx) as [[c why]|]; [|discriminate].
  intros _. now exists c, why.
Qed.

Lemma evaluate_no_match (ctx : DecisionContext) (l : list Rule) :
  evaluate l ctx = no_match <-> forall r, In r l -> fires ctx r = false.
Proof.
  induction l as [|x l IH].
  - split; [intros _ r [] | reflexivity].
  - destruct (fires ctx x) eqn:Hx.
    + destruct (evaluate_cons_fires ctx x l Hx) as [c [why [_ ->]]].
      split; [discriminate|].
      intros H. rewrite (H x (or_introl eq_refl)) in Hx. discriminate.
    + rewrite (evaluate_cons_quiet ctx x l Hx), IH.
      split.
      * intros H r [<-|Hin]; auto.
      * intros H r Hin. apply H. now right.
Qed.

(** X2. For every engine, [decide] answers [(None, "No matching rules")]
    exactly when no rule has a true condition and an action that returns;
    otherwise it answers with a command. *)
Theorem decide_no_match_iff (e : DecisionEngine) (ctx : DecisionContext) :
  (decide e ctx = no_match <-> forall r, In r (rules e) -> fires ctx r = false) /\
  (decide e ctx = no_match \/ exists command reason, decide e ctx = (Some command, reason)).
Proof.
  unfold decide. split.
  - rewrite evaluate_no_match.
    split; intros H r Hin; apply H; now apply in_sorted.
  - pose proof (evaluate_winner ctx (sorted (rules e))) as H.
    destruct (winner (sorted (rules e)) ctx).
    + destruct H as [c [why [_ H]]]. right. now exists c, why.
    + now left.
Qed.

Lemma winner_of_ascending (ctx : DecisionContext) (l : list Rule) (r : Rule) :
  ascending l -> In r l -> fires ctx r = true ->
  exists w, winner l ctx = Some w /\ fires ctx w = true /\
            value (priority w) <= value (priority r).
Proof.
  induction 1 as [|x l Hall Hasc IH]; intros Hin Hr; [destruct Hin|].
  rewrite winner_cons. destruct (fires ctx x) eqn:Hx.
  - exists x. repeat split; auto.
    destruct Hin as [<-|Hin]; [lia|].
    rewrite Forall_forall in Hall. now apply Hall.
  - destruct Hin as [<-|Hin]; [congruence|]. now apply IH.
Qed.

(** X3. For every engine, when some rule fires, the rule that decides fires
    too and no firing rule has a smaller priority value. *)
Theorem decision_has_least_priority (e : DecisionEngine) (ctx : DecisionContext) (r : Rule) :
  In r (rules e) -> fires ctx r = true ->
  exists w, winner (sorted (rules e)) ctx = Some w /\ fires ctx w = true /\
            value (priority w) <= value (priority r).
Proof.
  intros Hin Hr. apply winner_of_ascending; auto using sorted_ascending.
  now apply in_sorted.
Qed.

Lemma decision_has_least_priority_witness :
  exists w, winner (sorted (rules test_engine)) quiet_at_60 = Some w /\
            fires quiet_at_60 w = true /\
            value (priority w) <= value (priority low_rule).
Proof.
  apply (decision_has_least_priority test_engine quiet_at_60 low_rule).
  - left. reflexivity.
  - reflexivity.
Defined.

Lemma float_lt_not_ge (p : spec_float) (n : Z) :
  float_lt_int p n = true -> float_ge_int p n = false.
Proof.
  unfold float_lt_int, float_ge_int, SFltb, SFleb.
  rewrite (SFcompare_flip p (float_of_int n)).
  now destruct (SFcompare p (float_of_int n)) as [[| |]|].
Qed.

(** X4. With the default engine, when the game shows gameplay indicators and
    no earlier rule matches, a health percentage >= 60 explores and a health
    percentage < 60 rests. *)
Theorem explore_or_rest (ctx : DecisionContext) (p : spec_float) :
  none_holds_before E "Explore (good health)" ctx = true ->
  has_gameplay_indicators ctx = true ->
  health_percentage ctx = Ok p ->
  (float_ge_int p 60 = true ->
   decide E ctx = (Some "o", [Lit "Auto-explore (health: "; Fixed1 p; Lit "%)"])) /\
  (float_lt_int p 60 = true ->
   decide E ctx = (Some "5", [Lit "Resting to recover (health: "; Fixed1 p; Lit "%)"])).
Proof.
  intros Hnone Hgame Hp.
  destruct (decide_from _ ctx Hnone) as [-> _]. rule_list.
  match goal with
  | |- context [evaluate (?a :: ?b :: ?t) ctx] => generalize t; intros tail
  end.
  cbn [evaluate condition action]. rewrite Hgame, Hp. cbn [and_then bind].
  split; intros Hcmp.
  - now rewrite Hcmp.
  - now rewrite (float_lt_not_ge _ _ Hcmp), Hcmp.
Qed.

Lemma explore_or_rest_witness :
  fst (decide E quiet_at_60) = Some "o" /\ fst (decide E quiet_at_59) = Some "5".
Proof.
  split.
  - rewrite (proj1 (explore_or_rest quiet_at_60 (float_of_int 60)
                      eq_refl eq_refl eq_refl) eq_refl). reflexivity.
  - rewrite (proj2 (explore_or_rest quiet_at_59 (float_of_int 59)
                      eq_refl eq_refl eq_refl) eq_refl). reflexivity.
Defined.

Lemma evaluate_some (ctx : DecisionContext) (l : list Rule) c why :
  evaluate l ctx = (Some c, why) ->
  exists r, In r l /\ action r ctx = Ok (c, why).
Proof.
  induction l as [|x l IH]; [discriminate|].
  cbn [evaluate].
  destruct (condition x ctx) as [[|]|];
    try (intros H; destruct (IH H) as [r [Hin Ha]]; exists r; split; [now right | exact Ha]).
  destruct (action x ctx) as [[c' why']|] eqn:Ha.
  - intros H. injection H as <- <-. exists x. split; [now left | exact Ha].
  - intros H; destruct (IH H) as [r [Hin Ha']]; exists r; split; [now right | exact Ha'].
Qed.

(** X5. The default engine only ever sends one of thirteen fixed commands,
    or the decimal text of the goto target level. *)
Theorem commands_of_default_engine (ctx : DecisionContext) (command : string) :
  fst (decide E ctx) = Some command ->
  In command fixed_commands \/ command = str_of_int (goto_target_level ctx).
Proof.
  destruct (decide E ctx) as [o why] eqn:Hd. cbn [fst]. intros ->.
  unfold decide in Hd. apply evaluate_some in Hd.
  destruct Hd as [r [Hin Ha]]. apply in_sorted in Hin.
  change (rules E) with default_rules in Hin.
  unfold default_rules, fixed_commands in *.
  repeat (destruct Hin as [<-|Hin];
          [cbn [action const_action handled_by_caller] in Ha;
           try (destruct (health_percentage ctx); cbn [bind] in Ha; [|discriminate]);
           injection Ha as <- _; cbn [In]; tauto|]).
  destruct Hin.
Qed.

Lemma commands_of_default_engine_witness :
  In "5" fixed_commands \/ "5" = str_of_int (goto_target_level goto_level_prompt).
Proof.
  exact (commands_of_default_engine goto_level_prompt "5" eq_refl).
Defined.

(** X6. The health percentage is never a division by zero: without a
    positive maximum it is 100.0, and with one the only failure of the
    division is a quotient too large for a float. *)
Theorem health_percentage_total (ctx : DecisionContext) :
  health_percentage ctx <> Raise ZeroDivisionError /\
  (max_health ctx <= 0 -> health_percentage ctx = Ok (float_of_int 100)) /\
  (0 < max_health ctx ->
   health_percentage ctx = Raise OverflowError \/
   exists q, int_truediv (health ctx) (max_health ctx) = Ok q /\
             health_percentage ctx = Ok (float_mul q (float_of_int 100))).
Proof.
  unfold health_percentage, int_truediv.
  destruct (max_health ctx <=? 0) eqn:Hm.
  - apply Z.leb_le in Hm. repeat split; [discriminate | lia].
  - apply Z.leb_gt in Hm.
    assert (Hz : (max_health ctx =? 0) = false) by (apply Z.eqb_neq; lia).
    rewrite Hz.
    destruct (SFdiv prec emax (int_operand (health ctx)) (int_operand (max_health ctx)));
      cbn [bind]; repeat split; try discriminate; try lia; intros _;
      try (right; eexists; split; reflexivity).
    now left.
Qed.

End EngineMore.

Module BotFacts.
Import Str Re bot Moves Inputs.

Ltac compare_all :=
  repeat match goal with
         | |- context [?a >? ?b] => destruct (Z.gtb_spec a b)
         end.

(** X7. The key computed from the row and column differences moves the
    player one step closer to the enemy, whenever the two are not on the
    same cell. *)
Theorem direction_approaches (row_diff col_diff : Z) :
  (row_diff, col_diff) <> (0, 0) ->
  In (direction_of row_diff col_diff) movement_keys /\
  distance (row_diff - fst (step (direction_of row_diff col_diff)))
           (col_diff - snd (step (direction_of row_diff col_diff)))
  = distance row_diff col_diff - 1.
Proof.
  intros Hne.
  assert (row_diff <> 0 \/ col_diff <> 0) as Hnz.
  { destruct (Z.eq_dec row_diff 0) as [->|]; [|now left].
    right. intros ->. now apply Hne. }
  unfold direction_of, distance. compare_all; cbn; split; try tauto; lia.
Qed.

Lemma direction_approaches_witness :
  In (direction_of 2 (-2)) movement_keys /\
  distance (2 - fst (step (direction_of 2 (-2)))) (-2 - snd (step (direction_of 2 (-2))))
  = distance 2 (-2) - 1.
Proof.
  apply (direction_approaches 2 (-2)). discriminate.
Defined.

(** X8. Seen from the enemy, the direction is the opposite one. *)
Theorem direction_opposite (row_diff col_diff : Z) :
  (row_diff, col_diff) <> (0, 0) ->
  direction_of (- row_diff) (- col_diff) = opposite (direction_of row_diff col_diff).
Proof.
  intros Hne.
  assert (row_diff <> 0 \/ col_diff <> 0) as Hnz.
  { destruct (Z.eq_dec row_diff 0) as [->|]; [|now left].
    right. intros ->. now apply Hne. }
  unfold direction_of. rewrite !Z.abs_opp. compare_all; try reflexivity; lia.
Qed.

Lemma direction_opposite_witness :
  direction_of (- 0) (- 3) = opposite (direction_of 0 3).
Proof.
  apply (direction_opposite 0 3). discriminate.
Defined.

Lemma direction_of_key (r c : Z) : In (direction_of r c) ("y" :: movement_keys).
Proof. unfold direction_of. compare_all; cbn; tauto. Qed.

(** X9. [_calculate_direction_to_enemy] answers nothing for an empty screen
    or an empty enemy name, and otherwise nothing or one of the eight
    movement keys. *)
Theorem direction_is_a_key (output enemy_name : string) :
  (is_empty output = true \/ is_empty enemy_name = true ->
   _calculate_direction_to_enemy output enemy_name = None) /\
  (forall key, _calculate_direction_to_enemy output enemy_name = Some key ->
               In key movement_keys /\ output <> EmptyString /\ enemy_name <> EmptyString).
Proof.
  unfold _calculate_direction_to_enemy. split.
  - intros [H|H]; rewrite H; [reflexivity | now rewrite orb_true_r].
  - intros key. destruct (is_empty output) eqn:Ho; [discriminate|].
    destruct (is_empty enemy_name) eqn:Hn; [discriminate|]. cbn [orb].
    destruct (find_enemy_symbol enemy_name (split_lines (_clean_ansi output)));
      [|discriminate].
    cbv zeta.
    generalize (scan_map s 0 (firstn 21 (split_lines (_clean_ansi output))) no_positions).
    intros [[pr|] [pc|] [er|] [ec|]]; cbn [player_row player_col enemy_row enemy_col];
      try discriminate.
    intros H. injection H as <-. split; [|split].
    + pose proof (direction_of_key (er - pr) (ec - pc)) as Hk.
      destruct Hk as [Hk|Hk]; [|exact Hk]. rewrite <- Hk. cbn. tauto.
    + intros ->. discriminate.
    + intros ->. discriminate.
Qed.

Lemma match_at_without_escape (bol : bool) (c : ascii) (s : string) :
  Ascii.eqb c "027" = false ->
  match_at false ansi_escape bol (String c s) = None.
Proof.
  intros H. unfold match_at, ansi_escape, seq. cbn [fold_right exec].
  unfold chr_match. now rewrite H.
Qed.

Lemma remove_without_escape (s : string) (bol : bool) :
  has_escape s = false -> remove_from ansi_escape O bol s = s.
Proof.
  unfold has_escape. revert bol. induction s as [|c s IH]; intros bol H; [reflexivity|].
  cbn [contains startswith ESC] in H.
  apply orb_false_iff in H. destruct H as [Hc Hs].
  rewrite andb_true_r in Hc.
  assert (Hc' : Ascii.eqb c "027" = false) by (now rewrite Ascii.eqb_sym).
  cbn [remove_from]. rewrite (match_at_without_escape bol c s Hc').
  now rewrite IH.
Qed.

(** X10. [_clean_ansi] leaves a text without an escape character as it
    is. *)
Theorem clean_ansi_plain_text (text : string) :
  has_escape text = false -> _clean_ansi text = text.
Proof. intros H. unfold _clean_ansi, remove_all. now apply remove_without_escape. Qed.

Lemma clean_ansi_plain_text_witness : _clean_ansi kobold_screen = kobold_screen.
Proof. exact (clean_ansi_plain_text kobold_screen eq_refl). Defined.

End BotFacts.

Module ParserMore.
Import Str Re game_state Frame Frames Inputs ParserFacts.

(** X11. From a new parser, whatever frames are parsed, the health cache
    holds two positive numbers. *)
Theorem cache_always_positive (frames : list string) :
  0 < fst (last_health (parse_all new_parser frames)) /\
  0 < snd (last_health (parse_all new_parser frames)).
Proof.
  unfold parse_all.
  assert (H : 0 < fst (last_health new_parser) /\ 0 < snd (last_health new_parser))
    by (cbn; lia).
  revert H. generalize new_parser.
  induction frames as [|frame rest IH]; intros p Hp; [exact Hp|].
  cbn [fold_left]. apply IH. now apply cache_stays_positive.
Qed.

Lemma line_writes_message_only (line : string) :
  is_status_line line = false -> message_only (line_writes line).
Proof.
  unfold is_status_line, line_writes, message_only.
  destruct (is_empty line || (len (strip line) <? 2))%bool; cbn [negb andb];
    [now repeat split|].
  destruct (has_status line); [discriminate|]. intros _.
  destruct (endswith_char (strip line) "." || endswith_char (strip line) "?")%bool;
    now repeat split.
Qed.

Lemma lines_writes_message_only (lines : list string) :
  existsb is_status_line lines = false -> message_only (lines_writes lines).
Proof.
  induction lines as [|line rest IH]; [now repeat split|].
  cbn [existsb lines_writes]. intros H.
  apply orb_false_iff in H. destruct H as [Hl Hr].
  destruct (IH Hr) as (H1 & H2 & H3 & H4 & H5 & H6 & H7 & H8).
  destruct (line_writes_message_only line Hl) as (G1 & G2 & G3 & G4 & G5 & G6 & G7 & G8).
  unfold message_only, and_then_writes. cbn.
  rewrite H1, H2, H3, H4, H5, H6, H7, H8, G1, G2, G3, G4, G5, G6, G7, G8.
  now repeat split.
Qed.

(** X12. A frame without a status line changes nothing of the state but the
    message line and the health and mana values (which come from the
    cache): place, level, progress, gold, hunger, status line, inventory
    and equipment stay. *)
Theorem frame_without_status_keeps (p : GameStateParser) (output : string) :
  status_found output = false ->
  let st := state p in
  let st' := state (parse_output p output) in
  dungeon_branch st' = dungeon_branch st /\ dungeon_level st' = dungeon_level st /\
  experience_level st' = experience_level st /\
  experience_progress st' = experience_progress st /\
  gold st' = gold st /\ hunger_level st' = hunger_level st /\
  status_line st' = status_line st /\
  inventory_items st' = inventory_items st /\ equipped_items st' = equipped_items st /\
  untested_potions st' = untested_potions st /\ items_on_ground st' = items_on_ground st /\
  current_ac st' = current_ac st.
Proof.
  intros Hf. cbv zeta.
  destruct (is_empty output) eqn:He; [rewrite parse_output_empty by exact He; now repeat split|].
  rewrite (parse_output_writes p output He). cbv zeta. cbn [state]. rewrite Hf. cbn [negb].
  destruct (lines_writes_message_only _ Hf) as (H1 & H2 & H3 & H4 & H5 & H6 & H7 & H8).
  destruct (lines_writes (parsed_lines output)) as [d h m l pr g hu s e].
  cbn in H1, H2, H3, H4, H5, H6, H7, H8. subst.
  cbn. now repeat split.
Qed.

Lemma frame_without_status_keeps_witness :
  dungeon_level (state (parse_output (parse_output new_parser "D:5  Health: 9/9") blank_frame)) = 5.
Proof.
  exact (proj1 (proj2 (frame_without_status_keeps
                         (parse_output new_parser "D:5  Health: 9/9") blank_frame eq_refl))).
Defined.

Lemma later_none (A : Type) (o : option A) : later o None = o.
Proof. now destruct o. Qed.

Lemma later_assoc (A : Type) (a b c : option A) :
  later (later c b) a = later c (later b a).
Proof. now destruct c. Qed.

Lemma and_then_no_writes (u : writes) : and_then_writes no_writes u = u.
Proof.
  destruct u. unfold and_then_writes. cbn. now rewrite !later_none.
Qed.

Lemma and_then_assoc (u v w : writes) :
  and_then_writes (and_then_writes u v) w = and_then_writes u (and_then_writes v w).
Proof.
  unfold and_then_writes. cbn. now rewrite !later_assoc.
Qed.

Lemma lines_writes_app (a b : list string) :
  lines_writes (a ++ b) = and_then_writes (lines_writes a) (lines_writes b).
Proof.
  induction a as [|x a IH]; cbn [app lines_writes].
  - now rewrite and_then_no_writes.
  - now rewrite IH, and_then_assoc.
Qed.

Lemma no_later_health (lines : list string) :
  (forall l, In l lines -> is_status_line l = true -> first_search hp_patterns l = None) ->
  u_health (lines_writes lines) = None.
Proof.
  induction lines as [|line rest IH]; intros H; [reflexivity|].
  cbn [lines_writes and_then_writes u_health].
  rewrite IH by (intros l Hin; apply H; now right). cbn [later].
  pose proof (H line (or_introl eq_refl)) as Hl.
  unfold line_writes. unfold is_status_line in Hl.
  destruct (is_empty line || (len (strip line) <? 2))%bool; cbn [negb andb] in Hl;
    [reflexivity|].
  destruct (has_status line).
  - unfold status_writes. cbn [u_health]. now rewrite (Hl eq_refl).
  - now destruct (endswith_char (strip line) "." || endswith_char (strip line) "?")%bool.
Qed.

(** X13. Of the status lines of a frame that show a health pair, the last
    one decides: the state holds its two numbers. *)
Theorem last_health_line_wins (p : GameStateParser) (output : string)
        (front back : list string) (line : string) (m : captures) :
  parsed_lines output = front ++ line :: back ->
  is_status_line line = true ->
  first_search hp_patterns line = Some m ->
  (forall l, In l back -> is_status_line l = true -> first_search hp_patterns l = None) ->
  health (state (parse_output p output)) = int_group 1 m /\
  max_health (state (parse_output p output)) = int_group 2 m.
Proof.
  intros Hlines Hst Hm Hback.
  assert (He : is_empty output = false).
  { destruct output; [|reflexivity]. destruct front; discriminate Hlines. }
  assert (Hf : status_found output = true).
  { unfold status_found. rewrite Hlines, existsb_app. cbn [existsb].
    rewrite Hst. now rewrite orb_true_r. }
  rewrite (parse_output_writes p output He). cbv zeta. cbn [state]. rewrite Hf. cbn [negb].
  rewrite Hlines, lines_writes_app. cbn [lines_writes].
  assert (Hu : u_health (and_then_writes (lines_writes front)
                           (and_then_writes (line_writes line) (lines_writes back)))
               = Some (pair_of m)).
  { cbn [and_then_writes u_health]. rewrite (no_later_health back Hback). cbn [later].
    unfold line_writes. unfold is_status_line in Hst.
    destruct (is_empty line || (len (strip line) <? 2))%bool; cbn [negb andb] in Hst;
      [discriminate|].
    rewrite Hst. unfold status_writes. cbn [u_health]. now rewrite Hm. }
  unfold write. cbn [health max_health]. rewrite Hu. now split.
Qed.

Lemma last_health_line_wins_witness :
  health (state (parse_output new_parser two_status_lines)) = 17 /\
  max_health (state (parse_output new_parser two_status_lines)) = 23.
Proof.
  refine (last_health_line_wins new_parser two_status_lines
            ["Health: 23/23"] [] "Health: 17/23"
            [(2%nat, "23"); (1%nat, "17")] eq_refl eq_refl eq_refl _).
  intros l [].
Defined.

End ParserMore.

Module ReFacts.
Import Str Re.

Lemma exec_lit_startswith (A : Type) (s : string) (bol : bool) (t : string)
      (caps : captures) (k : cont) (a : A) :
  exec false (lit s) bol t caps k = Some a -> startswith s t = true.
Proof.
  revert bol t. induction s as [|c s IH]; intros bol t; [now destruct t|].
  cbn [lit exec]. destruct t as [|x t]; [discriminate|].
  unfold chr_match. cbn [andb]. rewrite orb_false_r.
  destruct (Ascii.eqb x c) eqn:Hx; [|discriminate].
  intros H. cbn [startswith]. rewrite Ascii.eqb_sym, Hx. cbn [andb].
  exact (IH _ _ H).
Qed.

(** A pattern that begins with a literal matches only where the literal
    is. *)
Lemma match_at_lit_startswith (s : string) (r : regex) (bol : bool) (t : string) m :
  match_at false (Cat (lit s) r) bol t = Some m -> startswith s t = true.
Proof. unfold match_at. cbn [exec]. apply exec_lit_startswith. Qed.

Lemma search_from_contains (s : string) (r : regex) (bol : bool) (t : string) m :
  (forall bol' t' m', match_at false r bol' t' = Some m' -> startswith s t' = true) ->
  search_from false r bol t = Some m -> contains s t = true.
Proof.
  intros Hr. revert bol. induction t as [|x t IH]; intros bol; cbn [search_from].
  - destruct (match_at false r bol EmptyString) eqn:Hm; [|discriminate].
    intros _. cbn [contains]. now rewrite (Hr _ _ _ Hm).
  - destruct (match_at false r bol (String x t)) eqn:Hm.
    + intros _. cbn [contains]. now rewrite (Hr _ _ _ Hm).
    + intros H. cbn [contains]. rewrite (IH _ H). apply orb_true_r.
Qed.

Lemma search_lit_contains (s : string) (r : regex) (t : string) :
  search false (Cat (lit s) r) t <> None -> contains s t = true.
Proof.
  unfold search. destruct (search_from false (Cat (lit s) r) true t) eqn:H; [|now intros []].
  intros _. eapply search_from_contains; [|exact H].
  intros bol' t' m'. apply match_at_lit_startswith.
Qed.

Lemma found_contains (s : string) (rs : list regex) (t : string) :
  match search false (seq (lit s :: rs)) t with Some _ => true | None => false end = true ->
  contains s t = true.
Proof.
  intros H. apply (search_lit_contains s (seq rs)).
  change (Cat (lit s) (seq rs)) with (seq (lit s :: rs)).
  destruct (search false (seq (lit s :: rs)) t); [discriminate | discriminate H].
Qed.

Lemma lower_char_twice (c : ascii) : lower_char (lower_char c) = lower_char c.
Proof. destruct c as [[] [] [] [] [] [] [] []]; reflexivity. Qed.

Lemma lower_twice (s : string) : lower (lower s) = lower s.
Proof.
  induction s as [|c s IH]; [reflexivity|].
  cbn [lower]. now rewrite lower_char_twice, IH.
Qed.

End ReFacts.

Module CreationMore.
Import Str Re char_creation_state_machine Creation Inputs CharCreationFacts ReFacts.

Lemma State_eqb_eq (a b : State) : State_eqb a b = true <-> a = b.
Proof. destruct a, b; cbn; split; congruence. Qed.

Lemma State_eqb_refl (a : State) : State_eqb a a = true.
Proof. now destruct a. Qed.

Lemma _trigger_transition_forward (target_state : CharCreationStates) (cur cur' : State) :
  _trigger_transition target_state cur = Ok cur' ->
  cur' = cur \/ (rank cur < rank cur' /\ cur' <> error /\ cur' <> confirmation).
Proof.
  destruct target_state, cur; cbn; intros H; injection H as <-;
    try (now left); right; repeat split; try lia; discriminate.
Qed.

Lemma update_current (m : CharacterCreationStateMachine) (text : string) :
  exists m', update m text = Ok m' /\
    _process_screen (current_state m) (lower text) = Ok (current_state m') /\
    stuck_count m' =
      (if last_state_is (last_state m) (current_state m) then stuck_count m + 1 else 0) /\
    max_stuck_threshold m' = max_stuck_threshold m /\
    last_state m' = Some (current_state m') /\
    state_history m' =
      (if negb (State_eqb (current_state m) (current_state m'))
       then state_history m ++ [id (current_state m')] else state_history m).
Proof.
  destruct (update_returns m text) as [m' H]. exists m'. split; [exact H|].
  unfold update in H.
  destruct (_process_screen (current_state m) (lower text)) as [cur|]; [|discriminate].
  cbn [bind] in H. injection H as <-. cbn. now repeat split.
Qed.

(** An update never raises, and it moves the machine forward only. *)
Lemma update_forward (m : CharacterCreationStateMachine) (text : string) :
  exists m', update m text = Ok m' /\
    (current_state m' = current_state m \/
     (rank (current_state m) < rank (current_state m') /\
      current_state m' <> error /\ current_state m' <> confirmation)).
Proof.
  destruct (update_current m text) as [m' [H [Hp _]]]. exists m'. split; [exact H|].
  unfold _process_screen in Hp.
  destruct (State_eqb (current_state m) gameplay); [injection Hp as <-; now left|].
  destruct (first_matching transition_patterns (lower text)) as [t|];
    [|injection Hp as <-; now left].
  now apply _trigger_transition_forward in Hp.
Qed.

Lemma updates_snoc (m : CharacterCreationStateMachine) (screens : list string) (text : string) :
  updates m (screens ++ [text]) = (m' <- updates m screens ;; update m' text).
Proof.
  revert m. induction screens as [|s rest IH]; intros m; cbn [app updates bind].
  - now destruct (update m text).
  - destruct (update m s) as [m1|]; cbn [bind]; [apply IH | reflexivity].
Qed.

(** X14. From every machine, every sequence of updates returns - no guarded
    call of a transition raises - and the machine only moves forward in the
    order of the creation screens: startup, species, class, background,
    skills, abilities, difficulty, gameplay. *)
Theorem updates_move_forward (m : CharacterCreationStateMachine) (screens : list string) :
  exists m', updates m screens = Ok m' /\
             rank (current_state m) <= rank (current_state m').
Proof.
  revert m. induction screens as [|text rest IH]; intros m.
  - exists m. split; [reflexivity | lia].
  - cbn [updates]. destruct (update_forward m text) as [m1 [-> Hs]]. cbn [bind].
    destruct (IH m1) as [m' [Hm' Hr]]. exists m'. split; [exact Hm'|].
    destruct Hs as [<-|[Hs _]]; lia.
Qed.

(** X15. From a new machine, no sequence of updates brings the machine into
    [error] or into [confirmation]: the updates never enter these two
    states. *)
Theorem error_and_confirmation_unreachable (screens : list string) :
  exists m, updates new_machine screens = Ok m /\
            current_state m <> error /\ current_state m <> confirmation.
Proof.
  induction screens as [|text rest IH] using rev_ind.
  - exists new_machine. repeat split; discriminate.
  - destruct IH as [m [Hm [H1 H2]]]. rewrite updates_snoc, Hm. cbn [bind].
    destruct (update_forward m text) as [m' [Hu Hs]]. exists m'.
    split; [exact Hu|]. destruct Hs as [->|[_ Hs]]; [now split | exact Hs].
Qed.

(** X16. The stuck counter counts updates, not repeated states: after the
    first update of a new machine every further update adds one, whether
    the state changed or not, so the machine reports to be stuck from the
    fourth update on. *)
Theorem stuck_count_counts_updates (screens : list string) (first : string) :
  exists m, updates new_machine (first :: screens) = Ok m /\
            stuck_count m = Z.of_nat (List.length screens) /\
            is_stuck m = (3 <=? Z.of_nat (List.length screens)).
Proof.
  assert (H : exists m, updates new_machine (first :: screens) = Ok m /\
                        stuck_count m = Z.of_nat (List.length screens) /\
                        max_stuck_threshold m = 3 /\
                        last_state m = Some (current_state m)).
  { induction screens as [|text rest IH] using rev_ind.
    - cbn [updates].
      destruct (update_current new_machine first) as [m' [Hu [_ [Hs [Ht [Hl _]]]]]].
      rewrite Hu. cbn [bind]. exists m'. now repeat split.
    - destruct IH as [m [Hm [Hs [Ht Hl]]]].
      change (first :: rest ++ [text]) with ((first :: rest) ++ [text]).
      rewrite updates_snoc, Hm. cbn [bind].
      destruct (update_current m text) as [m' [Hu [_ [Hs' [Ht' [Hl' _]]]]]].
      exists m'. split; [exact Hu|]. rewrite Hl in Hs'. cbn [last_state_is] in Hs'.
      rewrite State_eqb_refl in Hs'.
      rewrite Hs', Hs, Ht', Ht, length_app. cbn [List.length].
      repeat split; [lia | exact Hl']. }
  destruct H as [m [Hm [Hs [Ht _]]]]. exists m. repeat split; auto.
  unfold is_stuck. rewrite Hs, Ht. apply Z.geb_leb.
Qed.

Lemma update_history (m : CharacterCreationStateMachine) (text : string) :
  history_agrees m ->
  exists m', update m text = Ok m' /\ history_agrees m'.
Proof.
  intros Hh. destruct (update_current m text) as [m' [Hu [_ [_ [_ [_ Hhist]]]]]].
  exists m'. split; [exact Hu|]. unfold history_agrees in *. rewrite Hhist.
  destruct (State_eqb (current_state m) (current_state m')) eqn:He; cbn [negb].
  - apply State_eqb_eq in He. now rewrite <- He.
  - right. now rewrite last_last.
Qed.

(** X17. From a new machine, after every sequence of updates the history
    ends with the state the machine is in; only a machine still at the
    start-up screen has the history that it began with. *)
Theorem history_follows_state (screens : list string) :
  exists m, updates new_machine screens = Ok m /\ history_agrees m.
Proof.
  induction screens as [|text rest IH] using rev_ind.
  - exists new_machine. split; [reflexivity|]. left. now split.
  - destruct IH as [m [Hm Hh]]. rewrite updates_snoc, Hm. cbn [bind].
    now apply update_history.
Qed.

Lemma gameplay_only_by_its_pattern (target_state : CharCreationStates) (cur : State) :
  cur <> gameplay -> _trigger_transition target_state cur = Ok gameplay ->
  target_state = GAMEPLAY.
Proof.
  intros Hne. destruct target_state, cur; cbn; intros H; try discriminate; try reflexivity;
    now destruct Hne.
Qed.

Lemma first_matching_gameplay (text : string) :
  first_matching transition_patterns text = Some GAMEPLAY ->
  contains "hp:" (lower text) = true /\ contains "ac:" (lower text) = true /\
  contains "ev:" (lower text) = true.
Proof.
  unfold transition_patterns. cbn [first_matching].
  match goal with
  | |- context [matches ?p text] => destruct (matches p text) eqn:Hg
  end.
  - intros _. unfold matches in Hg. cbn [case_sensitive match_all patterns forallb] in Hg.
    apply andb_true_iff in Hg. destruct Hg as [H1 Hg].
    apply andb_true_iff in Hg. destruct Hg as [H2 Hg].
    apply andb_true_iff in Hg. destruct Hg as [H3 _].
    unfold pattern_found in H1, H2, H3.
    repeat split; eapply found_contains; eassumption.
  - repeat match goal with
           | |- context [matches ?p text] => destruct (matches p text)
           end; discriminate.
Qed.

(** X18. The machine enters [gameplay] only on a screen that shows all three
    of the markers [hp:], [ac:] and [ev:] (in any case of the letters). *)
Theorem gameplay_needs_three_markers (m m' : CharacterCreationStateMachine) (text : string) :
  update m text = Ok m' ->
  current_state m <> gameplay ->
  current_state m' = gameplay ->
  contains "hp:" (lower text) = true /\ contains "ac:" (lower text) = true /\
  contains "ev:" (lower text) = true.
Proof.
  intros Hu Hne Hg.
  destruct (update_current m text) as [m1 [Hu1 [Hp _]]].
  rewrite Hu in Hu1. injection Hu1 as <-. rewrite Hg in Hp.
  unfold _process_screen in Hp.
  destruct (State_eqb (current_state m) gameplay) eqn:He;
    [apply State_eqb_eq in He; contradiction|].
  destruct (first_matching transition_patterns (lower text)) as [t|] eqn:Hf;
    [|injection Hp as Hp; contradiction].
  apply (gameplay_only_by_its_pattern t _ Hne) in Hp. subst t.
  apply first_matching_gameplay in Hf. now rewrite lower_twice in Hf.
Qed.

Lemma gameplay_needs_three_markers_witness :
  contains "hp:" (lower hud_screen) = true /\ contains "ac:" (lower hud_screen) = true /\
  contains "ev:" (lower hud_screen) = true.
Proof.
  exact (gameplay_needs_three_markers machine_at_species machine_in_play hud_screen
           eq_refl ltac:(discriminate) eq_refl).
Defined.

End CreationMore.

Module ScreensMore.
Import Str Re game_state game_state_screens Screens Inputs ReFacts.

Lemma item_of_line_well_formed (slot0 desc : string) :
  well_formed (slot0, item_of_line slot0 desc).
Proof.
  unfold well_formed, item_of_line. cbn [fst snd slot is_equipped equipment_slot ac_value
    quantity identified color item_type].
  destruct (contains "potion" (lower desc));
    [cbn; repeat split; try tauto; try congruence; auto|].
  destruct (contains "gold" (lower desc));
    [cbn; repeat split; try tauto; try congruence; auto|].
  destruct (any_in weapon_words (lower desc));
    [cbn; repeat split; try tauto; try congruence; auto|].
  destruct (any_in armor_words (lower desc));
    [cbn [String.eqb Ascii.eqb Bool.eqb orb andb]; repeat split; try tauto; try congruence; auto;
     discriminate|].
  destruct (contains "scroll" (lower desc));
    cbn; repeat split; try tauto; try congruence; auto.
Qed.

Lemma dict_set_in (V : Type) (key : string) (v : V) (d : list (string * V)) kv :
  In kv (dict_set key v d) -> kv = (key, v) \/ In kv d.
Proof.
  induction d as [|[k w] d IH]; cbn [dict_set].
  - intros [<-|[]]. now left.
  - destruct (String.eqb k key) eqn:Hk.
    + apply String.eqb_eq in Hk. subst k. intros [<-|H]; [now left | right; now right].
    + intros [<-|H]; [right; now left|]. destruct (IH H); [now left | right; now right].
Qed.

Lemma dict_set_keys (V : Type) (key : string) (v : V) (d : list (string * V)) :
  NoDup (map fst d) -> NoDup (map fst (dict_set key v d)).
Proof.
  induction d as [|[k w] d IH]; cbn [dict_set map fst]; intros Hd.
  - constructor; [intros [] | constructor].
  - destruct (String.eqb k key) eqn:Hk; [exact Hd|].
    inversion Hd as [|? ? Hnot Hrest]; subst. cbn [map fst].
    constructor; [|now apply IH].
    intros Hin. apply in_map_iff in Hin. destruct Hin as [[k' v'] [Hfst Hin]].
    cbn in Hfst. subst k'. apply dict_set_in in Hin. destruct Hin as [Heq|Hin].
    + injection Heq as Heq _. subst key. now rewrite String.eqb_refl in Hk.
    + apply Hnot. apply in_map_iff. now exists (k, v').
Qed.

Lemma get_dict_set (V : Type) (key k : string) (v : V) (d : list (string * V)) :
  get k (dict_set key v d) = if String.eqb key k then Some v else get k d.
Proof.
  induction d as [|[k0 w] d IH]; cbn [dict_set get].
  - reflexivity.
  - destruct (String.eqb k0 key) eqn:H0; cbn [get].
    + apply String.eqb_eq in H0. subst k0. now destruct (String.eqb key k).
    + rewrite IH. destruct (String.eqb k0 k) eqn:H1; [|reflexivity].
      apply String.eqb_eq in H1. subst k0. now rewrite String.eqb_sym, H0.
Qed.

Lemma parse_inventory_lines_keeps (lines : list string) items untested :
  Forall well_formed items -> NoDup (map fst items) ->
  Forall well_formed (fst (parse_inventory_lines lines items untested)) /\
  NoDup (map fst (fst (parse_inventory_lines lines items untested))) /\
  (forall k, get k untested <> None ->
             get k (snd (parse_inventory_lines lines items untested)) <> None).
Proof.
  revert items untested. induction lines as [|line rest IH]; intros items untested Hw Hd.
  - cbn. auto.
  - cbn [parse_inventory_lines]. cbv zeta.
    destruct (is_empty (strip line)); [now apply IH|].
    destruct (match_to_end inventory_pattern (strip line)) as [m|]; [|now apply IH].
    set (item := item_of_line (group 1 m) (strip (group 2 m))).
    set (untested' := if (_ && _ && _)%bool then _ else untested).
    destruct (IH (dict_set (group 1 m) item items) untested') as [H1 [H2 H3]].
    + rewrite Forall_forall. intros kv Hin. apply dict_set_in in Hin.
      destruct Hin as [->|Hin]; [apply item_of_line_well_formed|].
      rewrite Forall_forall in Hw. now apply Hw.
    + now apply dict_set_keys.
    + repeat split; auto. intros k Hk. apply H3. unfold untested'.
      destruct (_ && _ && _)%bool; [|exact Hk].
      rewrite get_dict_set. now destruct (String.eqb (group 1 m) k).
Qed.

(** X19. Every entry that [parse_inventory_screen] stores is under its own
    slot letter and not equipped; only armor has an equipment slot or an
    armor-class value, only gold a quantity, only potions a colour, only
    potions and scrolls are unidentified; and no slot letter is stored
    twice. *)
Theorem parsed_inventory_well_formed (st : GameState) (screen_text : string) :
  Forall well_formed (inventory_items (parse_inventory_screen st screen_text)) /\
  NoDup (map fst (inventory_items (parse_inventory_screen st screen_text))).
Proof.
  unfold parse_inventory_screen.
  set (lines := split_lines _).
  destruct (parse_inventory_lines_keeps lines [] (untested_potions st)) as [H1 [H2 _]];
    [constructor | constructor |].
  destruct (parse_inventory_lines lines [] (untested_potions st)) as [items untested].
  now split.
Qed.

(** X20. [parse_inventory_screen] never forgets an untested potion: a slot
    that was recorded as one stays recorded, whatever the screen shows. *)
Theorem untested_potions_stay (st : GameState) (screen_text k : string) :
  get k (untested_potions st) <> None ->
  get k (untested_potions (parse_inventory_screen st screen_text)) <> None.
Proof.
  intros Hk. unfold parse_inventory_screen.
  set (lines := split_lines _).
  destruct (parse_inventory_lines_keeps lines [] (untested_potions st)) as [_ [_ H3]];
    [constructor | constructor |].
  specialize (H3 k Hk).
  destruct (parse_inventory_lines lines [] (untested_potions st)) as [items untested].
  exact H3.
Qed.

Lemma untested_potions_stay_witness :
  get "c" (untested_potions
             (parse_inventory_screen (parse_inventory_screen new_state pack_screen)
                                     "c - +0 dagger")) <> None.
Proof.
  apply (untested_potions_stay (parse_inventory_screen new_state pack_screen)
                               "c - +0 dagger" "c").
  vm_compute. discriminate.
Defined.

Lemma startswith_app (a b t : string) :
  startswith (String.append a b) t = true -> startswith a t = true.
Proof.
  revert t. induction a as [|c a IH]; intros t; [now destruct t|].
  cbn [String.append startswith]. destruct t as [|x t]; [discriminate|].
  intros H. apply andb_true_iff in H. destruct H as [H1 H2].
  now rewrite H1, (IH _ H2).
Qed.

Lemma contains_app (a b t : string) :
  contains (String.append a b) t = true -> contains a t = true.
Proof.
  induction t as [|x t IH]; cbn [contains]; intros H.
  - rewrite orb_false_r in *. now apply (startswith_app a b).
  - apply orb_true_iff in H. apply orb_true_iff.
    destruct H as [H|H]; [left; now apply (startswith_app a b) | right; auto].
Qed.

(** X21. When [extract_level_from_message] finds a level, the message is one
    that [has_level_up_message] recognises, and the level is not
    negative. *)
Theorem extracted_level_is_announced (output : string) (n : Z) :
  extract_level_from_message output = Some n ->
  has_level_up_message output = true /\ 0 <= n.
Proof.
  unfold extract_level_from_message, has_level_up_message.
  destruct (search false reached_level_pattern output) as [m|] eqn:H1.
  - intros H. injection H as <-. split; [|apply ParserFacts.int_group_nonneg].
    apply orb_true_iff. left.
    apply (contains_app "You have reached level" " ").
    apply (found_contains "You have reached level " [Grp 1 digits]).
    unfold reached_level_pattern in H1. now rewrite H1.
  - destruct (search false reach_level_pattern output) as [m|] eqn:H2; [|discriminate].
    intros H. injection H as <-. split; [|apply ParserFacts.int_group_nonneg].
    apply orb_true_iff. right.
    apply (contains_app "You reach level" " ").
    apply (found_contains "You reach level " [Grp 1 digits]).
    unfold reach_level_pattern in H2. now rewrite H2.
Qed.

Lemma extracted_level_is_announced_witness :
  has_level_up_message level_up_message = true /\ 0 <= 12.
Proof. exact (extracted_level_is_announced level_up_message 12 eq_refl). Defined.

End ScreensMore.

Module ActionsMore.
Import Str Re game_state game_state_screens decision_engine bot_actions Actions Screens Armor
       Inputs ArmorFacts.

Lemma credit_some (st : GameState) (item : InventoryItem) (d : Z) :
  credit st item = Some d ->
  item_type item = "armor" /\ is_equipped item = false /\ ac_value item < 0 /\
  no_slot (equipment_slot item) = false.
Proof.
  unfold credit.
  destruct (String.eqb (item_type item) "armor") eqn:Ht; [|discriminate].
  destruct (no_slot (equipment_slot item)); [discriminate|].
  destruct (is_equipped item); [discriminate|].
  destruct (ac_value item <? 0) eqn:Hn; [|discriminate].
  intros _. apply String.eqb_eq in Ht. apply Z.ltb_lt in Hn. now repeat split.
Qed.

Lemma find_better_armor_in (st : GameState) (slot0 : string) (item : InventoryItem) :
  find_better_armor st = Some (slot0, item) ->
  In (slot0, item) (inventory_items st) /\ exists d, credit st item = Some d.
Proof.
  rewrite find_better_armor_hd. unfold better_items.
  pose proof (best_entry st (inventory_items st)) as H.
  destruct (hd_error (sort_desc (flat_map (consider st) (inventory_items st))))
    as [[[d s] i]|]; [|discriminate].
  cbn [option_map fst snd]. intros Heq. injection Heq as -> ->.
  destruct H as [before [after [Hinv [Hc _]]]]. split; [|now exists d].
  rewrite Hinv. apply in_or_app. right. now left.
Qed.

(** X22. When [_find_and_equip_better_armor] sends a command, it is [e], and
    the slot it stores for the next prompt holds an armor item of the
    inventory that is not equipped and has at least three points of
    protection; when it sends none, the bot is as it was. *)
Theorem equips_only_real_armor (b : DCSSBot) :
  match _find_and_equip_better_armor b with
  | (b', Some command) =>
      command = "e" /\ parser_state b' = parser_state b /\
      exists slot0 item,
        equip_slot b' = Some slot0 /\
        In (slot0, item) (inventory_items (parser_state b)) /\
        item_type item = "armor" /\ is_equipped item = false /\ ac_value item <= -3
  | (b', None) => b' = b
  end.
Proof.
  unfold _find_and_equip_better_armor.
  destruct (find_better_armor (parser_state b)) as [[slot0 item]|] eqn:Hf; [|reflexivity].
  destruct (ac_value item <? -2) eqn:Hac; [|reflexivity].
  cbn. apply Z.ltb_lt in Hac.
  destruct (find_better_armor_in _ _ _ Hf) as [Hin [d Hc]].
  destruct (credit_some _ _ _ Hc) as [Ht [He _]].
  repeat split. exists slot0, item. repeat split; auto. lia.
Qed.

Lemma equips_only_real_armor_witness :
  snd (_find_and_equip_better_armor (idle_bot with_good_helmet)) = Some "e".
Proof.
  pose proof (equips_only_real_armor (idle_bot with_good_helmet)) as H.
  destruct (_find_and_equip_better_armor (idle_bot with_good_helmet)) as [b' [c|]] eqn:E.
  - destruct H as [-> _]. reflexivity.
  - vm_compute in E. discriminate E.
Defined.

Lemma parse_inventory_lines_listed (lines : list string) items untested :
  (forall k, get k untested <> None -> get k items <> None) ->
  forall k, get k (snd (parse_inventory_lines lines items untested)) <> None ->
            get k (fst (parse_inventory_lines lines items untested)) <> None.
Proof.
  revert items untested. induction lines as [|line rest IH]; intros items untested H.
  - exact H.
  - cbn [parse_inventory_lines]. cbv zeta.
    destruct (is_empty (strip line)); [now apply IH|].
    destruct (match_to_end inventory_pattern (strip line)) as [m|]; [|now apply IH].
    apply IH. intros k.
    rewrite (ScreensMore.get_dict_set InventoryItem).
    destruct (_ && _ && _)%bool.
    + rewrite (ScreensMore.get_dict_set string).
      destruct (String.eqb (group 1 m) k); [discriminate | apply H].
    + intros Hk. destruct (String.eqb (group 1 m) k); [discriminate | now apply H].
Qed.

(** X23. When no untested potion was recorded before, and the bot parses an
    inventory screen and then looks for a potion to identify, either it
    sends [q] and the slot it stores for the next prompt is one that the
    parsed inventory lists, or it sends nothing and the screen has recorded
    no untested potion. *)
Theorem quaffs_a_listed_slot (b : DCSSBot) (screen_text : string) :
  untested_potions (parser_state b) = [] ->
  let st := parse_inventory_screen (parser_state b) screen_text in
  match _identify_untested_potions (with_parser_state b st) with
  | (b', Some command) =>
      command = "q" /\
      exists slot0 item,
        quaff_slot b' = Some slot0 /\ get slot0 (inventory_items st) = Some item
  | (b', None) => untested_potions st = []
  end.
Proof.
  intros Hu st.
  assert (Hl : forall k, get k (untested_potions st) <> None ->
                         get k (inventory_items st) <> None).
  { unfold st, parse_inventory_screen. rewrite Hu.
    set (lines := split_lines _).
    pose proof (parse_inventory_lines_listed lines [] []) as H.
    destruct (parse_inventory_lines lines [] []) as [items untested].
    apply H. intros k Hk. now contradiction Hk. }
  unfold _identify_untested_potions.
  cbn [parser_state with_parser_state].
  destruct (untested_potions st) as [|[slot0 c] rest]; [reflexivity|].
  cbn. split; [reflexivity|].
  specialize (Hl slot0). cbn [get] in Hl. rewrite String.eqb_refl in Hl.
  destruct (get slot0 (inventory_items st)) as [item|] eqn:Hg.
  - now exists slot0, item.
  - exfalso. apply Hl; [discriminate | reflexivity].
Qed.

Lemma quaffs_a_listed_slot_witness :
  snd (_identify_untested_potions
         (with_parser_state (idle_bot new_state)
                            (parse_inventory_screen new_state pack_screen))) = Some "q".
Proof.
  pose proof (quaffs_a_listed_slot (idle_bot new_state) pack_screen eq_refl) as H.
  cbv zeta in H. cbn [parser_state idle_bot] in H.
  destruct (_identify_untested_potions _) as [b' [c|]] eqn:E.
  - destruct H as [-> _]. reflexivity.
  - vm_compute in H. discriminate H.
Defined.

(** X24. In this code the engine is never reached from [_decide_action]:
    [_prepare_decision_context] passes the keyword [enemy_direction], which
    the dataclass [DecisionContext] does not have, so the constructor raises
    [TypeError]; whatever the screen and whatever engine, [_decide_action]
    answers [o] with the reason of the error fallback and counts no
    decision. *)
Theorem decide_action_always_falls_back (b : DCSSBot) (engine : DecisionEngine)
        (found : outcome observations) :
  (forall v, DecisionContext_init (arguments v) = Raises TypeError) /\
  snd (_decide_action b engine found) = "o" /\
  action_reason (fst (_decide_action b engine found))
  = [Lit "Auto-explore (engine error fallback)"] /\
  engine_decisions_made (fst (_decide_action b engine found)) = engine_decisions_made b.
Proof.
  assert (H : forall v, DecisionContext_init (arguments v) = Raises TypeError)
    by (intros v; reflexivity).
  split; [exact H|].
  unfold _decide_action, _prepare_decision_context.
  destruct found as [v|e]; [rewrite H|]; cbn; now repeat split.
Qed.

End ActionsMore.
